(** * website-absensi: the attendance tracker's core, embedded and verified

    The development follows the repository:
    - [JsObject], [Charts]   the chart aggregation of [GET /charts]
                             (server/routes/attendance.js);
    - [Json], [Joi], [Schemas]   the validation schemas of the classes,
                             students and attendance routers;
    - [ValidationSpec]       the validation rules in the words of the
                             specification;
    - [Supabase]             the relational store behind [req.supabase]
                             (supabase/migrations);
    - [JsString], [Js]       the strings and Numbers of JavaScript;
    - [Routes]               the request handlers that read and write the
                             store, and [db.getClassAttendanceForDate]
                             (src/lib/supabase.js);
    - [Dashboard], [Binary64]   the attendance rate of [loadDashboardData];
    - [Sample]               a small school for worked examples.
    The second half proves what the specification says of them.

    JavaScript values are modelled as the code has them: strings as
    [string], the UTF-8 bytes of the text, with their length in UTF-16
    code units; plain objects as association lists in property order,
    arrays as lists, Numbers that count things as [nat], Numbers that are
    divided and rounded, or read from a query string, as binary64
    values. What the code takes from its platform without defining it
    (the clock, date parsing, Joi's GUID pattern, the store's reading of
    uuid and date literals, the collation of names) is a [Variable] of
    the section that uses it. *)

From Stdlib Require Import List String Ascii Bool Arith ZArith QArith Qabs Lia.
From Stdlib Require Import DecimalString SpecFloat FloatOps PrimFloat Uint63.
From Stdlib Require Import Permutation Sorted.
Import ListNotations.

Local Close Scope Q_scope.
Local Open Scope string_scope.
Local Open Scope list_scope.

(** ** The four attendance statuses

    [attendance_status] of the migration, [Joi.string().valid(...)] of the
    routers. *)
Inductive status : Type := Present | Absent | Late | Excused.

Definition status_eqb (a b : status) : bool :=
  match a, b with
  | Present, Present | Absent, Absent | Late, Late | Excused, Excused => true
  | _, _ => false
  end.

Definition status_name (s : status) : string :=
  match s with
  | Present => "Present"
  | Absent => "Absent"
  | Late => "Late"
  | Excused => "Excused"
  end.

(** ** Plain JavaScript objects keyed by strings *)
Module JsObject.

(** Own properties, in the order they were created. *)
Definition t (V : Type) : Type := list (string * V).

Fixpoint own {V} (o : t V) (k : string) : option V :=
  match o with
  | [] => None
  | (k', v) :: o' => if String.eqb k k' then Some v else own o' k
  end.

(** [o[k] = v]: an existing property keeps its place, a new one goes
    last. *)
Fixpoint set {V} (o : t V) (k : string) (v : V) : t V :=
  match o with
  | [] => [(k, v)]
  | (k', v') :: o' =>
      if String.eqb k k' then (k', v) :: o' else (k', v') :: set o' k v
  end.

Definition keys {V} (o : t V) : list string := map fst o.

(** Names every object literal inherits from [Object.prototype]; a read
    [o[k]] of one of them is truthy although [o] has no such property. *)
Definition prototype_keys : list string :=
  [ "constructor"; "__proto__"; "hasOwnProperty"; "isPrototypeOf";
    "propertyIsEnumerable"; "toLocaleString"; "toString"; "valueOf";
    "__defineGetter__"; "__defineSetter__";
    "__lookupGetter__"; "__lookupSetter__" ].

Definition inherited (k : string) : bool :=
  existsb (String.eqb k) prototype_keys.

(** Array-index keys: the canonical decimal numerals below 2^32 - 1.
    [Object.entries] lists them first, in ascending numeric order, and
    the remaining string keys after them in creation order. *)
Definition is_digit (c : ascii) : bool :=
  let n := nat_of_ascii c in (48 <=? n)%nat && (n <=? 57)%nat.

Fixpoint all_digits (s : string) : bool :=
  match s with
  | EmptyString => true
  | String c s' => is_digit c && all_digits s'
  end.

Fixpoint numeral_value (acc : N) (s : string) : N :=
  match s with
  | EmptyString => acc
  | String c s' =>
      numeral_value (acc * 10 + (N.of_nat (nat_of_ascii c) - 48))%N s'
  end.

Definition is_array_index (s : string) : bool :=
  match s with
  | EmptyString => false
  | String c s' =>
      all_digits s
      && (negb (Ascii.eqb c "0") || String.eqb s' "")
      && (numeral_value 0 s <? 4294967295)%N
  end.

Fixpoint insert_index {V} (kv : string * V) (l : t V) : t V :=
  match l with
  | [] => [kv]
  | kv' :: l' =>
      if (numeral_value 0 (fst kv) <=? numeral_value 0 (fst kv'))%N
      then kv :: l
      else kv' :: insert_index kv l'
  end.

Definition entries {V} (o : t V) : list (string * V) :=
  fold_right insert_index [] (filter (fun kv => is_array_index (fst kv)) o)
  ++ filter (fun kv => negb (is_array_index (fst kv))) o.

End JsObject.

(** ** The chart aggregation of [router.get('/charts')] *)
Module Charts.

(** A row of the query: [select(date, status, students(...))]; the
    joined student is not read by the aggregation. *)
Record row : Type := { date : string; row_status : status }.

(** [{ Present: 0, Absent: 0, Late: 0, Excused: 0 }] *)
Record counts : Type :=
  { cPresent : nat; cAbsent : nat; cLate : nat; cExcused : nat }.

Definition zero : counts :=
  {| cPresent := 0; cAbsent := 0; cLate := 0; cExcused := 0 |}.

(** [counts[status]++] *)
Definition incr (s : status) (c : counts) : counts :=
  match s with
  | Present => {| cPresent := S (cPresent c); cAbsent := cAbsent c;
                  cLate := cLate c; cExcused := cExcused c |}
  | Absent => {| cPresent := cPresent c; cAbsent := S (cAbsent c);
                 cLate := cLate c; cExcused := cExcused c |}
  | Late => {| cPresent := cPresent c; cAbsent := cAbsent c;
               cLate := S (cLate c); cExcused := cExcused c |}
  | Excused => {| cPresent := cPresent c; cAbsent := cAbsent c;
                  cLate := cLate c; cExcused := S (cExcused c) |}
  end.

Definition get (s : status) (c : counts) : nat :=
  match s with
  | Present => cPresent c
  | Absent => cAbsent c
  | Late => cLate c
  | Excused => cExcused c
  end.

(** [Object.values(counts)], in the order of the literal. *)
Definition values (c : counts) : list nat :=
  [cPresent c; cAbsent c; cLate c; cExcused c].

Record trend : Type :=
  { t_date : string;
    t_Present : nat; t_Absent : nat; t_Late : nat; t_Excused : nat;
    t_total : nat }.

Record chartData : Type :=
  { daily : JsObject.t counts;
    statusCounts : counts;
    trends : list trend }.

Definition initial : chartData :=
  {| daily := []; statusCounts := zero; trends := [] |}.

(** The body of [data?.forEach(record => ...)]. When [date] names an
    inherited property the guard [!chartData.daily[date]] is false and
    the increment lands on the inherited object, not on [daily]. *)
Definition step (cd : chartData) (record : row) : chartData :=
  let d := date record in
  let sc := incr (row_status record) (statusCounts cd) in
  let daily1 :=
    match JsObject.own (daily cd) d with
    | Some _ => daily cd
    | None =>
        if JsObject.inherited d then daily cd
        else JsObject.set (daily cd) d zero
    end in
  let daily2 :=
    match JsObject.own daily1 d with
    | Some c => JsObject.set daily1 d (incr (row_status record) c)
    | None => daily1
    end in
  {| daily := daily2; statusCounts := sc; trends := trends cd |}.

(** [Object.entries(chartData.daily).map(([date, counts]) => ...)] *)
Definition to_trend (kv : string * counts) : trend :=
  let (d, c) := kv in
  {| t_date := d;
     t_Present := cPresent c; t_Absent := cAbsent c;
     t_Late := cLate c; t_Excused := cExcused c;
     t_total := fold_left (fun sum count => sum + count) (values c) 0 |}.

Definition aggregate (data : list row) : chartData :=
  let cd := fold_left step data initial in
  {| daily := daily cd;
     statusCounts := statusCounts cd;
     trends := map to_trend (JsObject.entries (daily cd)) |}.

(** *** What the specification counts *)

(** Rows of a given date and status. *)
Definition tally (data : list row) (d : string) (s : status) : nat :=
  List.length (filter (fun r => String.eqb (date r) d
                                && status_eqb (row_status r) s) data).

Definition tally_all (data : list row) (s : status) : nat :=
  List.length (filter (fun r => status_eqb (row_status r) s) data).

(** The distinct elements of a list, each at its first occurrence. *)
Fixpoint first_seen (l : list string) : list string :=
  match l with
  | [] => []
  | d :: l' => d :: filter (fun x => negb (String.eqb x d)) (first_seen l')
  end.

(** The store renders a [date] column as [YYYY-MM-DD]. *)
Definition is_iso_date (s : string) : bool :=
  match s with
  | String y1 (String y2 (String y3 (String y4 (String h1
      (String m1 (String m2 (String h2 (String d1 (String d2
         EmptyString))))))))) =>
      forallb JsObject.is_digit [y1; y2; y3; y4; m1; m2; d1; d2]
      && Ascii.eqb h1 "-" && Ascii.eqb h2 "-"
  | _ => false
  end.

(** What holds of [chartData] after [forEach] has gone through [data]. *)
Record invariant (data : list row) (cd : chartData) : Prop :=
  { inv_keys : JsObject.keys (daily cd) = first_seen (map date data);
    inv_daily : forall d c, JsObject.own (daily cd) d = Some c ->
                            forall s, get s c = tally data d s;
    inv_status : forall s, get s (statusCounts cd) = tally_all data s }.

End Charts.

(** ** JSON request bodies, as [express.json()] hands them to a route *)
Module Json.

#[local] Unset Elimination Schemes.
Inductive t : Type :=
| Null
| Bool (b : bool)
| Number (q : Q)
| Str (s : string)
| Array (l : list t)
| Object (o : list (string * t)).
#[local] Set Elimination Schemes.

(** [value[key]]: [None] is [undefined]. *)
Fixpoint get (o : list (string * t)) (k : string) : option t :=
  match o with
  | [] => None
  | (k', v) :: o' => if String.eqb k k' then Some v else get o' k
  end.

End Json.

(** ** JavaScript strings

    A [string] holds the UTF-8 bytes of a text. JavaScript counts and
    indexes a string by UTF-16 code units: one for a code point up to
    U+FFFF, two (a surrogate pair) for a code point beyond. *)
Module JsString.

(** The code points of a text. A byte below 128 is a code point; a byte
    from 192 on opens a sequence of two, three or four bytes, whose later
    bytes (128 to 191) carry six bits each. *)
Fixpoint code_points_from (acc : N) (more : nat) (s : string) : list N :=
  match s with
  | EmptyString => []
  | String c s' =>
      let b := N_of_ascii c in
      match more with
      | O =>
          if (b <? 128)%N then b :: code_points_from 0 0 s'
          else if (b <? 192)%N then code_points_from 0 0 s'
          else if (b <? 224)%N then code_points_from (b - 192) 1 s'
          else if (b <? 240)%N then code_points_from (b - 224) 2 s'
          else code_points_from (b - 240) 3 s'
      | S O => (acc * 64 + b mod 64)%N :: code_points_from 0 0 s'
      | S more' => code_points_from (acc * 64 + b mod 64) more' s'
      end
  end.

Definition code_points (s : string) : list N := code_points_from 0 0 s.

(** The UTF-16 code units of a code point. *)
Definition units (c : N) : nat := if (c <? 65536)%N then 1 else 2.

(** [s.length] *)
Definition length (s : string) : nat := list_sum (map units (code_points s)).

End JsString.

(** ** Joi: the validation library of the three routers

    [schema.validate(body)] runs with Joi's defaults: [convert] (strings
    are read as numbers and dates where the schema asks for them),
    [abortEarly] (the first error ends validation, [details[0]] is the only
    detail) and no unknown keys. A rule chain such as
    [Joi.string().min(2).max(100).required()] is written inside out:
    [required (string_max 100 (string_min 2 string))]. *)
Module Joi.

Inductive seg : Type := Key (k : string) | Index (i : nat).

(** [validationError.details[0]]: the rule that failed and where. *)
Record detail : Type := { type : string; path : list seg }.

Inductive result (A : Type) : Type :=
| Valid (value : A)
| Invalid (d : detail).
Arguments Valid {A} value.
Arguments Invalid {A} d.

Definition bind {A B} (r : result A) (k : A -> result B) : result B :=
  match r with
  | Valid a => k a
  | Invalid d => Invalid d
  end.

(** A rule chain applied to a value that is present, at a path. *)
Definition validator (A : Type) : Type := Json.t -> list seg -> result A.

Definition fail {A} (ty : string) (p : list seg) : result A :=
  Invalid {| type := ty; path := p |}.

(** What Joi makes of a string where a number is expected. *)
Inductive coerced : Type := NotNumeric | Unsafe | Numeric (q : Q).

Definition MAX_SAFE_INTEGER : Z := 9007199254740991.

Definition is_safe (q : Q) : bool :=
  Qle_bool (Qabs q) (inject_Z MAX_SAFE_INTEGER).

Definition is_integer (q : Q) : bool :=
  (Qnum q mod Zpos (Qden q) =? 0)%Z.

(** [new Date(number)]: truncation to whole milliseconds within the range
    of time values. *)
Definition time_clip (q : Q) : option Z :=
  if Qle_bool (Qabs q) (inject_Z 8640000000000000)
  then Some (Z.quot (Qnum q) (Zpos (Qden q)))
  else None.

Section Platform.

(** The pieces of the JavaScript platform and of Joi that the schemas
    lean on: the reading of a string as a date ([None] for an invalid
    date), the clock, Joi's GUID pattern, Joi's reading of a string as a
    number. *)
Variable Date_parse : string -> option Z.
Variable Date_now : Z.
Variable isGuid : string -> bool.
Variable Number_parse : string -> Joi.coerced.

(** [.required()] *)
Definition required {A} (v : validator A)
  (x : option Json.t) (p : list seg) : result A :=
  match x with
  | None => fail "any.required" p
  | Some j => v j p
  end.

(** [Joi.string()] *)
Definition string : validator String.string :=
  fun j p =>
    match j with
    | Json.Str "" => fail "string.empty" p
    | Json.Str s => Valid s
    | _ => fail "string.base" p
    end.

(** [.min(n)], [.max(n)] on a string compare [value.length], the number
    of UTF-16 code units. *)
Definition string_min (n : nat) (v : validator String.string)
  : validator String.string :=
  fun j p =>
    bind (v j p) (fun s =>
      if (JsString.length s <? n)%nat then fail "string.min" p else Valid s).

Definition string_max (n : nat) (v : validator String.string)
  : validator String.string :=
  fun j p =>
    bind (v j p) (fun s =>
      if (n <? JsString.length s)%nat then fail "string.max" p else Valid s).

(** [.uuid()] *)
Definition uuid (v : validator String.string) : validator String.string :=
  fun j p =>
    bind (v j p) (fun s =>
      if isGuid s then Valid s else fail "string.guid" p).

(** [Joi.string().valid(a, b, ...)]: only the listed strings pass, and the
    list is consulted before the type of the value. Each allowed string
    comes with the value of the enumeration it denotes. *)
Fixpoint assoc {A} (l : list (String.string * A)) (k : String.string)
  : option A :=
  match l with
  | [] => None
  | (k', a) :: l' => if String.eqb k k' then Some a else assoc l' k
  end.

Definition valid {A} (allowed : list (String.string * A)) : validator A :=
  fun j p =>
    match j with
    | Json.Str s =>
        match assoc allowed s with
        | Some a => Valid a
        | None => fail "any.only" p
        end
    | _ => fail "any.only" p
    end.

(** [Joi.number()] *)
Definition number : validator Q :=
  fun j p =>
    match j with
    | Json.Number q => if is_safe q then Valid q else fail "number.unsafe" p
    | Json.Str s =>
        match Number_parse s with
        | NotNumeric => fail "number.base" p
        | Unsafe => fail "number.unsafe" p
        | Numeric q => if is_safe q then Valid q else fail "number.unsafe" p
        end
    | _ => fail "number.base" p
    end.

(** [.integer()] *)
Definition integer (v : validator Q) : validator Z :=
  fun j p =>
    bind (v j p) (fun q =>
      if is_integer q then Valid (Qnum q / Zpos (Qden q))%Z
      else fail "number.integer" p).

(** [.min(n)], [.max(n)] on a number *)
Definition number_min (n : Z) (v : validator Z) : validator Z :=
  fun j p =>
    bind (v j p) (fun z =>
      if (z <? n)%Z then fail "number.min" p else Valid z).

Definition number_max (n : Z) (v : validator Z) : validator Z :=
  fun j p =>
    bind (v j p) (fun z =>
      if (n <? z)%Z then fail "number.max" p else Valid z).

(** [Joi.date()]: a number is a time value in milliseconds, a string is
    parsed; the result is the [Date]'s time value. *)
Definition to_Date (j : Json.t) : option Z :=
  match j with
  | Json.Number q => time_clip q
  | Json.Str s => Date_parse s
  | _ => None
  end.

Definition date : validator Z :=
  fun j p =>
    match to_Date j with
    | Some t => Valid t
    | None => fail "date.base" p
    end.

(** [.max('now')]: [value.getTime() <= Date.now()] *)
Definition date_max_now (v : validator Z) : validator Z :=
  fun j p =>
    bind (v j p) (fun t =>
      if (Date_now <? t)%Z then fail "date.max" p else Valid t).

(** The rule chain of a key, applied to [value[key]] at [path.key]. *)
Definition key {A} (o : list (String.string * Json.t)) (p : list seg)
  (k : String.string) (rule : option Json.t -> list seg -> result A)
  : result A :=
  rule (Json.get o k) (p ++ [Key k]).

(** Keys of the body the schema does not know, checked after the
    schema's own keys, in the order of the body. *)
Definition unknown (known : list String.string)
  (o : list (String.string * Json.t)) (p : list seg) : result unit :=
  match find (fun kv => negb (existsb (String.eqb (fst kv)) known)) o with
  | Some (k, _) => fail "object.unknown" (p ++ [Key k])
  | None => Valid tt
  end.

(** [Joi.object({...})]: the value must be an object; its keys are
    validated by [keys], in the order the schema lists them. *)
Definition object {A} (known : list String.string)
  (keys : list (String.string * Json.t) -> list seg -> result A)
  : validator A :=
  fun j p =>
    match j with
    | Json.Object o =>
        bind (keys o p) (fun a => bind (unknown known o p) (fun _ => Valid a))
    | _ => fail "object.base" p
    end.

(** [Joi.array().items(item).min(n)]: the items in turn, then the
    length. *)
Fixpoint items {A} (item : validator A) (l : list Json.t) (i : nat)
  (p : list seg) : result (list A) :=
  match l with
  | [] => Valid []
  | j :: l' =>
      bind (item j (p ++ [Index i])) (fun a =>
        bind (items item l' (S i) p) (fun rest => Valid (a :: rest)))
  end.

Definition array_items_min {A} (item : validator A) (n : nat)
  : validator (list A) :=
  fun j p =>
    match j with
    | Json.Array l =>
        bind (items item l 0%nat p) (fun vs =>
          if (List.length l <? n)%nat then fail "array.min" p else Valid vs)
    | _ => fail "array.base" p
    end.

End Platform.

End Joi.

(** ** The schemas of the routers *)
Module Schemas.

Inductive gender : Type := Male | Female.

(** The validated [value] of each schema. *)
Record class_value : Type :=
  { class_name : string; grade : Z }.

Record student_value : Type :=
  { name : string; sv_class_id : string; sv_gender : gender;
    date_of_birth : Z }.

Record attendance_value : Type :=
  { student_id : string; av_date : Z; av_status : status }.

Record bulk_record : Type :=
  { br_student_id : string; br_status : status }.

Record bulk_value : Type :=
  { bv_date : Z; records : list bulk_record }.

Definition statuses : list (string * status) :=
  [ ("Present", Present); ("Absent", Absent);
    ("Late", Late); ("Excused", Excused) ].

Definition genders : list (string * gender) :=
  [ ("Male", Male); ("Female", Female) ].

(** [x <- rule ;; rest]: validation stops at the first error. *)
Local Notation "x <- e ;; k" := (Joi.bind e (fun x => k))
  (at level 61, e at next level, right associativity).

Section Platform.

Variable Date_parse : string -> option Z.
Variable Date_now : Z.
Variable isGuid : string -> bool.
Variable Number_parse : string -> Joi.coerced.

(** classes.js *)
Definition classSchema : Joi.validator class_value :=
  Joi.object ["class_name"; "grade"] (fun o p =>
    class_name <-
      Joi.key o p "class_name"
        (Joi.required (Joi.string_max 50 (Joi.string_min 1 Joi.string))) ;;
    grade <-
      Joi.key o p "grade"
        (Joi.required
           (Joi.number_max 12
              (Joi.number_min 1 (Joi.integer (Joi.number Number_parse))))) ;;
    Joi.Valid {| class_name := class_name; grade := grade |}).

(** students.js *)
Definition studentSchema : Joi.validator student_value :=
  Joi.object ["name"; "class_id"; "gender"; "date_of_birth"] (fun o p =>
    name <-
      Joi.key o p "name"
        (Joi.required (Joi.string_max 100 (Joi.string_min 2 Joi.string))) ;;
    class_id <-
      Joi.key o p "class_id" (Joi.required (Joi.uuid isGuid Joi.string)) ;;
    gender <- Joi.key o p "gender" (Joi.required (Joi.valid genders)) ;;
    date_of_birth <-
      Joi.key o p "date_of_birth"
        (Joi.required (Joi.date_max_now Date_now (Joi.date Date_parse))) ;;
    Joi.Valid {| name := name; sv_class_id := class_id; sv_gender := gender;
                 date_of_birth := date_of_birth |}).

(** attendance.js *)
Definition attendanceSchema : Joi.validator attendance_value :=
  Joi.object ["student_id"; "date"; "status"] (fun o p =>
    student_id <-
      Joi.key o p "student_id" (Joi.required (Joi.uuid isGuid Joi.string)) ;;
    date <- Joi.key o p "date" (Joi.required (Joi.date Date_parse)) ;;
    status <- Joi.key o p "status" (Joi.required (Joi.valid statuses)) ;;
    Joi.Valid {| student_id := student_id; av_date := date;
                 av_status := status |}).

(** The items of [records] in [bulkAttendanceSchema]. *)
Definition bulkRecordSchema : Joi.validator bulk_record :=
  Joi.object ["student_id"; "status"] (fun o p =>
    student_id <-
      Joi.key o p "student_id" (Joi.required (Joi.uuid isGuid Joi.string)) ;;
    status <- Joi.key o p "status" (Joi.required (Joi.valid statuses)) ;;
    Joi.Valid {| br_student_id := student_id; br_status := status |}).

Definition bulkAttendanceSchema : Joi.validator bulk_value :=
  Joi.object ["date"; "records"] (fun o p =>
    date <- Joi.key o p "date" (Joi.required (Joi.date Date_parse)) ;;
    records <-
      Joi.key o p "records"
        (Joi.required (Joi.array_items_min bulkRecordSchema 1)) ;;
    Joi.Valid {| bv_date := date; records := records |}).

End Platform.

(** [schema.validate(req.body)] *)
Definition validate {A} (schema : Joi.validator A) (body : Json.t)
  : Joi.result A :=
  schema body [].

End Schemas.

(** ** The validation rules as the specification words them

    Each payload kind has its rules, field by field in the order of the
    schema; a payload is valid when no field offends and it has no field
    beyond them. [Student.as_stated] reads the birth-date rule as the
    specification does ("not after today"); [Student.checks] reads it as
    the schema does ("not after now"). *)
Module ValidationSpec.

Definition ms_per_day : Z := 86400000.

(** The calendar day (UTC) of a time value. *)
Definition day (t : Z) : Z := (t / ms_per_day)%Z.

Section Platform.

Variable Date_parse : string -> option Z.
Variable Date_now : Z.
Variable isGuid : string -> bool.
Variable Number_parse : string -> Joi.coerced.

(** A string of [lo] to [hi] characters. The characters of a string are
    those JavaScript counts, UTF-16 code units: one for a letter with an
    accent, two for a character beyond U+FFFF. *)
Definition length_between (lo hi : nat) (x : option Json.t) : bool :=
  match x with
  | Some (Json.Str s) =>
      (lo <=? JsString.length s)%nat && (JsString.length s <=? hi)%nat
  | _ => false
  end.

(** The number a value stands for: itself, or the numeral it spells. *)
Definition as_number (x : option Json.t) : option Q :=
  match x with
  | Some (Json.Number q) => Some q
  | Some (Json.Str s) =>
      match Number_parse s with
      | Joi.Numeric q => Some q
      | _ => None
      end
  | _ => None
  end.

(** An integer from [lo] to [hi]. *)
Definition integer_between (lo hi : Z) (x : option Json.t) : bool :=
  match as_number x with
  | Some q =>
      Joi.is_integer q
      && (lo <=? Qnum q / Zpos (Qden q))%Z
      && (Qnum q / Zpos (Qden q) <=? hi)%Z
  | None => false
  end.

(** One of the listed strings. *)
Definition one_of (allowed : list string) (x : option Json.t) : bool :=
  match x with
  | Some (Json.Str s) => existsb (String.eqb s) allowed
  | _ => false
  end.

(** A well-formed date. *)
Definition well_formed_date (x : option Json.t) : bool :=
  match x with
  | Some j =>
      match Joi.to_Date Date_parse j with Some _ => true | None => false end
  | None => false
  end.

(** A date not after today. *)
Definition not_after_today (x : option Json.t) : bool :=
  match x with
  | Some j =>
      match Joi.to_Date Date_parse j with
      | Some t => (day t <=? day Date_now)%Z
      | None => false
      end
  | None => false
  end.

(** A date not after the current instant. *)
Definition not_after_now (x : option Json.t) : bool :=
  match x with
  | Some j =>
      match Joi.to_Date Date_parse j with
      | Some t => (t <=? Date_now)%Z
      | None => false
      end
  | None => false
  end.

(** A well-formed identifier. *)
Definition identifier (x : option Json.t) : bool :=
  match x with
  | Some (Json.Str s) => negb (String.eqb s "") && isGuid s
  | _ => false
  end.

(** The first field that breaks its rule, else the first field of the
    payload that has no rule. *)
Definition first_offending (checks : list (string * bool))
  (o : list (string * Json.t)) : option string :=
  match find (fun c => negb (snd c)) checks with
  | Some (f, _) => Some f
  | None =>
      option_map fst
        (find (fun kv => negb (existsb (String.eqb (fst kv)) (map fst checks)))
              o)
  end.

Definition class_checks (o : list (string * Json.t)) : list (string * bool) :=
  [ ("class_name", length_between 1 50 (Json.get o "class_name"));
    ("grade", integer_between 1 12 (Json.get o "grade")) ].

Definition student_checks_as_stated (o : list (string * Json.t))
  : list (string * bool) :=
  [ ("name", length_between 2 100 (Json.get o "name"));
    ("class_id", identifier (Json.get o "class_id"));
    ("gender", one_of ["Male"; "Female"] (Json.get o "gender"));
    ("date_of_birth", not_after_today (Json.get o "date_of_birth")) ].

Definition student_checks (o : list (string * Json.t))
  : list (string * bool) :=
  [ ("name", length_between 2 100 (Json.get o "name"));
    ("class_id", identifier (Json.get o "class_id"));
    ("gender", one_of ["Male"; "Female"] (Json.get o "gender"));
    ("date_of_birth", not_after_now (Json.get o "date_of_birth")) ].

Definition attendance_checks (o : list (string * Json.t))
  : list (string * bool) :=
  [ ("student_id", identifier (Json.get o "student_id"));
    ("date", well_formed_date (Json.get o "date"));
    ("status",
     one_of ["Present"; "Absent"; "Late"; "Excused"] (Json.get o "status")) ].

(** What the specification asks of [validate]: acceptance exactly when
    nothing offends, and otherwise an error at the first offending
    field. *)
Definition agrees {A} (r : Joi.result A) (offending : option string) : Prop :=
  match r with
  | Joi.Valid _ => offending = None
  | Joi.Invalid d =>
      exists f, offending = Some f /\ Joi.path d = [Joi.Key f]
  end.

End Platform.

(** A rule chain agrees with a rule of the specification when it accepts
    exactly the values the rule admits and reports its failures at the
    path of the field. *)
Definition field_agrees {A} (r : Joi.result A) (p : list Joi.seg) (b : bool)
  : Prop :=
  match r with
  | Joi.Valid _ => b = true
  | Joi.Invalid d => Joi.path d = p /\ b = false
  end.

End ValidationSpec.

(** ** The relational store behind [req.supabase]

    Three tables ([supabase/migrations]); a query answers with
    [{ data, error }]. Text literals of a request reach a typed column
    through the store's input functions, which put them in the canonical
    form the store prints and refuse what they cannot read. *)
Module Supabase.

Record class_row : Type :=
  { c_id : string; c_class_name : string; c_grade : Z; c_created_at : Z }.

Record student_row : Type :=
  { s_id : string; s_name : string; s_class_id : string;
    s_gender : Schemas.gender; s_date_of_birth : string; s_created_at : Z }.

(** [id] is generated by the store; a serial number stands for the
    uuid. *)
Record attendance_row : Type :=
  { a_id : nat; a_student_id : string; a_date : string;
    a_status : status; a_created_at : Z }.

Record store : Type :=
  { classes : list class_row;
    students : list student_row;
    attendance : list attendance_row;
    serial : nat }.

(** [{ data, error }] *)
Record reply (A : Type) : Type := { data : option A; error : option string }.
Arguments data {A} r.
Arguments error {A} r.

Definition ok {A} (x : A) : reply A := {| data := Some x; error := None |}.
Definition failed {A} (code : string) : reply A :=
  {| data := None; error := Some code |}.

(** A request can fail on its own account, whatever the store holds (the
    network, a timeout): it is then answered with that error and no
    data. *)
Definition unless {A} (fault : option string) (r : reply A) : reply A :=
  match fault with
  | Some e => failed e
  | None => r
  end.

(** [.single()]: exactly one row, or an error. *)
Definition single {A} (r : reply (list A)) : reply A :=
  match data r with
  | Some [x] => ok x
  | Some _ => failed "PGRST116"
  | None => {| data := None; error := error r |}
  end.

(** [.order(...)]: a stable insertion sort by the given order. *)
Fixpoint insert_by {A} (le : A -> A -> bool) (x : A) (l : list A) : list A :=
  match l with
  | [] => [x]
  | y :: l' => if le x y then x :: l else y :: insert_by le x l'
  end.

Definition order_by {A} (le : A -> A -> bool) (l : list A) : list A :=
  fold_right (insert_by le) [] l.

(** A filter is ready once its literal has been read. *)
Definition all_ready {R} (fs : list (option (R -> bool)))
  : option (list (R -> bool)) :=
  fold_right (fun f acc =>
                match f, acc with
                | Some g, Some gs => Some (g :: gs)
                | _, _ => None
                end) (Some []) fs.

(** [from(table).select(...)] under filters combined by AND. *)
Definition select {R} (table : list R) (fs : list (option (R -> bool)))
  : reply (list R) :=
  match all_ready fs with
  | Some gs => ok (filter (fun r => forallb (fun g => g r) gs) table)
  | None => failed "22P02"
  end.

Definition map_reply {A B} (f : A -> B) (r : reply A) : reply B :=
  {| data := option_map f (data r); error := error r |}.

Fixpoint read_all (input : string -> option string) (lits : list string)
  : option (list string) :=
  match lits with
  | [] => Some []
  | l :: lits' =>
      match input l, read_all input lits' with
      | Some v, Some vs => Some (v :: vs)
      | _, _ => None
      end
  end.

Definition mem (x : string) (l : list string) : bool :=
  existsb (String.eqb x) l.

(** The rows that [.in('id', ids)] finds among [students]. *)
Definition matched (students : list student_row) (ids : list string)
  : list student_row :=
  filter (fun r => mem (s_id r) ids) students.

Section Columns.

(** Input functions of the [uuid] and [date] column types. *)
Variable uuid_in : string -> option string.
Variable date_in : string -> option string.

(** [.eq(column, literal)] *)
Definition eq {R} (input : string -> option string) (col : R -> string)
  (lit : string) : option (R -> bool) :=
  option_map (fun v r => String.eqb (col r) v) (input lit).

(** [.gte(column, literal)], [.lte(column, literal)] on a date column:
    canonical dates are ordered as their text. *)
Definition gte {R} (col : R -> string) (lit : string) : option (R -> bool) :=
  option_map (fun v r => String.leb v (col r)) (date_in lit).

Definition lte {R} (col : R -> string) (lit : string) : option (R -> bool) :=
  option_map (fun v r => String.leb (col r) v) (date_in lit).

(** [.in(column, literals)] *)
Definition in_ {R} (input : string -> option string) (col : R -> string)
  (lits : list string) : option (R -> bool) :=
  option_map (fun vs r => mem (col r) vs) (read_all input lits).

(** [.eq('status', literal)]: the labels of [attendance_status]. *)
Definition eq_status (lit : string) : option (attendance_row -> bool) :=
  option_map (fun v r => status_eqb (a_status r) v)
             (Joi.assoc Schemas.statuses lit).

(** *** Upsert on [(student_id, date)] *)

Definition same_key (sid d : string) (a : attendance_row) : bool :=
  String.eqb (a_student_id a) sid && String.eqb (a_date a) d.

(** One row of [INSERT ... ON CONFLICT (student_id, date) DO UPDATE]:
    the row that holds the key takes the new status and keeps its place,
    [id] and [created_at]; without one a new row is stored. Returns the
    row as stored. *)
Definition upsert_row (ts : Z) (st : store) (rec : string * string * status)
  : store * attendance_row :=
  let '(sid, d, x) := rec in
  match find (same_key sid d) (attendance st) with
  | Some old =>
      let new := {| a_id := a_id old; a_student_id := sid; a_date := d;
                    a_status := x; a_created_at := a_created_at old |} in
      ({| classes := classes st; students := students st;
          attendance := map (fun a => if same_key sid d a then new else a)
                            (attendance st);
          serial := serial st |}, new)
  | None =>
      let new := {| a_id := serial st; a_student_id := sid; a_date := d;
                    a_status := x; a_created_at := ts |} in
      ({| classes := classes st; students := students st;
          attendance := attendance st ++ [new];
          serial := S (serial st) |}, new)
  end.

Fixpoint upsert_rows (ts : Z) (st : store)
  (recs : list (string * string * status))
  : store * list attendance_row :=
  match recs with
  | [] => (st, [])
  | rec :: recs' =>
      let (st1, row) := upsert_row ts st rec in
      let (st2, rows) := upsert_rows ts st1 recs' in
      (st2, row :: rows)
  end.

Fixpoint read_records (recs : list (string * string * status))
  : option (list (string * string * status)) :=
  match recs with
  | [] => Some []
  | (sid, d, x) :: recs' =>
      match uuid_in sid, date_in d, read_records recs' with
      | Some sid', Some d', Some rest => Some ((sid', d', x) :: rest)
      | _, _, _ => None
      end
  end.

Fixpoint distinct_keys (recs : list (string * string * status)) : bool :=
  match recs with
  | [] => true
  | (sid, d, _) :: recs' =>
      negb (existsb (fun r => String.eqb (fst (fst r)) sid
                              && String.eqb (snd (fst r)) d) recs')
      && distinct_keys recs'
  end.

(** [from('attendance').upsert(records, { onConflict: 'student_id,date',
    ignoreDuplicates: false }).select(...)]. The statement is atomic: a
    literal that cannot be read, a student that does not exist (foreign
    key) or a key given twice in one statement fails it as a whole. *)
Definition upsert (st : store) (ts : Z)
  (recs : list (string * string * status))
  : store * reply (list attendance_row) :=
  match read_records recs with
  | None => (st, failed "22P02")
  | Some rs =>
      if negb (forallb (fun r => mem (fst (fst r)) (map s_id (students st)))
                       rs)
      then (st, failed "23503")
      else if negb (distinct_keys rs) then (st, failed "21000")
      else let (st', rows) := upsert_rows ts st rs in (st', ok rows)
  end.

(** [from('classes').delete().eq('id', id).select().single()]: the
    deletion cascades to the students of the class and to their
    attendance; unless exactly one class row is deleted the request fails
    and nothing is deleted. *)
Definition delete_class_single (st : store) (id : string)
  : store * reply class_row :=
  match uuid_in id with
  | None => (st, failed "22P02")
  | Some u =>
      match filter (fun c => String.eqb (c_id c) u) (classes st) with
      | [c] =>
          let gone := filter (fun s => String.eqb (s_class_id s) u)
                             (students st) in
          ({| classes :=
                filter (fun c => negb (String.eqb (c_id c) u)) (classes st);
              students :=
                filter (fun s => negb (String.eqb (s_class_id s) u))
                       (students st);
              attendance :=
                filter (fun a => negb (mem (a_student_id a) (map s_id gone)))
                       (attendance st);
              serial := serial st |}, ok c)
      | _ => (st, failed "PGRST116")
      end
  end.

End Columns.

End Supabase.

(** ** JavaScript values of a query string and their arithmetic

    Numbers are binary64 values. A string becomes a Number by the grammar
    of numeric literals ([ToNumber]) or by its leading digits
    ([parseInt]); a Number becomes a string by its shortest decimal
    digits ([ToString]). *)
Module Js.

(** A parameter of [req.query] is a string; a default is a Number, a
    binary64 value. *)
Inductive value : Type := Float (x : spec_float) | Text (s : string).

(** The Number of an integer, and [NaN]. *)
Definition Num (n : Z) : value := Float (binary_normalize prec emax n 0 false).
Definition NaN : value := Float S754_nan.

(** The Number nearest to [m * 10 ^ e], ties to even, with the sign
    [neg]. *)
Definition of_decimal (neg : bool) (m : N) (e : Z) : spec_float :=
  match m, e with
  | N0, _ => S754_zero neg
  | Npos p, Zneg k =>
      let '(q, e', l) :=
        SFdiv_core_binary prec emax (Zpos p) 0 (10 ^ Zpos k) 0 in
      binary_round_aux prec emax neg q e' l
  | Npos p, _ => binary_round prec emax neg (p * Z.to_pos (10 ^ e)) 0
  end.

(** *** [ToNumber] of a string: [StringNumericLiteral] *)

(** [WhiteSpace] and [LineTerminator]: TAB, LF, VT, FF, CR, SP, NBSP, the
    other space separators, LS, PS and ZWNBSP. *)
Definition is_white_space (c : N) : bool :=
  existsb (N.eqb c)
    [ 9; 10; 11; 12; 13; 32; 160; 5760; 8192; 8193; 8194; 8195; 8196; 8197;
      8198; 8199; 8200; 8201; 8202; 8232; 8233; 8239; 8287; 12288; 65279 ]%N.

Fixpoint trim_start (l : list N) : list N :=
  match l with
  | c :: l' => if is_white_space c then trim_start l' else l
  | [] => []
  end.

Definition trim (l : list N) : list N :=
  rev (trim_start (rev (trim_start l))).

(** The value of a character as a digit of the radix. *)
Definition digit (radix c : N) : option N :=
  let v := if (48 <=? c)%N && (c <=? 57)%N then Some (c - 48)%N
           else if (97 <=? c)%N && (c <=? 122)%N then Some (c - 87)%N
           else if (65 <=? c)%N && (c <=? 90)%N then Some (c - 55)%N
           else None in
  match v with
  | Some d => if (d <? radix)%N then Some d else None
  | None => None
  end.

(** The leading digits of a text, and the rest of it. *)
Fixpoint digits (radix : N) (l : list N) : list N * list N :=
  match l with
  | c :: l' =>
      match digit radix c with
      | Some d => let (ds, rest) := digits radix l' in (d :: ds, rest)
      | None => ([], l)
      end
  | [] => ([], [])
  end.

Definition numeral (radix : N) (ds : list N) : N :=
  fold_left (fun acc d => (acc * radix + d)%N) ds 0%N.

Fixpoint starts_with (p : string) (l : list N) : option (list N) :=
  match p, l with
  | EmptyString, _ => Some l
  | String a p', b :: l' =>
      if (N_of_ascii a =? b)%N then starts_with p' l' else None
  | String _ _, [] => None
  end.

(** A leading [-] or [+]. *)
Definition sign (l : list N) : bool * list N :=
  match starts_with "-" l, starts_with "+" l with
  | Some l', _ => (true, l')
  | None, Some l' => (false, l')
  | None, None => (false, l)
  end.

(** [ExponentPart], which may be absent, up to the end of the text. *)
Definition exponent (l : list N) : option Z :=
  match l with
  | [] => Some 0%Z
  | c :: l' =>
      if (c =? 101)%N || (c =? 69)%N
      then let (neg, l'') := sign l' in
           match digits 10 l'' with
           | ((_ :: _) as ds, []) =>
               Some (if neg then - Z.of_N (numeral 10 ds)
                     else Z.of_N (numeral 10 ds))%Z
           | _ => None
           end
      else None
  end.

(** [StrUnsignedDecimalLiteral] *)
Definition unsigned_decimal (neg : bool) (l : list N) : spec_float :=
  match starts_with "Infinity" l with
  | Some [] => S754_infinity neg
  | _ =>
      let (int, r1) := digits 10 l in
      let (frac, r2) := match starts_with "." r1 with
                        | Some r => digits 10 r
                        | None => ([], r1)
                        end in
      match int ++ frac, exponent r2 with
      | _ :: _, Some e =>
          of_decimal neg (numeral 10 (int ++ frac))
                     (e - Z.of_nat (List.length frac))
      | _, _ => S754_nan
      end
  end.

(** [NonDecimalIntegerLiteral]: digits of the radix up to the end. *)
Definition non_decimal (radix : N) (l : list N) : spec_float :=
  match digits radix l with
  | ((_ :: _) as ds, []) => of_decimal false (numeral radix ds) 0
  | _ => S754_nan
  end.

Definition first_some {A} (l : list (option A)) : option A :=
  fold_right (fun x acc => match x with Some _ => x | None => acc end) None l.

Definition StringToNumber (s : string) : spec_float :=
  match trim (JsString.code_points s) with
  | [] => S754_zero false
  | l =>
      match first_some [starts_with "0x" l; starts_with "0X" l],
            first_some [starts_with "0o" l; starts_with "0O" l],
            first_some [starts_with "0b" l; starts_with "0B" l] with
      | Some r, _, _ => non_decimal 16 r
      | None, Some r, _ => non_decimal 8 r
      | None, None, Some r => non_decimal 2 r
      | None, None, None => let (neg, r) := sign l in unsigned_decimal neg r
      end
  end.

Definition ToNumber (v : value) : spec_float :=
  match v with
  | Float x => x
  | Text s => StringToNumber s
  end.

(** *** [ToString] of a Number: [Number::toString] *)

Definition decimal (n : N) : string := NilZero.string_of_uint (N.to_uint n).

Fixpoint zeros (n : nat) : string :=
  match n with
  | O => ""
  | S n' => String "0" (zeros n')
  end.

(** [10 ^ n <= m * 2 ^ e] *)
Definition pow10_le (n : Z) (m : positive) (e : Z) : bool :=
  (10 ^ Z.max n 0 * 2 ^ Z.max (- e) 0
   <=? Zpos m * 2 ^ Z.max e 0 * 10 ^ Z.max (- n) 0)%Z.

(** The least [n] from [from] on with [m * 2 ^ e < 10 ^ n]. *)
Fixpoint magnitude_from (fuel : nat) (from : Z) (m : positive) (e : Z) : Z :=
  match fuel with
  | O => from
  | S fuel' =>
      if pow10_le from m e then magnitude_from fuel' (from + 1) m e else from
  end.

(** The [n] with [10 ^ (n - 1) <= m * 2 ^ e < 10 ^ n]; the search starts
    below it, from an estimate by the binary logarithm. *)
Definition magnitude (m : positive) (e : Z) : Z :=
  let log2 := (Zpos (digits2_pos m) + e - 1)%Z in
  magnitude_from 8 (log2 * 30103 / 100000 - 1) m e.

(** The significand of [k] digits for [m * 2 ^ e] of magnitude [n]: of the
    two multiples of [10 ^ (n - k)] around the value, the nearer one that
    reads back as the value (the even one at a tie), if any. When this is
    [10 ^ k] the magnitude is one more. *)
Definition significand (m : positive) (e n : Z) (k : positive)
  : option (N * Z) :=
  let scale := (n - Zpos k)%Z in
  let A := (Zpos m * 2 ^ Z.max e 0 * 10 ^ Z.max (- scale) 0)%Z in
  let B := (2 ^ Z.max (- e) 0 * 10 ^ Z.max scale 0)%Z in
  let lo := (A / B)%Z in
  let hi := (lo + 1)%Z in
  let reads_back s :=
    match of_decimal false (Z.to_N s) scale with
    | S754_finite false m' e' => Pos.eqb m' m && Z.eqb e' e
    | _ => false
    end in
  let chosen :=
    match reads_back lo, reads_back hi with
    | true, true =>
        match (2 * A ?= (2 * lo + 1) * B)%Z with
        | Lt => Some lo
        | Gt => Some hi
        | Eq => Some (if Z.even lo then lo else hi)
        end
    | true, false => Some lo
    | false, true => if (A mod B =? 0)%Z then None else Some hi
    | false, false => None
    end in
  match chosen with
  | Some s =>
      if (s =? 10 ^ Zpos k)%Z then Some (Z.to_N (10 ^ (Zpos k - 1)), n + 1)%Z
      else Some (Z.to_N s, n)
  | None => None
  end.

(** The shortest significand: the least number of digits, from [k] on,
    that has one. *)
Fixpoint shortest (fuel : nat) (m : positive) (e n : Z) (k : positive)
  : positive * (N * Z) :=
  match significand m e n k, fuel with
  | Some sn, _ => (k, sn)
  | None, S fuel' => shortest fuel' m e n (Pos.succ k)
  | None, O => (k, (0%N, n))
  end.

(** The digits, placed by the magnitude. *)
Definition layout (k : nat) (ds : string) (n : Z) : string :=
  if (Z.of_nat k <=? n)%Z && (n <=? 21)%Z
  then ds ++ zeros (Z.to_nat n - k)
  else if (0 <? n)%Z && (n <=? 21)%Z
  then String.substring 0 (Z.to_nat n) ds ++ "."
       ++ String.substring (Z.to_nat n) (k - Z.to_nat n) ds
  else if (-6 <? n)%Z && (n <=? 0)%Z
  then "0." ++ zeros (Z.to_nat (- n)) ++ ds
  else
    let ex := ((if (n - 1 <? 0)%Z then "-" else "+")
               ++ decimal (Z.to_N (Z.abs (n - 1))))%string in
    match k with
    | 1 => ds ++ "e" ++ ex
    | _ => String.substring 0 1 ds ++ "." ++ String.substring 1 (k - 1) ds
           ++ "e" ++ ex
    end.

Definition Number_toString (x : spec_float) : string :=
  match x with
  | S754_nan => "NaN"
  | S754_zero _ => "0"
  | S754_infinity s => if s then "-Infinity" else "Infinity"
  | S754_finite s m e =>
      let '(k, (sig, n)) := shortest 20 m e (magnitude m e) 1 in
      (if s then "-" else "") ++ layout (Pos.to_nat k) (decimal sig) n
  end.

Definition ToString (v : value) : string :=
  match v with
  | Float x => Number_toString x
  | Text s => s
  end.

(** [a + b]: addition of Numbers, concatenation once a string is
    involved. *)
Definition add (a b : value) : value :=
  match a, b with
  | Float x, Float y => Float (SFadd prec emax x y)
  | _, _ => Text (ToString a ++ ToString b)
  end.

(** [a - b]: always numeric. *)
Definition sub (a b : value) : value :=
  Float (SFsub prec emax (ToNumber a) (ToNumber b)).

(** [parseInt(v)]: after leading white space and a sign, the digits up to
    the first character that is none, in base 16 behind [0x] and in base
    10 otherwise; NaN without a digit. *)
Definition parseInt (v : value) : value :=
  let (neg, l) := sign (trim_start (JsString.code_points (ToString v))) in
  let (radix, l') :=
    match first_some [starts_with "0x" l; starts_with "0X" l] with
    | Some r => (16%N, r)
    | None => (10%N, l)
    end in
  match digits radix l' with
  | ([], _) => NaN
  | (ds, _) => Float (of_decimal neg (numeral radix ds) 0)
  end.

End Js.

(** ** The request handlers *)
Module Routes.
Import Supabase.

(** [res.status(code).json({ success, data, message, error })] *)
Inductive error_body : Type :=
| Message (s : string)
| Details (d : Joi.detail).

Inductive body (A : Type) : Type :=
| Success (data : A) (message : option string)
| Failure (e : error_body).
Arguments Success {A} data message.
Arguments Failure {A} e.

Record http (A : Type) : Type := { status_code : nat; json : body A }.
Arguments status_code {A} h.
Arguments json {A} h.

Definition respond {A} (code : nat) (b : body A) : http A :=
  {| status_code := code; json := b |}.

(** An attendance row with its student and the student's class joined
    in. *)
Record enriched : Type :=
  { e_row : attendance_row;
    e_students : option (student_row * option class_row) }.

Definition embed_class (st : store) (s : student_row) : option class_row :=
  find (fun c => String.eqb (c_id c) (s_class_id s)) (classes st).

Definition embed_student (st : store) (keep : student_row -> bool)
  (a : attendance_row) : enriched :=
  {| e_row := a;
     e_students :=
       match find (fun s => String.eqb (s_id s) (a_student_id a))
                  (students st) with
       | Some s => if keep s then Some (s, embed_class st s) else None
       | None => None
       end |}.

Definition enrich (st : store) : attendance_row -> enriched :=
  embed_student st (fun _ => true).

(** [req.query] of [GET /api/attendance] *)
Record list_query : Type :=
  { q_student_id : option string; q_class_id : option string;
    q_date : option string; q_start_date : option string;
    q_end_date : option string; q_status : option string;
    q_limit : option string; q_offset : option string }.

Record page : Type :=
  { p_data : list enriched; p_limit : Js.value; p_offset : Js.value }.

(** [if (param)]: absent and empty parameters add no filter. *)
Definition when {R} (x : option string)
  (f : string -> option (R -> bool)) : list (option (R -> bool)) :=
  match x with
  | None | Some "" => []
  | Some lit => [f lit]
  end.

(** [.order('date', desc).order('created_at', desc)] *)
Definition newest_first (a b : attendance_row) : bool :=
  if String.eqb (a_date a) (a_date b)
  then (a_created_at b <=? a_created_at a)%Z
  else String.leb (a_date b) (a_date a).

(** The integer the store reads from [offset=] and [limit=]. *)
Definition pg_nat (s : string) : option nat :=
  match s with
  | "" => None
  | _ => if JsObject.all_digits s
         then Some (N.to_nat (JsObject.numeral_value 0 s))
         else None
  end.

(** [.range(from, to)] sends [offset = `${from}`] and
    [limit = `${to - from + 1}`]; the store answers with the rows from
    [offset] on, [limit] at most. *)
Definition range {A} (from to : Js.value) (r : reply (list A))
  : reply (list A) :=
  match pg_nat (Js.ToString from),
        pg_nat (Js.ToString (Js.add (Js.sub to from) (Js.Num 1))) with
  | Some off, Some lim =>
      match data r with
      | Some l => ok (firstn lim (skipn off l))
      | None => r
      end
  | _, _ => failed "PGRST103"
  end.

(** The merge of [GET /class/:classId/date/:date] and of
    [db.getClassAttendanceForDate]. *)
Record attendance_view : Type :=
  { v_id : nat; v_status : status; v_date : string }.

Record student_view : Type :=
  { v_student : student_row; v_class : option class_row;
    v_attendance : option attendance_view }.

Record class_date_view : Type :=
  { cd_date : string; cd_class_id : string; cd_students : list student_view }.

Definition studentsWithAttendance (st : store) (students : list student_row)
  (attendanceRecords : list attendance_row) : list student_view :=
  map (fun student =>
         let attendanceRecord :=
           find (fun a => String.eqb (a_student_id a) (s_id student))
                attendanceRecords in
         {| v_student := student;
            v_class := embed_class st student;
            v_attendance :=
              match attendanceRecord with
              | Some a => Some {| v_id := a_id a; v_status := a_status a;
                                  v_date := a_date a |}
              | None => None
              end |})
      students.

(** The ids a bulk submission names. *)
Definition studentIds (value : Schemas.bulk_value) : list string :=
  map Schemas.br_student_id (Schemas.records value).

(** The two queries of the class-and-date view, once their literals are
    read: the students of a class in name order, and the attendance of
    given students on a date. *)
Definition by_name (name_le : string -> string -> bool)
  (a b : student_row) : bool :=
  name_le (s_name a) (s_name b).

Definition of_class (name_le : string -> string -> bool) (st : store)
  (u : string) : list student_row :=
  order_by (by_name name_le)
    (filter (fun r => forallb (fun g : student_row -> bool => g r)
                        [fun r => String.eqb (s_class_id r) u])
            (students st)).

Definition on_date (st : store) (ids : list string) (dd : string)
  : list attendance_row :=
  filter (fun r => forallb (fun g : attendance_row -> bool => g r)
                     [fun r => mem (a_student_id r) ids;
                      fun r => String.eqb (a_date r) dd])
         (attendance st).

Section Platform.

Variable Date_parse : string -> option Z.
Variable isGuid : string -> bool.
(** [JSON.stringify] of a [Date]: [toISOString] of its time value. *)
Variable Date_toISOString : Z -> string.
Variable uuid_in : string -> option string.
Variable date_in : string -> option string.
(** The collation of [.order('name')]. *)
Variable name_le : string -> string -> bool.

(** [GET /api/attendance] *)
Definition list_attendance (st : store) (q : list_query) : http page :=
  let limit :=
    match q_limit q with Some s => Js.Text s | None => Js.Num 100 end in
  let offset :=
    match q_offset q with Some s => Js.Text s | None => Js.Num 0 end in
  let filters :=
    when (q_student_id q) (eq uuid_in a_student_id)
    ++ when (q_date q) (eq date_in a_date)
    ++ when (q_start_date q) (gte date_in a_date)
    ++ when (q_end_date q) (lte date_in a_date)
    ++ when (q_status q) eq_status in
  (* [students.class_id] filters the joined student, not the rows *)
  let embedded : list (option (student_row -> bool)) :=
    when (q_class_id q) (eq uuid_in s_class_id) in
  let query :=
    match all_ready embedded with
    | None => failed "22P02"
    | Some keep =>
        map_reply (map (embed_student st
                          (fun s => forallb (fun g => g s) keep)))
          (range offset (Js.sub (Js.add offset limit) (Js.Num 1))
             (map_reply (order_by newest_first)
                (select (attendance st) filters)))
    end in
  match error query with
  | Some _ =>
      respond 500 (Failure (Message "Failed to fetch attendance records"))
  | None =>
      respond 200
        (Success {| p_data :=
                      match data query with Some l => l | None => [] end;
                    p_limit := Js.parseInt limit;
                    p_offset := Js.parseInt offset |} None)
  end.

(** [POST /api/attendance] *)
Definition record_attendance (st : store) (ts : Z) (body : Json.t)
  : store * http enriched :=
  match Schemas.validate (Schemas.attendanceSchema Date_parse isGuid)
          body with
  | Joi.Invalid d => (st, respond 400 (Failure (Details d)))
  | Joi.Valid value =>
      let student :=
        data (single (select (students st)
                        [eq uuid_in s_id (Schemas.student_id value)])) in
      match student with
      | None => (st, respond 400 (Failure (Message "Student not found")))
      | Some _ =>
          let (st', r) :=
            upsert uuid_in date_in st ts
              [(Schemas.student_id value,
                Date_toISOString (Schemas.av_date value),
                Schemas.av_status value)] in
          let r1 := single r in
          match error r1, data r1 with
          | None, Some row =>
              (st', respond 201
                      (Success (enrich st' row)
                         (Some "Attendance recorded successfully")))
          | _, _ =>
              (st', respond 500
                      (Failure (Message "Failed to record attendance")))
          end
      end
  end.

(** [value.records.map(record => ({ ...record, date: value.date }))] *)
Definition attendanceRecords (value : Schemas.bulk_value)
  : list (string * string * status) :=
  map (fun record =>
         (Schemas.br_student_id record,
          Date_toISOString (Schemas.bv_date value),
          Schemas.br_status record))
      (Schemas.records value).

(** [`${data.length} attendance records processed successfully`] *)
Definition processed (n : nat) : string :=
  String.append (Js.ToString (Js.Num (Z.of_nat n)))
                " attendance records processed successfully".

(** [POST /api/attendance/bulk] *)
Definition record_bulk (st : store) (ts : Z) (body : Json.t)
  : store * http (list enriched) :=
  match Schemas.validate (Schemas.bulkAttendanceSchema Date_parse isGuid)
          body with
  | Joi.Invalid d => (st, respond 400 (Failure (Details d)))
  | Joi.Valid value =>
      let records := attendanceRecords value in
      let studentIds := map (fun r => fst (fst r)) records in
      match data (select (students st) [in_ uuid_in s_id studentIds]) with
      | None =>
          (* [students.length] of [null] throws *)
          (st, respond 500
                 (Failure (Message "Failed to record bulk attendance")))
      | Some found =>
          if negb (List.length found =? List.length studentIds)%nat
          then (st, respond 400
                      (Failure (Message "One or more students not found")))
          else
            let (st', r) := upsert uuid_in date_in st ts records in
            match error r, data r with
            | None, Some rows =>
                (st', respond 201
                        (Success (map (enrich st') rows)
                           (Some (processed (List.length rows)))))
            | _, _ =>
                (st', respond 500
                        (Failure (Message "Failed to record bulk attendance")))
            end
      end
  end.

(** [db.getClassAttendanceForDate(classId, date)] of the client library;
    [inl] is a thrown store error. *)
Definition getClassAttendanceForDate (st : store) (classId date : string)
  : string + class_date_view :=
  let r1 := map_reply (order_by (fun a b => name_le (s_name a) (s_name b)))
              (select (students st) [eq uuid_in s_class_id classId]) in
  match error r1, data r1 with
  | None, Some students =>
      let studentIds := map s_id students in
      let r2 := select (attendance st)
                  [in_ uuid_in a_student_id studentIds;
                   eq date_in a_date date] in
      match error r2, data r2 with
      | None, Some attendanceRecords =>
          inr {| cd_date := date; cd_class_id := classId;
                 cd_students :=
                   studentsWithAttendance st students attendanceRecords |}
      | Some e, _ => inl e
      | None, None => inl ""
      end
  | Some e, _ => inl e
  | None, None => inl ""
  end.

(** [GET /api/attendance/class/:classId/date/:date]: the same two queries
    and merge, answered over HTTP. *)
Definition class_attendance (st : store) (classId date : string)
  : http class_date_view :=
  match getClassAttendanceForDate st classId date with
  | inr view => respond 200 (Success view None)
  | inl _ =>
      respond 500 (Failure (Message "Failed to fetch class attendance"))
  end.

(** [DELETE /api/classes/:id]. The handler keeps [data] alone of the reply
    to its first query, so a failure of that query ([guard] holds its
    error) goes unseen: [students] is [null] and the deletion is
    requested. *)
Definition delete_class (guard : option string) (st : store) (id : string)
  : store * http unit :=
  let students :=
    data (unless guard
            (map_reply (firstn 1)
               (select (students st) [eq uuid_in s_class_id id]))) in
  match students with
  | Some (_ :: _) =>
      (st, respond 400
             (Failure (Message "Cannot delete class with existing students")))
  | _ =>
      let (st', r) := delete_class_single uuid_in st id in
      match error r, data r with
      | Some _, _ =>
          (st', respond 500 (Failure (Message "Failed to delete class")))
      | None, None =>
          (st', respond 404 (Failure (Message "Class not found")))
      | None, Some _ =>
          (st', respond 200
                  (Success tt (Some "Class deleted successfully")))
      end
  end.

End Platform.

End Routes.

(** ** The dashboard's attendance rate ([loadDashboardData])

    JavaScript Numbers are IEEE 754 binary64 values, here the
    [spec_float]s of the standard library with its operations at
    precision 53. Array lengths and their sum are small integers, which
    binary64 holds exactly; they are counted in [nat]. *)
Module Dashboard.
Import Supabase.

(** The Number of an integer. *)
Definition Number (z : Z) : spec_float := binary_normalize prec emax z 0 false.

Definition div : spec_float -> spec_float -> spec_float := SFdiv prec emax.
Definition mul : spec_float -> spec_float -> spec_float := SFmul prec emax.

(** [Math.round]: the integer nearest to [x], the larger one at a tie;
    NaN, the infinities and the zeros are returned as they are. *)
Definition Math_round (x : spec_float) : spec_float :=
  match x with
  | S754_finite s m e =>
      let n := if s then Zneg m else Zpos m in
      let r := match e with
               | Zneg k => ((2 * n + 2 ^ Zpos k) / 2 ^ (Zpos k + 1))%Z
               | _ => (n * 2 ^ e)%Z
               end in
      match r with
      | Z0 => S754_zero s
      | _ => Number r
      end
  | _ => x
  end.

Definition count (x : status) (rows : list attendance_row) : nat :=
  List.length (filter (fun a => status_eqb (a_status a) x) rows).

Definition attendanceRate (todayAttendance : list attendance_row)
  : spec_float :=
  let presentToday := count Present todayAttendance in
  let absentToday := count Absent todayAttendance in
  let totalToday := (presentToday + absentToday)%nat in
  if (0 <? totalToday)%nat
  then Math_round
         (mul (div (Number (Z.of_nat presentToday))
                   (Number (Z.of_nat totalToday)))
              (Number 100))
  else Number 0.

(** [n] rows of one status, as a day's attendance. *)
Definition rows_of (x : status) (n : nat) : list attendance_row :=
  map (fun i => {| a_id := i; a_student_id := ""; a_date := "2024-01-01";
                   a_status := x; a_created_at := 0 |})
      (seq 0 n).

End Dashboard.

(** ** Locating a value between two binary64 neighbours

    A shift record [(m, r, s)] of the rounding procedure locates a
    rational [N / D]: it lies in [[m, m + 1)], and the round and sticky
    bits tell where, relative to [m + 1/2]. *)
Module Binary64.

Definition located (N D : Z) (mrs : shr_record) : Prop :=
  (0 <= shr_m mrs)%Z /\
  match shr_r mrs, shr_s mrs with
  | false, false => N = (shr_m mrs * D)%Z
  | false, true =>
      (shr_m mrs * D < N)%Z /\ (2 * N < (2 * shr_m mrs + 1) * D)%Z
  | true, false => (2 * N = (2 * shr_m mrs + 1) * D)%Z
  | true, true =>
      ((2 * shr_m mrs + 1) * D < 2 * N)%Z /\ (N < (shr_m mrs + 1) * D)%Z
  end.

End Binary64.

(** ** A small school and a stand-in platform, for worked examples *)
Module Sample.
Import Supabase.

Definition isGuid (s : string) : bool := (String.length s =? 36)%nat.

Definition uuid_in (s : string) : option string :=
  if isGuid s then Some s else None.

(** The date part of a timestamp literal. *)
Definition date_in (s : string) : option string :=
  let d := String.substring 0 10 s in
  if Charts.is_iso_date d then Some d else None.

(** Time values as JSON numbers only. *)
Definition Date_parse (s : string) : option Z := None.

(** Good for the first day of 1970. *)
Definition Date_toISOString (t : Z) : string := "1970-01-01T00:00:00.000Z".

Definition Number_parse (s : string) : Joi.coerced := Joi.NotNumeric.

Definition class_3A : string := "c0000000-0000-4000-8000-00000000003a".
Definition emma : string := "50000000-0000-4000-8000-000000000001".
Definition liam : string := "50000000-0000-4000-8000-000000000002".
Definition nobody : string := "50000000-0000-4000-8000-0000000000ff".

(** An identifier written with colons: Joi's GUID pattern allows [:] for a
    separator, the store's [uuid] type reads hyphens only. *)
Definition colons : string := "50000000:0000:4000:8000:000000000001".

(** A stand-in for the store's reading of uuid literals that refuses
    colons. *)
Definition uuid_in_hyphens (s : string) : option string :=
  if isGuid s && negb (existsb (Ascii.eqb ":") (list_ascii_of_string s))
  then Some s else None.

Definition school : store :=
  {| classes := [ {| c_id := class_3A; c_class_name := "3A"; c_grade := 3;
                     c_created_at := 0 |} ];
     students :=
       [ {| s_id := liam; s_name := "Liam Smith"; s_class_id := class_3A;
            s_gender := Schemas.Male; s_date_of_birth := "2015-05-22";
            s_created_at := 0 |};
         {| s_id := emma; s_name := "Emma Johnson"; s_class_id := class_3A;
            s_gender := Schemas.Female; s_date_of_birth := "2015-03-15";
            s_created_at := 0 |} ];
     attendance :=
       [ {| a_id := 0; a_student_id := emma; a_date := "1970-01-01";
            a_status := Late; a_created_at := 5 |} ];
     serial := 1 |}.

(** Three days of attendance, oldest first. *)
Definition register : store :=
  {| classes := classes school;
     students := students school;
     attendance :=
       [ {| a_id := 0; a_student_id := emma; a_date := "2024-01-01";
            a_status := Present; a_created_at := 1 |};
         {| a_id := 1; a_student_id := emma; a_date := "2024-01-02";
            a_status := Absent; a_created_at := 2 |};
         {| a_id := 2; a_student_id := emma; a_date := "2024-01-03";
            a_status := Present; a_created_at := 3 |} ];
     serial := 3 |}.

Definition no_filter : Routes.list_query :=
  {| Routes.q_student_id := None; Routes.q_class_id := None;
     Routes.q_date := None; Routes.q_start_date := None;
     Routes.q_end_date := None; Routes.q_status := None;
     Routes.q_limit := None; Routes.q_offset := None |}.

Definition empty : store :=
  {| classes := []; students := []; attendance := []; serial := 0 |}.

Definition attendance_body (student_id : string) (date : Json.t)
  (x : status) : Json.t :=
  Json.Object [ ("student_id", Json.Str student_id); ("date", date);
                ("status", Json.Str (status_name x)) ].

Definition bulk_body (date : Json.t) (records : list (string * status))
  : Json.t :=
  Json.Object
    [ ("date", date);
      ("records",
       Json.Array
         (map (fun r => Json.Object
                          [ ("student_id", Json.Str (fst r));
                            ("status", Json.Str (status_name (snd r))) ])
              records)) ].

End Sample.

(** * Further definitions *)

(** ** Counting the rows of a date *)
Module Totals.
Import Charts.

(** Rows of a given date. *)
Definition rows_on (data : list row) (d : string) : nat :=
  List.length (filter (fun r => String.eqb (date r) d) data).

End Totals.

(** ** The constraints of the schema

    What [supabase/migrations] declares on the three tables: primary
    keys, the range of [grade], the two foreign keys and
    [UNIQUE(student_id, date)]. *)
Module Constraints.
Import Supabase.

Definition key (a : attendance_row) : string * string :=
  (a_student_id a, a_date a).

Record holds (st : store) : Prop :=
  { classes_pkey : NoDup (map c_id (classes st));
    classes_grade_check :
      Forall (fun c => (1 <= c_grade c <= 12)%Z) (classes st);
    students_pkey : NoDup (map s_id (students st));
    students_class_id_fkey :
      Forall (fun s => In (s_class_id s) (map c_id (classes st)))
             (students st);
    attendance_pkey : NoDup (map a_id (attendance st));
    (* the next generated id is new *)
    attendance_id_default :
      Forall (fun a => a_id a < serial st) (attendance st);
    attendance_student_id_fkey :
      Forall (fun a => In (a_student_id a) (map s_id (students st)))
             (attendance st);
    attendance_student_id_date_key : NoDup (map key (attendance st)) }.

(** The columns a write of attendance leaves alone. *)
Definition same_but_status (a b : attendance_row) : Prop :=
  a_id a = a_id b /\ a_student_id a = a_student_id b
  /\ a_date a = a_date b /\ a_created_at a = a_created_at b.

(** A stored row before and after a write that addresses [keys]. *)
Definition kept (keys : list (string * string)) (a b : attendance_row)
  : Prop :=
  same_but_status a b /\ (a = b \/ In (key a) keys).

End Constraints.

(** ** Writes to [classes] and [students] *)
Module Tables.
Import Supabase.

(** A [text] column reads every literal. *)
Definition text_in (s : string) : option string := Some s.

(** [.eq('grade', value.grade)]: the literal is the decimal numeral of an
    integer, which an [integer] column reads within 32 bits. *)
Definition int4_in (z : Z) : option Z :=
  if ((- 2 ^ 31 <=? z) && (z <? 2 ^ 31))%Z then Some z else None.

Definition eq_int {R} (col : R -> Z) (z : Z) : option (R -> bool) :=
  option_map (fun v r => Z.eqb (col r) v) (int4_in z).

(** [.neq(column, literal)] *)
Definition neq {R} (input : string -> option string) (col : R -> string)
  (lit : string) : option (R -> bool) :=
  option_map (fun v r => negb (String.eqb (col r) v)) (input lit).

Definition with_classes (st : store) (cs : list class_row) : store :=
  {| classes := cs; students := students st; attendance := attendance st;
     serial := serial st |}.

Definition with_students (st : store) (ss : list student_row) : store :=
  {| classes := classes st; students := ss; attendance := attendance st;
     serial := serial st |}.

(** [CHECK (grade >= 1 AND grade <= 12)] *)
Definition grade_check (g : Z) : bool := ((1 <=? g) && (g <=? 12))%Z.

Section Columns.

Variable uuid_in : string -> option string.
Variable date_in : string -> option string.

(** [from('classes').insert([value]).select().single()]: [id] and
    [created_at] take their defaults, the uuid [gen] that the store
    generates and its clock [now]. *)
Definition insert_class (gen : string) (now : Z) (st : store)
  (value : Schemas.class_value) : store * reply class_row :=
  match int4_in (Schemas.grade value) with
  | None => (st, failed "22003")
  | Some g =>
      if negb (grade_check g) then (st, failed "23514")
      else if mem gen (map c_id (classes st)) then (st, failed "23505")
      else
        let row := {| c_id := gen; c_class_name := Schemas.class_name value;
                      c_grade := g; c_created_at := now |} in
        (with_classes st (classes st ++ [row]), ok row)
  end.

(** [from('classes').update(value).eq('id', id).select().single()]: the
    request fails, and changes nothing, unless exactly one row is
    updated. *)
Definition update_class_single (st : store) (id : string)
  (value : Schemas.class_value) : store * reply class_row :=
  match uuid_in id, int4_in (Schemas.grade value) with
  | None, _ => (st, failed "22P02")
  | _, None => (st, failed "22003")
  | Some u, Some g =>
      match filter (fun c => String.eqb (c_id c) u) (classes st) with
      | [c] =>
          if negb (grade_check g) then (st, failed "23514")
          else
            let row := {| c_id := c_id c;
                          c_class_name := Schemas.class_name value;
                          c_grade := g; c_created_at := c_created_at c |} in
            (with_classes st
               (map (fun c => if String.eqb (c_id c) u then row else c)
                    (classes st)),
             ok row)
      | _ => (st, failed "PGRST116")
      end
  end.

(** A student as [JSON.stringify] sends it: the date of birth is the
    ISO string of the [Date]. *)
Record student_record : Type :=
  { r_name : string; r_class_id : string; r_gender : Schemas.gender;
    r_date_of_birth : string }.

(** [from('students').insert([value]).select(...).single()] *)
Definition insert_student (gen : string) (now : Z) (st : store)
  (value : student_record) : store * reply student_row :=
  match uuid_in (r_class_id value), date_in (r_date_of_birth value) with
  | Some u, Some d =>
      if negb (mem u (map c_id (classes st))) then (st, failed "23503")
      else if mem gen (map s_id (students st)) then (st, failed "23505")
      else
        let row := {| s_id := gen; s_name := r_name value; s_class_id := u;
                      s_gender := r_gender value; s_date_of_birth := d;
                      s_created_at := now |} in
        (with_students st (students st ++ [row]), ok row)
  | _, _ => (st, failed "22P02")
  end.

(** [from('students').update(value).eq('id', id).select(...).single()] *)
Definition update_student_single (st : store) (id : string)
  (value : student_record) : store * reply student_row :=
  match uuid_in id, uuid_in (r_class_id value),
        date_in (r_date_of_birth value) with
  | Some i, Some u, Some d =>
      match filter (fun s => String.eqb (s_id s) i) (students st) with
      | [s] =>
          if negb (mem u (map c_id (classes st))) then (st, failed "23503")
          else
            let row := {| s_id := s_id s; s_name := r_name value;
                          s_class_id := u; s_gender := r_gender value;
                          s_date_of_birth := d;
                          s_created_at := s_created_at s |} in
            (with_students st
               (map (fun s => if String.eqb (s_id s) i then row else s)
                    (students st)),
             ok row)
      | _ => (st, failed "PGRST116")
      end
  | _, _, _ => (st, failed "22P02")
  end.

(** [from('students').delete().eq('id', id).select().single()]: the
    deletion cascades to the attendance of the student. *)
Definition delete_student_single (st : store) (id : string)
  : store * reply student_row :=
  match uuid_in id with
  | None => (st, failed "22P02")
  | Some u =>
      match filter (fun s => String.eqb (s_id s) u) (students st) with
      | [s] =>
          ({| classes := classes st;
              students :=
                filter (fun s => negb (String.eqb (s_id s) u)) (students st);
              attendance :=
                filter (fun a => negb (String.eqb (a_student_id a) u))
                       (attendance st);
              serial := serial st |}, ok s)
      | _ => (st, failed "PGRST116")
      end
  end.

End Columns.

End Tables.

(** ** The classes router ([classes.js]) *)
Module Classes.
Import Supabase Routes Tables.

(** A class with its students embedded (of a student the columns other
    than [class_id] are sent). *)
Record class_view : Type :=
  { cv_class : class_row; cv_students : list student_row }.

Definition embed_students (st : store) (c : class_row) : class_view :=
  {| cv_class := c;
     cv_students :=
       filter (fun s => String.eqb (s_class_id s) (c_id c)) (students st) |}.

(** [.order('grade').order('class_name')] *)
Definition by_grade_name (name_le : string -> string -> bool)
  (a b : class_row) : bool :=
  if (c_grade a =? c_grade b)%Z
  then name_le (c_class_name a) (c_class_name b)
  else (c_grade a <? c_grade b)%Z.

(** The classes that hold a name and grade. *)
Definition named (st : store) (class_name : string) (grade : Z)
  : list class_row :=
  filter (fun c => String.eqb (c_class_name c) class_name
                   && (c_grade c =? grade)%Z) (classes st).

(** No two classes share a name and grade. *)
Definition name_grade (c : class_row) : string * Z :=
  (c_class_name c, c_grade c).

Definition unique_names (st : store) : Prop :=
  NoDup (map name_grade (classes st)).

Definition duplicate : string :=
  "Class with this name already exists for this grade".

Section Platform.

Variable Number_parse : string -> Joi.coerced.
Variable uuid_in : string -> option string.
Variable name_le : string -> string -> bool.

(** [GET /api/classes] *)
Definition list_classes (st : store) : http (list class_row) :=
  let r := map_reply (order_by (by_grade_name name_le))
             (select (classes st) []) in
  match error r with
  | Some _ => respond 500 (Failure (Message "Failed to fetch classes"))
  | None =>
      respond 200
        (Success match data r with Some l => l | None => [] end None)
  end.

(** [GET /api/classes/:id] *)
Definition get_class (st : store) (id : string) : http class_view :=
  let r := single (map_reply (map (embed_students st))
                     (select (classes st) [eq uuid_in c_id id])) in
  match error r, data r with
  | Some _, _ => respond 500 (Failure (Message "Failed to fetch class"))
  | None, None => respond 404 (Failure (Message "Class not found"))
  | None, Some d => respond 200 (Success d None)
  end.

(** [POST /api/classes] *)
Definition create_class (gen : string) (now : Z) (st : store)
  (body : Json.t) : store * http class_row :=
  match Schemas.validate (Schemas.classSchema Number_parse) body with
  | Joi.Invalid d => (st, respond 400 (Failure (Details d)))
  | Joi.Valid value =>
      let existingClass :=
        data (single (select (classes st)
                        [eq text_in c_class_name (Schemas.class_name value);
                         eq_int c_grade (Schemas.grade value)])) in
      match existingClass with
      | Some _ => (st, respond 400 (Failure (Message duplicate)))
      | None =>
          let (st', r) := insert_class gen now st value in
          match error r, data r with
          | None, Some row =>
              (st', respond 201
                      (Success row (Some "Class created successfully")))
          | _, _ =>
              (st', respond 500 (Failure (Message "Failed to create class")))
          end
      end
  end.

(** [PUT /api/classes/:id] *)
Definition update_class (st : store) (id : string) (body : Json.t)
  : store * http class_row :=
  match Schemas.validate (Schemas.classSchema Number_parse) body with
  | Joi.Invalid d => (st, respond 400 (Failure (Details d)))
  | Joi.Valid value =>
      let existingClass :=
        data (single (select (classes st)
                        [eq text_in c_class_name (Schemas.class_name value);
                         eq_int c_grade (Schemas.grade value);
                         neq uuid_in c_id id])) in
      match existingClass with
      | Some _ => (st, respond 400 (Failure (Message duplicate)))
      | None =>
          let (st', r) := update_class_single uuid_in st id value in
          match error r, data r with
          | Some _, _ =>
              (st', respond 500 (Failure (Message "Failed to update class")))
          | None, None =>
              (st', respond 404 (Failure (Message "Class not found")))
          | None, Some row =>
              (st', respond 200
                      (Success row (Some "Class updated successfully")))
          end
      end
  end.

End Platform.

End Classes.

(** ** The students router ([students.js]) *)
Module Students.
Import Supabase Routes Tables.

Definition with_class (st : store) (s : student_row)
  : student_row * option class_row :=
  (s, embed_class st s).

Section Platform.

Variable Date_parse : string -> option Z.
Variable Date_now : Z.
Variable isGuid : string -> bool.
Variable Date_toISOString : Z -> string.
Variable uuid_in : string -> option string.
Variable date_in : string -> option string.
Variable name_le : string -> string -> bool.

(** The validated value as the request to the store carries it. *)
Definition sent (value : Schemas.student_value) : student_record :=
  {| r_name := Schemas.name value;
     r_class_id := Schemas.sv_class_id value;
     r_gender := Schemas.sv_gender value;
     r_date_of_birth := Date_toISOString (Schemas.date_of_birth value) |}.

(** [GET /api/students] *)
Definition list_students (st : store)
  : http (list (student_row * option class_row)) :=
  let r := map_reply (map (with_class st))
             (map_reply (order_by (by_name name_le))
                (select (students st) [])) in
  match error r with
  | Some _ => respond 500 (Failure (Message "Failed to fetch students"))
  | None =>
      respond 200
        (Success match data r with Some l => l | None => [] end None)
  end.

(** [GET /api/students/:id] *)
Definition get_student (st : store) (id : string)
  : http (student_row * option class_row) :=
  let r := single (map_reply (map (with_class st))
                     (select (students st) [eq uuid_in s_id id])) in
  match error r, data r with
  | Some _, _ => respond 500 (Failure (Message "Failed to fetch student"))
  | None, None => respond 404 (Failure (Message "Student not found"))
  | None, Some d => respond 200 (Success d None)
  end.

(** [POST /api/students] *)
Definition create_student (gen : string) (now : Z) (st : store)
  (body : Json.t) : store * http (student_row * option class_row) :=
  match Schemas.validate
          (Schemas.studentSchema Date_parse Date_now isGuid) body with
  | Joi.Invalid d => (st, respond 400 (Failure (Details d)))
  | Joi.Valid value =>
      let classExists :=
        data (single (select (classes st)
                        [eq uuid_in c_id (Schemas.sv_class_id value)])) in
      match classExists with
      | None => (st, respond 400 (Failure (Message "Class not found")))
      | Some _ =>
          let (st', r) :=
            insert_student uuid_in date_in gen now st (sent value) in
          match error r, data r with
          | None, Some row =>
              (st', respond 201
                      (Success (with_class st' row)
                         (Some "Student created successfully")))
          | _, _ =>
              (st', respond 500
                      (Failure (Message "Failed to create student")))
          end
      end
  end.

(** [PUT /api/students/:id] *)
Definition update_student (st : store) (id : string) (body : Json.t)
  : store * http (student_row * option class_row) :=
  match Schemas.validate
          (Schemas.studentSchema Date_parse Date_now isGuid) body with
  | Joi.Invalid d => (st, respond 400 (Failure (Details d)))
  | Joi.Valid value =>
      let classExists :=
        data (single (select (classes st)
                        [eq uuid_in c_id (Schemas.sv_class_id value)])) in
      match classExists with
      | None => (st, respond 400 (Failure (Message "Class not found")))
      | Some _ =>
          let (st', r) :=
            update_student_single uuid_in date_in st id (sent value) in
          match error r, data r with
          | Some _, _ =>
              (st', respond 500
                      (Failure (Message "Failed to update student")))
          | None, None =>
              (st', respond 404 (Failure (Message "Student not found")))
          | None, Some row =>
              (st', respond 200
                      (Success (with_class st' row)
                         (Some "Student updated successfully")))
          end
      end
  end.

(** [DELETE /api/students/:id] *)
Definition delete_student (st : store) (id : string) : store * http unit :=
  let (st', r) := delete_student_single uuid_in st id in
  match error r, data r with
  | Some _, _ =>
      (st', respond 500 (Failure (Message "Failed to delete student")))
  | None, None =>
      (st', respond 404 (Failure (Message "Student not found")))
  | None, Some _ =>
      (st', respond 200 (Success tt (Some "Student deleted successfully")))
  end.

End Platform.

End Students.

(** ** The attendance export ([export.js])

    The worksheet as the rows of cell values that [addRow] receives;
    fonts, fills, borders and widths are left out. *)
Module Excel.
Import Supabase Routes.

Inductive cell : Type := Text (s : string) | Number (n : Z).

(** [.order('date', { ascending: false })] *)
Definition by_date_desc (a b : attendance_row) : bool :=
  String.leb (a_date b) (a_date a).

(** [acc[record.status] = (acc[record.status] || 0) + 1]; the four
    labels of a status are no names of [Object.prototype]. *)
Definition count_status (acc : JsObject.t nat) (record : enriched)
  : JsObject.t nat :=
  let k := status_name (a_status (e_row record)) in
  JsObject.set acc k
    (match JsObject.own acc k with Some n => n | None => 0 end + 1).

(** [data.reduce(..., {})] *)
Definition statusCounts (data : list enriched) : JsObject.t nat :=
  fold_left count_status data [].

(** The rows added [if (data && data.length > 0)]. *)
Definition summary (data : list enriched) : list (list cell) :=
  match data with
  | [] => []
  | _ :: _ =>
      [] :: [Text "Summary Statistics"]
      :: map (fun kv => [Text (String.append (fst kv) ":");
                         Number (Z.of_nat (snd kv))])
             (JsObject.entries (statusCounts data))
      ++ [[Text "Total Records:"; Number (Z.of_nat (List.length data))]]
  end.

Definition title : list cell :=
  [Text "Sunshine Elementary School - Attendance Report"].

Definition header : list cell :=
  [Text "Student Name"; Text "Class"; Text "Grade"; Text "Date";
   Text "Status"].

(** What the route answers with: the rows as JSON, or the workbook. *)
Inductive exported : Type :=
| Rows (data : list enriched)
| Workbook (sheet : list (list cell)).

Section Platform.

(** [format(new Date(record.date), 'MMM dd, yyyy')] *)
Variable format_date : string -> string.
Variable uuid_in : string -> option string.
Variable date_in : string -> option string.

(** The row of a record; [None] is the [TypeError] of reading a property
    of [null] when the student or the class is not joined. *)
Definition data_row (record : enriched) : option (list cell) :=
  match e_students record with
  | Some (s, Some c) =>
      Some [Text (s_name s); Text (c_class_name c); Number (c_grade c);
            Text (format_date (a_date (e_row record)));
            Text (status_name (a_status (e_row record)))]
  | _ => None
  end.

(** [data?.forEach((record, index) => ...)] *)
Fixpoint data_rows (data : list enriched) : option (list (list cell)) :=
  match data with
  | [] => Some []
  | record :: data' =>
      match data_row record, data_rows data' with
      | Some row, Some rows => Some (row :: rows)
      | _, _ => None
      end
  end.

Definition worksheet (period_line : string) (data : list enriched)
  : option (list (list cell)) :=
  match data_rows data with
  | Some rows =>
      Some (title :: [Text period_line] :: [] :: header
            :: rows ++ summary data)
  | None => None
  end.

(** The query of [GET /api/export/attendance] for a window from
    [startDate] to [endDate], both as [format(..., 'yyyy-MM-dd')] gives
    them. *)
Definition export_query (st : store) (startDate endDate : string)
  (class_id student_id : option string) : reply (list enriched) :=
  let filters :=
    [gte date_in a_date startDate; lte date_in a_date endDate]
    ++ when student_id (eq uuid_in a_student_id) in
  (* [students.class_id] filters the joined student, not the rows *)
  let embedded : list (option (student_row -> bool)) :=
    when class_id (eq uuid_in s_class_id) in
  match all_ready embedded with
  | None => failed "22P02"
  | Some keep =>
      map_reply (map (embed_student st
                        (fun s => forallb (fun g => g s) keep)))
        (map_reply (order_by by_date_desc)
           (select (attendance st) filters))
  end.

(** [GET /api/export/attendance] *)
Definition export_attendance (st : store)
  (startDate endDate period_line : string)
  (class_id student_id : option string) (format_type : string)
  : http exported :=
  let failure :=
    respond 500 (Failure (Message "Failed to export attendance data")) in
  let r := export_query st startDate endDate class_id student_id in
  match error r with
  | Some _ => failure
  | None =>
      let data := match data r with Some l => l | None => [] end in
      if String.eqb format_type "json"
      then respond 200 (Success (Rows data) None)
      else
        match worksheet period_line data with
        | Some sheet => respond 200 (Success (Workbook sheet) None)
        | None => failure
        end
  end.

End Platform.

(** Records of a status given by its label. *)
Definition label (r : enriched) : string := status_name (a_status (e_row r)).

Definition labelled (data : list enriched) (k : string) : nat :=
  List.length (filter (fun r => String.eqb (label r) k) data).

End Excel.

(** ** The age of a student in the students export ([export.js])

    [Math.floor((new Date() - birthDate) / (365.25 * 24 * 60 * 60 * 1000))]
    on binary64 values; a [Date] in arithmetic is its time value, an
    integer of milliseconds. *)
Module Age.
Import Dashboard.

Definition sub : spec_float -> spec_float -> spec_float := SFsub prec emax.

(** [Math.floor]: the largest integer not above [x]; NaN, the
    infinities and the zeros are returned as they are. *)
Definition Math_floor (x : spec_float) : spec_float :=
  match x with
  | S754_finite s m e =>
      let n := if s then Zneg m else Zpos m in
      let r := match e with
               | Zneg k => (n / 2 ^ Zpos k)%Z
               | _ => (n * 2 ^ e)%Z
               end in
      match r with
      | Z0 => S754_zero s
      | _ => Number r
      end
  | _ => x
  end.

(** The literal [365.25], which is 1461 / 4. *)
Definition days_per_year : spec_float :=
  binary_normalize prec emax 1461 (-2) false.

(** [365.25 * 24 * 60 * 60 * 1000] *)
Definition ms_per_year : spec_float :=
  mul (mul (mul (mul days_per_year (Number 24)) (Number 60)) (Number 60))
      (Number 1000).

Definition age (now birthDate : Z) : spec_float :=
  Math_floor (div (sub (Number now) (Number birthDate)) ms_per_year).

End Age.


(** ** The client library ([src/lib/supabase.js]) *)

(** The forms of the front end write to the store through the helpers of
    [db], not through the routes. A helper throws the store's error
    ([inl]) or returns the data of the reply ([inr]). *)
Module Db.
Import Supabase Tables.

(** The role a request runs as: [anon] under the anon key, with which the
    client library is created, [authenticated] under the session of a
    signed-in user, [service_role] under the key of the server. *)
Inductive role : Type := anon | authenticated | service_role.

(** Row-level security is enabled on the three tables, each with one
    policy: all operations, to [authenticated]. The service role is not
    subject to it. *)
Definition permitted (r : role) : bool :=
  match r with
  | anon => false
  | authenticated | service_role => true
  end.

(** [db.createClass(classData)]: [insert([classData]).select().single()],
    refused by the policy (42501) unless the role is permitted; a reply
    with neither an error nor data returns [null]. *)
Definition createClass (r : role) (gen : string) (now : Z) (st : store)
  (classData : Schemas.class_value) : store * (string + option class_row) :=
  if permitted r then
    let (st', r) := insert_class gen now st classData in
    match error r with
    | Some e => (st', inl e)
    | None => (st', inr (data r))
    end
  else (st, inl "42501").

End Db.

(** * Verification *)

Lemma status_eqb_spec a b : reflect (a = b) (status_eqb a b).
Proof. destruct a, b; simpl; constructor; congruence. Qed.

Lemma status_eqb_refl a : status_eqb a a = true.
Proof. now destruct a. Qed.


(** ** Objects as association lists *)
Module JsObjectFacts.
Import JsObject.

Lemma own_None_keys {V} (o : t V) k : own o k = None <-> ~ In k (keys o).
Proof.
  induction o as [|[k' v] o IH]; simpl.
  - tauto.
  - destruct (String.eqb_spec k k') as [->|Hne].
    + split; [discriminate | intros H; exfalso; apply H; now left].
    + rewrite IH. split; intros H; [intros [E|I]; [congruence | tauto] | tauto].
Qed.

Lemma own_set {V} (o : t V) k v k' :
  own (set o k v) k' = if String.eqb k' k then Some v else own o k'.
Proof.
  induction o as [|[k0 v0] o IH]; simpl.
  - reflexivity.
  - destruct (String.eqb_spec k k0) as [->|Hne]; simpl.
    + destruct (String.eqb_spec k' k0); reflexivity.
    + rewrite IH. destruct (String.eqb_spec k' k0) as [->|Hne'].
      * destruct (String.eqb_spec k0 k); congruence.
      * reflexivity.
Qed.

Lemma keys_set_old {V} (o : t V) k v c :
  own o k = Some c -> keys (set o k v) = keys o.
Proof.
  induction o as [|[k0 v0] o IH]; simpl; [discriminate|].
  destruct (String.eqb_spec k k0) as [->|Hne]; simpl; intros H.
  - reflexivity.
  - f_equal. now apply IH.
Qed.

Lemma set_new {V} (o : t V) k v :
  own o k = None -> set o k v = o ++ [(k, v)].
Proof.
  induction o as [|[k0 v0] o IH]; simpl; [reflexivity|].
  destruct (String.eqb_spec k k0) as [->|Hne]; [discriminate|].
  intros H. f_equal. now apply IH.
Qed.

Lemma own_In {V} (o : t V) k v :
  NoDup (keys o) -> In (k, v) o -> own o k = Some v.
Proof.
  induction o as [|[k0 v0] o IH]; simpl; [tauto|].
  intros Hnd [E|I].
  - inversion E; subst. now rewrite String.eqb_refl.
  - inversion Hnd as [|? ? Hnotin Hnd']; subst.
    destruct (String.eqb_spec k k0) as [->|Hne].
    + exfalso. apply Hnotin. unfold keys. change k0 with (fst (k0, v)).
      now apply in_map.
    + now apply IH.
Qed.

(** Without array-index keys, enumeration order is creation order. *)
Lemma entries_plain {V} (o : t V) :
  Forall (fun k => is_array_index k = false) (keys o) -> entries o = o.
Proof.
  unfold entries. induction o as [|[k v] o IH]; simpl; [reflexivity|].
  intros H. inversion H as [|? ? Hk Ho]; subst. simpl in Hk.
  rewrite Hk. simpl. specialize (IH Ho).
  destruct (filter (fun kv => is_array_index (fst kv)) o) eqn:E.
  - simpl in *. now f_equal.
  - exfalso.
    assert (In p (filter (fun kv => is_array_index (fst kv)) o))
      as Hin by (rewrite E; now left).
    apply filter_In in Hin. destruct Hin as [Hin Hidx].
    rewrite Forall_forall in Ho.
    rewrite (Ho (fst p)) in Hidx; [discriminate|].
    unfold keys. now apply in_map.
Qed.

End JsObjectFacts.

(** ** The chart aggregation *)
Module ChartsFacts.
Import JsObject JsObjectFacts Charts.

(** A date of the store is neither an array index nor an inherited
    name. *)
Lemma iso_date_not_index s : is_iso_date s = true -> is_array_index s = false.
Proof.
  unfold is_iso_date.
  do 10 (destruct s as [|? s]; [discriminate|]).
  destruct s; [|discriminate].
  intros H. apply andb_prop in H. destruct H as [H _].
  apply andb_prop in H. destruct H as [_ H].
  apply Ascii.eqb_eq in H. subst.
  unfold is_array_index. cbn [all_digits].
  replace (is_digit "-") with false by reflexivity.
  now rewrite !andb_false_r.
Qed.

Lemma iso_date_not_inherited s : is_iso_date s = true -> inherited s = false.
Proof.
  intros H. destruct (inherited s) eqn:E; [|reflexivity].
  unfold inherited in E. apply existsb_exists in E.
  destruct E as [k [Hin Heq]]. apply String.eqb_eq in Heq. subst k.
  simpl in Hin.
  repeat (destruct Hin as [<-|Hin]; [discriminate H|]). contradiction.
Qed.

(** *** First occurrences *)

Lemma first_seen_In l x : In x (first_seen l) <-> In x l.
Proof.
  induction l as [|d l IH]; simpl; [tauto|].
  rewrite filter_In, IH.
  destruct (String.eqb_spec x d) as [->|Hne]; simpl.
  - split; [now left | now left].
  - split.
    + intros [E|[I _]]; [now left | now right].
    + intros [E|I]; [congruence | right; now split].
Qed.

Lemma first_seen_NoDup l : NoDup (first_seen l).
Proof.
  induction l as [|d l IH]; simpl; constructor.
  - rewrite filter_In. intros [_ H]. now rewrite String.eqb_refl in H.
  - now apply NoDup_filter.
Qed.

Lemma first_seen_snoc l d :
  first_seen (l ++ [d]) =
  if existsb (String.eqb d) l then first_seen l else first_seen l ++ [d].
Proof.
  induction l as [|a l IH]; simpl; [reflexivity|].
  rewrite IH.
  destruct (String.eqb_spec d a) as [->|Hne]; simpl.
  - destruct (existsb (String.eqb a) l); [reflexivity|].
    rewrite filter_app. simpl. rewrite String.eqb_refl. simpl.
    now rewrite app_nil_r.
  - destruct (existsb (String.eqb d) l); [reflexivity|].
    rewrite filter_app. simpl.
    destruct (String.eqb_spec d a); [congruence|]. reflexivity.
Qed.

Lemma existsb_eqb_In d l : existsb (String.eqb d) l = true <-> In d l.
Proof.
  rewrite existsb_exists. split.
  - intros [x [Hin Heq]]. apply String.eqb_eq in Heq. now subst.
  - intros H. exists d. split; [assumption | apply String.eqb_refl].
Qed.

(** *** Tallies *)

Lemma tally_snoc data r d s :
  tally (data ++ [r]) d s =
  tally data d s
  + (if String.eqb (date r) d && status_eqb (row_status r) s then 1 else 0).
Proof.
  unfold tally. rewrite filter_app, length_app. simpl.
  destruct (String.eqb (date r) d && status_eqb (row_status r) s); reflexivity.
Qed.

Lemma tally_all_snoc data r s :
  tally_all (data ++ [r]) s =
  tally_all data s + (if status_eqb (row_status r) s then 1 else 0).
Proof.
  unfold tally_all. rewrite filter_app, length_app. simpl.
  destruct (status_eqb (row_status r) s); reflexivity.
Qed.

Lemma get_incr s s' c :
  get s (incr s' c) = get s c + (if status_eqb s' s then 1 else 0).
Proof. destruct s, s'; simpl; lia. Qed.

Lemma tally_absent data d s : ~ In d (map date data) -> tally data d s = 0.
Proof.
  unfold tally. induction data as [|r data IH]; simpl; [reflexivity|].
  intros H. destruct (String.eqb_spec (date r) d) as [E|Hne]; simpl.
  - exfalso. apply H. now left.
  - apply IH. tauto.
Qed.

(** *** The loop invariant of [forEach] *)

Lemma invariant_initial : invariant [] initial.
Proof. split; simpl; try reflexivity; try discriminate. now intros []. Qed.

Lemma invariant_step data cd r :
  inherited (date r) = false ->
  invariant data cd -> invariant (data ++ [r]) (step cd r).
Proof.
  intros Hplain [Hk Hd Hs]. unfold step. rewrite Hplain.
  split; cbn [daily statusCounts].
  - rewrite map_app. simpl. rewrite first_seen_snoc.
    destruct (own (daily cd) (date r)) as [c|] eqn:E.
    + rewrite E. erewrite keys_set_old by eassumption.
      assert (In (date r) (map date data)) as Hin.
      { rewrite <- first_seen_In, <- Hk.
        destruct (in_dec string_dec (date r) (keys (daily cd))) as [?|n];
          [assumption|]. apply own_None_keys in n. congruence. }
      apply existsb_eqb_In in Hin. now rewrite Hin.
    + rewrite own_set, String.eqb_refl.
      rewrite (set_new (daily cd)) by assumption.
      assert (existsb (String.eqb (date r)) (map date data) = false) as Hex.
      { destruct (existsb _ _) eqn:X; [|reflexivity].
        apply existsb_eqb_In in X. rewrite <- first_seen_In, <- Hk in X.
        apply own_None_keys in E. contradiction. }
      rewrite Hex, <- Hk.
      assert (own (daily cd ++ [(date r, zero)]) (date r) = Some zero) as Hz.
      { rewrite <- (set_new (daily cd)) by assumption.
        now rewrite own_set, String.eqb_refl. }
      erewrite keys_set_old by exact Hz.
      unfold keys. now rewrite map_app.
  - intros d c Hown s. rewrite tally_snoc.
    destruct (own (daily cd) (date r)) as [c0|] eqn:E.
    + rewrite E, own_set in Hown.
      destruct (String.eqb_spec d (date r)) as [->|Hne].
      * inversion Hown; subst. rewrite get_incr, String.eqb_refl. simpl.
        now rewrite (Hd _ _ E).
      * destruct (String.eqb_spec (date r) d); [congruence|]. simpl.
        rewrite Nat.add_0_r. now apply Hd.
    + rewrite own_set, String.eqb_refl, !own_set in Hown.
      destruct (String.eqb_spec d (date r)) as [->|Hne].
      * inversion Hown; subst. rewrite get_incr, String.eqb_refl. simpl.
        rewrite tally_absent; [now destruct s, (row_status r)|].
        rewrite <- first_seen_In, <- Hk. now apply own_None_keys.
      * destruct (String.eqb_spec (date r) d); [congruence|]. simpl.
        rewrite Nat.add_0_r. now apply Hd.
  - intros s. now rewrite tally_all_snoc, get_incr, Hs.
Qed.

Lemma invariant_fold data :
  Forall (fun r => inherited (date r) = false) data ->
  invariant data (fold_left step data initial).
Proof.
  induction data as [|r data IH] using rev_ind; intros H.
  - apply invariant_initial.
  - rewrite fold_left_app. simpl. apply Forall_app in H. destruct H as [H1 H2].
    inversion H2; subst. apply invariant_step; auto.
Qed.

Lemma total_sum kv :
  t_total (to_trend kv) =
  t_Present (to_trend kv) + t_Absent (to_trend kv)
  + t_Late (to_trend kv) + t_Excused (to_trend kv).
Proof. destruct kv as [d c]. reflexivity. Qed.

Lemma tally_positive data d :
  In d (map date data) -> exists s, 0 < tally data d s.
Proof.
  intros H. apply in_map_iff in H. destruct H as [r [Hd Hin]].
  exists (row_status r). unfold tally.
  assert (In r (filter (fun r0 => String.eqb (date r0) d
                        && status_eqb (row_status r0) (row_status r)) data))
    as Hf.
  { apply filter_In. split; [assumption|].
    rewrite Hd, String.eqb_refl. destruct (row_status r); reflexivity. }
  destruct (filter _ data); [contradiction | simpl; lia].
Qed.

(** The overall tally: each status count is the number of rows of that
    status. *)
Lemma aggregate_statusCounts data s :
  Forall (fun r => is_iso_date (date r) = true) data ->
  get s (statusCounts (aggregate data)) = tally_all data s.
Proof.
  intros Hiso. unfold aggregate. cbn [statusCounts].
  apply invariant_fold. eapply Forall_impl; [|exact Hiso].
  intros r. apply iso_date_not_inherited.
Qed.

(** C1: on the rows (2024-01-01, Present), (2024-01-01, Absent),
    (2024-01-02, Present) the aggregation yields the two per-date
    summaries {2024-01-01: 1 Present, 1 Absent, total 2} and
    {2024-01-02: 1 Present, total 1}, in that order, and the overall
    statusCounts {Present 2, Absent 1, Late 0, Excused 0}. *)
Theorem aggregate_three_rows :
  let data := [ {| date := "2024-01-01"; row_status := Present |};
                {| date := "2024-01-01"; row_status := Absent |};
                {| date := "2024-01-02"; row_status := Present |} ] in
  trends (aggregate data) =
    [ {| t_date := "2024-01-01"; t_Present := 1; t_Absent := 1;
         t_Late := 0; t_Excused := 0; t_total := 2 |};
      {| t_date := "2024-01-02"; t_Present := 1; t_Absent := 0;
         t_Late := 0; t_Excused := 0; t_total := 1 |} ]
  /\ statusCounts (aggregate data) =
       {| cPresent := 2; cAbsent := 1; cLate := 0; cExcused := 0 |}.
Proof. split; reflexivity. Qed.

(** C2: for rows whose dates are dates of the store, the per-date
    summary has exactly one entry per distinct date of the input, in
    order of first occurrence; each entry's four counts are the numbers
    of input rows of that date and status, its total is their sum, and
    every entry stands for at least one row (no zero-filled dates). *)
Theorem aggregate_trends data :
  Forall (fun r => is_iso_date (date r) = true) data ->
  let ts := trends (aggregate data) in
  map t_date ts = first_seen (map date data)
  /\ NoDup (map t_date ts)
  /\ (forall d, In d (map t_date ts) <-> In d (map date data))
  /\ Forall (fun e =>
       t_Present e = tally data (t_date e) Present
       /\ t_Absent e = tally data (t_date e) Absent
       /\ t_Late e = tally data (t_date e) Late
       /\ t_Excused e = tally data (t_date e) Excused
       /\ t_total e = t_Present e + t_Absent e + t_Late e + t_Excused e
       /\ 0 < t_total e) ts.
Proof.
  intros Hiso. cbn zeta. unfold aggregate. cbn [trends].
  set (cd := fold_left step data initial).
  assert (invariant data cd) as [Hk Hd _].
  { apply invariant_fold. eapply Forall_impl; [|exact Hiso].
    intros r. apply iso_date_not_inherited. }
  assert (entries (daily cd) = daily cd) as He.
  { apply entries_plain. rewrite Hk. apply Forall_forall. intros k Hin.
    apply first_seen_In, in_map_iff in Hin. destruct Hin as [r [<- Hin]].
    rewrite Forall_forall in Hiso. now apply iso_date_not_index, Hiso. }
  rewrite He.
  assert (map t_date (map to_trend (daily cd)) = keys (daily cd)) as Hdates.
  { unfold keys. rewrite map_map. apply map_ext. now intros [d c]. }
  rewrite Hdates, Hk.
  split; [reflexivity|]. split; [apply first_seen_NoDup|].
  split; [intros d; apply first_seen_In|].
  apply Forall_forall. intros e Hin. apply in_map_iff in Hin.
  destruct Hin as [[d c] [<- Hin]].
  assert (own (daily cd) d = Some c) as Hown.
  { apply own_In; [|assumption]. rewrite Hk. apply first_seen_NoDup. }
  pose proof (Hd _ _ Hown) as Hc.
  rewrite total_sum. cbn [to_trend t_date t_Present t_Absent t_Late t_Excused].
  rewrite <- (Hc Present), <- (Hc Absent), <- (Hc Late), <- (Hc Excused).
  cbn [get]. repeat (split; [reflexivity|]).
  assert (In d (map date data)) as Hdin.
  { rewrite <- first_seen_In, <- Hk. unfold keys.
    change d with (fst (d, c)). now apply in_map. }
  destruct (tally_positive _ _ Hdin) as [s Hs].
  rewrite <- Hc in Hs. destruct s; simpl in Hs; lia.
Qed.

(** The rows of C1 are an instance of C2. *)
Lemma aggregate_trends_witness :
  let data := [ {| date := "2024-01-01"; row_status := Present |};
                {| date := "2024-01-01"; row_status := Absent |};
                {| date := "2024-01-02"; row_status := Present |} ] in
  map t_date (trends (aggregate data)) = first_seen (map date data).
Proof.
  intros data.
  refine (proj1 (aggregate_trends data _)).
  repeat constructor.
Defined.

End ChartsFacts.

(** ** Binary64 arithmetic on counts *)
Module Binary64Facts.
Import Binary64 Dashboard.
Local Open Scope Z_scope.

(** *** Digits *)

Lemma digits2_pos_bounds (m : positive) :
  2 ^ (Zpos (digits2_pos m) - 1) <= Zpos m < 2 ^ Zpos (digits2_pos m).
Proof.
  induction m as [m IH|m IH|]; cbn [digits2_pos].
  - rewrite Pos2Z.inj_succ, (Pos2Z.inj_xI m).
    replace (Z.succ (Zpos (digits2_pos m)) - 1)
      with (Z.succ (Zpos (digits2_pos m) - 1)) by lia.
    rewrite !Z.pow_succ_r by lia.
    set (a := 2 ^ (Zpos (digits2_pos m) - 1)) in *.
    set (b := 2 ^ Zpos (digits2_pos m)) in *. lia.
  - rewrite Pos2Z.inj_succ, (Pos2Z.inj_xO m).
    replace (Z.succ (Zpos (digits2_pos m)) - 1)
      with (Z.succ (Zpos (digits2_pos m) - 1)) by lia.
    rewrite !Z.pow_succ_r by lia.
    set (a := 2 ^ (Zpos (digits2_pos m) - 1)) in *.
    set (b := 2 ^ Zpos (digits2_pos m)) in *. lia.
  - simpl. lia.
Qed.

Lemma digits2_pos_unique (m : positive) (n : Z) :
  2 ^ (n - 1) <= Zpos m < 2 ^ n -> Zpos (digits2_pos m) = n.
Proof.
  intros [Hlo Hhi]. pose proof (digits2_pos_bounds m) as [Dlo Dhi].
  set (d := Zpos (digits2_pos m)) in *.
  assert (0 < n) as Hn.
  { destruct (Z.lt_ge_cases 0 n) as [?|Hle]; [assumption|].
    exfalso. destruct (Z.eq_dec n 0) as [->|Hne].
    - simpl in Hhi. lia.
    - rewrite (Z.pow_neg_r 2 n) in Hhi by lia. lia. }
  destruct (Z.lt_trichotomy d n) as [Hlt|[Heq|Hgt]]; [|assumption|]; exfalso.
  - assert (2 ^ d <= 2 ^ (n - 1)) by (apply Z.pow_le_mono_r; lia). lia.
  - assert (2 ^ n <= 2 ^ (d - 1)) by (apply Z.pow_le_mono_r; lia). lia.
Qed.

(** *** Iterated shifts *)

Lemma iter_pos_nat {A} (f : A -> A) (p : positive) (x : A) :
  iter_pos f p x = Nat.iter (Pos.to_nat p) f x.
Proof.
  revert x. induction p as [p IH|p IH|]; intros x; cbn [iter_pos].
  - rewrite !IH, Pos2Nat.inj_xI. cbn [Nat.mul].
    rewrite Nat.add_0_r, <- Nat.iter_add, <- Nat.iter_succ_r. reflexivity.
  - rewrite !IH, Pos2Nat.inj_xO. cbn [Nat.mul].
    rewrite Nat.add_0_r, <- Nat.iter_add. reflexivity.
  - reflexivity.
Qed.

Lemma shr_m_shr_1 mrs : 0 <= shr_m mrs -> shr_m (shr_1 mrs) = shr_m mrs / 2.
Proof.
  destruct mrs as [m r s]. cbn [shr_m]. intros Hm.
  destruct m as [|[p|p|]|p]; cbn [shr_1 shr_m]; try lia.
  - reflexivity.
  - rewrite (Pos2Z.inj_xI p). apply Z.div_unique with 1; lia.
  - rewrite (Pos2Z.inj_xO p). apply Z.div_unique with 0; lia.
  - reflexivity.
Qed.

Lemma located_shr_1 N D mrs :
  0 < D -> located N D mrs -> located N (2 * D) (shr_1 mrs).
Proof.
  intros HD [Hm H]. destruct mrs as [m r s]. cbn [shr_m shr_r shr_s] in *.
  unfold located.
  destruct m as [|[p|p|]|p]; try lia;
    cbn [shr_1 shr_m shr_r shr_s];
    try rewrite (Pos2Z.inj_xI p) in *; try rewrite (Pos2Z.inj_xO p) in *;
    (split; [lia|]);
    destruct r, s; cbn [orb]; lia.
Qed.

Lemma located_iter N D mrs (k : nat) :
  0 < D -> located N D mrs ->
  located N (2 ^ Z.of_nat k * D) (Nat.iter k shr_1 mrs)
  /\ shr_m (Nat.iter k shr_1 mrs) = shr_m mrs / 2 ^ Z.of_nat k.
Proof.
  intros HD Hloc. induction k as [|k [IH1 IH2]].
  - change (2 ^ Z.of_nat 0) with 1. rewrite Z.mul_1_l, Z.div_1_r.
    split; [assumption | reflexivity].
  - cbn [Nat.iter nat_rect]. change (nat_rect _ mrs (fun _ => shr_1) k)
      with (Nat.iter k shr_1 mrs).
    rewrite Nat2Z.inj_succ, Z.pow_succ_r by lia. split.
    + replace (2 * 2 ^ Z.of_nat k * D) with (2 * (2 ^ Z.of_nat k * D)) by lia.
      apply located_shr_1; [|assumption].
      assert (0 < 2 ^ Z.of_nat k) by (apply Z.pow_pos_nonneg; lia). lia.
    + rewrite shr_m_shr_1 by (destruct IH1; assumption).
      rewrite IH2, Z.div_div by (try apply Z.pow_pos_nonneg; lia).
      f_equal. lia.
Qed.


Lemma fexp_normal x : -1074 <= x - 53 -> fexp prec emax x = x - 53.
Proof. unfold fexp, SpecFloat.emin, prec, emax. lia. Qed.

Lemma shr_nat mrs e k :
  0 <= k -> shr mrs e k = (Nat.iter (Z.to_nat k) shr_1 mrs, e + k).
Proof.
  intros Hk. destruct k as [|p|p]; [| |lia]; cbn [shr].
  - now rewrite Z.add_0_r.
  - now rewrite iter_pos_nat.
Qed.

Lemma loc_of_record_of_loc m l :
  loc_of_shr_record (shr_record_of_loc m l) = l.
Proof. destruct l as [|[| |]]; reflexivity. Qed.

(** Rounding to nearest moves to a neighbour at most half a unit away. *)
Lemma round_nearest_even_near N D mrs :
  0 < D -> located N D mrs ->
  let m' := round_nearest_even (shr_m mrs) (loc_of_shr_record mrs) in
  shr_m mrs <= m' <= shr_m mrs + 1 /\ - D <= 2 * (m' * D - N) <= D.
Proof.
  intros HD [Hm H]. destruct mrs as [m r s]. cbn [shr_m shr_r shr_s] in *.
  destruct r, s; cbn [loc_of_shr_record round_nearest_even];
    try destruct (Z.even m); lia.
Qed.

(** *** Rounding a located value to 53 bits

    [binary_round_aux] on a mantissa of at least 53 bits, away from
    underflow and overflow: the result is a normal number within half a
    unit in the last place of the value. *)
Lemma round_aux_spec (mp : positive) (e : Z) (loc : location) (N D : Z) :
  let d := Zpos (digits2_pos mp) in
  53 <= d -> -1074 <= d + e - 53 -> d + e - 53 + 1 <= 971 ->
  0 < D -> located N D (shr_record_of_loc (Zpos mp) loc) ->
  exists m' e',
    binary_round_aux prec emax false (Zpos mp) e loc = S754_finite false m' e'
    /\ 2 ^ 52 <= Zpos m' < 2 ^ 53
    /\ e + (d - 53) <= e' <= e + (d - 53) + 1
    /\ - (2 ^ (e' - e) * D)
       <= 2 * (Zpos m' * (2 ^ (e' - e) * D) - N)
       <= 2 ^ (e' - e) * D.
Proof.
  intros d Hd Hlo Hhi HD Hloc.
  set (k := d - 53). assert (0 <= k) as Hk by (unfold k; lia).
  set (mrs1 := Nat.iter (Z.to_nat k) shr_1 (shr_record_of_loc (Zpos mp) loc)).
  assert (shr_fexp prec emax (Zpos mp) e loc = (mrs1, e + k)) as H1.
  { unfold shr_fexp. cbn [Zdigits2]. fold d.
    rewrite fexp_normal by lia.
    replace (d + e - 53 - e) with k by (unfold k; lia).
    now apply shr_nat. }
  destruct (located_iter N D _ (Z.to_nat k) HD Hloc) as [L1 M1].
  fold mrs1 in L1, M1. rewrite Z2Nat.id in L1, M1 by assumption.
  assert (shr_m (shr_record_of_loc (Zpos mp) loc) = Zpos mp) as Hm0
    by (destruct loc as [|[| |]]; reflexivity).
  rewrite Hm0 in M1.
  assert (0 < 2 ^ k) as Hpk by (apply Z.pow_pos_nonneg; lia).
  assert (2 ^ 52 <= shr_m mrs1 < 2 ^ 53) as Hm1.
  { pose proof (digits2_pos_bounds mp) as [Dlo Dhi]. fold d in Dlo, Dhi.
    replace (d - 1) with (52 + k) in Dlo by (unfold k; lia).
    replace d with (53 + k) in Dhi by (unfold k; lia).
    rewrite Z.pow_add_r in Dlo, Dhi by lia.
    rewrite M1. split.
    - apply Z.div_le_lower_bound; lia.
    - apply Z.div_lt_upper_bound; lia. }
  assert (0 < 2 ^ k * D) as HD1 by lia.
  destruct (round_nearest_even_near N (2 ^ k * D) mrs1 HD1 L1) as [Hm2 Hnear].
  set (m2 := round_nearest_even (shr_m mrs1) (loc_of_shr_record mrs1)) in *.
  unfold binary_round_aux. rewrite H1. fold m2.
  destruct (Z.eq_dec m2 (2 ^ 53)) as [E|NE].
  - (* the mantissa was rounded up to 2^53: one more shift *)
    rewrite E.
    assert (shr_fexp prec emax (2 ^ 53) (e + k) loc_Exact
            = ({| shr_m := 2 ^ 52; shr_r := false; shr_s := false |},
               e + k + 1)) as H2.
    { unfold shr_fexp.
      change (Zdigits2 (2 ^ 53)) with 54.
      rewrite fexp_normal by (unfold k; lia).
      replace (54 + (e + k) - 53 - (e + k)) with 1 by lia.
      reflexivity. }
    rewrite H2. cbn [shr_m]. change (2 ^ 52) with (Zpos (2 ^ 52)%positive).
    cbv iota beta.
    replace (e + k + 1 <=? emax - prec) with true
      by (symmetry; apply Z.leb_le; unfold emax, prec, k; lia).
    exists (2 ^ 52)%positive, (e + k + 1).
    split; [reflexivity|]. split; [simpl; lia|]. split; [unfold k; lia|].
    replace (e + k + 1 - e) with (k + 1) by lia.
    rewrite Z.pow_add_r by lia. change (2 ^ 1) with 2.
    change (Zpos (2 ^ 52)%positive) with (2 ^ 52).
    rewrite E in Hnear. change (2 ^ 53) with (2 ^ 52 * 2) in Hnear. lia.
  - (* the mantissa still has 53 bits *)
    assert (2 ^ 52 <= m2 < 2 ^ 53) as Hm2' by lia.
    destruct m2 as [|m2p|m2p] eqn:Em2; [simpl in Hm2'; lia| |lia].
    assert (shr_fexp prec emax (Zpos m2p) (e + k) loc_Exact
            = ({| shr_m := Zpos m2p; shr_r := false; shr_s := false |},
               e + k)) as H2.
    { unfold shr_fexp. cbn [Zdigits2].
      rewrite (digits2_pos_unique m2p 53) by (simpl; lia).
      rewrite fexp_normal by (unfold k; lia).
      replace (53 + (e + k) - 53 - (e + k)) with 0 by lia.
      reflexivity. }
    rewrite H2. cbn [shr_m]. cbv iota beta.
    replace (e + k <=? emax - prec) with true
      by (symmetry; apply Z.leb_le; unfold emax, prec, k; lia).
    exists m2p, (e + k).
    split; [reflexivity|]. split; [assumption|]. split; [unfold k; lia|].
    replace (e + k - e) with k by lia. lia.
Qed.


(** A located 53-bit mantissa with nothing to round stays as it is. *)
Lemma round_aux_exact (mp : positive) (e : Z) :
  2 ^ 52 <= Zpos mp < 2 ^ 53 -> -1074 <= e <= 971 ->
  binary_round_aux prec emax false (Zpos mp) e loc_Exact
  = S754_finite false mp e.
Proof.
  intros Hm He.
  assert (shr_fexp prec emax (Zpos mp) e loc_Exact
          = ({| shr_m := Zpos mp; shr_r := false; shr_s := false |}, e)) as H.
  { unfold shr_fexp. cbn [Zdigits2].
    rewrite (digits2_pos_unique mp 53) by (simpl; lia).
    rewrite fexp_normal by lia.
    replace (53 + e - 53 - e) with 0 by lia. reflexivity. }
  unfold binary_round_aux. rewrite H.
  cbn [shr_m loc_of_shr_record round_nearest_even]. rewrite H. cbn [shr_m].
  replace (e <=? emax - prec) with true
    by (symmetry; apply Z.leb_le; unfold emax, prec; lia).
  reflexivity.
Qed.

Lemma iter_xO (p k : positive) : Zpos (Pos.iter xO p k) = Zpos p * 2 ^ Zpos k.
Proof.
  induction k as [|k IH] using Pos.peano_ind.
  - simpl. rewrite (Pos2Z.inj_xO p). lia.
  - rewrite Pos.iter_succ, (Pos2Z.inj_xO (Pos.iter xO p k)), IH,
      Pos2Z.inj_succ, Z.pow_succ_r by lia. lia.
Qed.

(** The Number of a positive integer below 2^53 is that integer. *)
Lemma Number_exact (n : Z) :
  0 < n < 2 ^ 53 ->
  exists m E,
    Number n = S754_finite false m (- E)
    /\ 2 ^ 52 <= Zpos m < 2 ^ 53
    /\ 0 <= E <= 52
    /\ Zpos m = n * 2 ^ E.
Proof.
  intros Hn. destruct n as [|np|np]; try lia.
  pose proof (digits2_pos_bounds np) as [Dlo Dhi].
  set (d := Zpos (digits2_pos np)) in *.
  assert (1 <= d <= 53) as Hd.
  { split; [unfold d; lia|].
    destruct (Z.le_gt_cases d 53) as [?|Hgt]; [assumption|]. exfalso.
    assert (2 ^ 53 <= 2 ^ (d - 1)) by (apply Z.pow_le_mono_r; lia). lia. }
  unfold Number, binary_normalize, binary_round.
  rewrite Z.add_0_r. fold d. rewrite fexp_normal by lia.
  unfold shl_align. rewrite Z.sub_0_r.
  destruct (d - 53) as [|k|k] eqn:Ek; try lia.
  - (* 53 digits already *)
    assert (d = 53) as Ed by lia. rewrite Ed in *.
    exists np, 0. change (- 0) with 0.
    split; [apply round_aux_exact; simpl in *; lia|].
    split; [simpl in *; lia|]. split; [lia|]. simpl. lia.
  - (* shifted left to 53 digits *)
    assert (Zpos k = 53 - d) as Hk by lia.
    assert (2 ^ 52 <= Zpos (Pos.iter xO np k) < 2 ^ 53) as Hm.
    { rewrite iter_xO, Hk.
      assert (2 ^ 52 = 2 ^ (d - 1) * 2 ^ (53 - d)) as E52
        by (rewrite <- Z.pow_add_r by lia; f_equal; lia).
      assert (2 ^ 53 = 2 ^ d * 2 ^ (53 - d)) as E53
        by (rewrite <- Z.pow_add_r by lia; f_equal; lia).
      rewrite E52, E53.
      assert (0 < 2 ^ (53 - d)) by (apply Z.pow_pos_nonneg; lia).
      split; [apply Z.mul_le_mono_nonneg_r | apply Z.mul_lt_mono_pos_r];
        lia. }
    exists (Pos.iter xO np k), (Zpos k).
    split; [apply round_aux_exact; [assumption | lia]|].
    split; [assumption|]. split; [lia|]. apply iter_xO.
Qed.

(** The location that [new_location] computes for a remainder. *)
Lemma located_new_location (q r D : Z) :
  0 <= q -> 0 <= r < D ->
  located (q * D + r) D (shr_record_of_loc q (new_location D r)).
Proof.
  intros Hq Hr. unfold new_location, new_location_even, new_location_odd.
  destruct (Z.even D) eqn:Ev.
  - destruct (Z.eqb_spec r 0) as [->|Hne].
    + split; cbn [shr_record_of_loc shr_m shr_r shr_s]; lia.
    + destruct (Z.compare_spec (2 * r) D);
        split; cbn [shr_record_of_loc shr_m shr_r shr_s]; lia.
  - destruct (Z.eqb_spec r 0) as [->|Hne].
    + split; cbn [shr_record_of_loc shr_m shr_r shr_s]; lia.
    + assert (2 * r <> D) as Hodd.
      { intros E. rewrite <- E, Z.even_mul in Ev. discriminate. }
      destruct (Z.compare_spec (2 * r + 1) D);
        split; cbn [shr_record_of_loc shr_m shr_r shr_s]; lia.
Qed.


(** *** The quotient of two counts *)
Lemma div_spec (p t : Z) :
  0 < p <= t -> t < 2 ^ 53 ->
  exists m1 E1,
    SFdiv prec emax (Number p) (Number t) = S754_finite false m1 (- E1)
    /\ 2 ^ 52 <= Zpos m1 < 2 ^ 53
    /\ 51 <= E1 <= 105
    /\ - t <= 2 * (Zpos m1 * t - p * 2 ^ E1) <= t.
Proof.
  intros Hp Ht.
  destruct (Number_exact p ltac:(lia)) as [mx [Ex [Hx [Bx [Rx Vx]]]]].
  destruct (Number_exact t ltac:(lia)) as [my [Ey [Hy [By [Ry Vy]]]]].
  rewrite Hx, Hy. cbn [SFdiv xorb].
  assert (0 < 2 ^ Ex) as PEx by (apply Z.pow_pos_nonneg; lia).
  assert (0 < 2 ^ Ey) as PEy by (apply Z.pow_pos_nonneg; lia).
  (* the smaller count has the smaller exponent *)
  assert (Ey <= Ex) as Hexp.
  { destruct (Z.le_gt_cases Ey Ex) as [?|Hgt]; [assumption|]. exfalso.
    assert (2 ^ (Ex + 1) <= 2 ^ Ey) by (apply Z.pow_le_mono_r; lia).
    rewrite Z.pow_add_r in H by lia. change (2 ^ 1) with 2 in H. nia. }
  set (e := - Ex + Ey - 53).
  set (N := Zpos mx * 2 ^ 53).
  assert (SFdiv_core_binary prec emax (Zpos mx) (- Ex) (Zpos my) (- Ey)
          = (N / Zpos my, e, new_location (Zpos my) (N mod Zpos my))) as Hcore.
  { unfold SFdiv_core_binary. cbn [Zdigits2].
    rewrite (digits2_pos_unique mx 53), (digits2_pos_unique my 53)
      by (simpl; lia).
    replace (53 + - Ex - (53 + - Ey)) with (- Ex + Ey) by lia.
    rewrite fexp_normal by lia.
    replace (Z.min (- Ex + Ey - 53) (- Ex - - Ey)) with e by (unfold e; lia).
    replace (- Ex - - Ey - e) with 53 by (unfold e; lia).
    cbv iota. rewrite Z.shiftl_mul_pow2 by lia. fold N.
    unfold Z.div, Z.modulo. destruct (Z.div_eucl N (Zpos my)). reflexivity. }
  rewrite Hcore.
  pose proof (Z.div_mod N (Zpos my) ltac:(lia)) as Hdm.
  pose proof (Z.mod_pos_bound N (Zpos my) ltac:(lia)) as Hr.
  set (q := N / Zpos my) in *. set (r := N mod Zpos my) in *.
  assert (2 ^ 52 <= q < 2 ^ 54) as Hq.
  { unfold q, N. split.
    - apply Z.div_le_lower_bound; [lia|].
      change (2 ^ 53) with 9007199254740992 in *.
      change (2 ^ 52) with 4503599627370496 in *. nia.
    - apply Z.div_lt_upper_bound; [lia|].
      change (2 ^ 54) with 18014398509481984.
      change (2 ^ 53) with 9007199254740992 in *.
      change (2 ^ 52) with 4503599627370496 in *. nia. }
  destruct q as [|qp|qp] eqn:Eq; [simpl in Hq; lia| |lia].
  pose proof (digits2_pos_bounds qp) as [Dlo Dhi].
  set (d := Zpos (digits2_pos qp)) in *.
  assert (53 <= d <= 54) as Hd.
  { split.
    - destruct (Z.le_gt_cases 53 d) as [?|Hlt]; [assumption|]. exfalso.
      assert (2 ^ d <= 2 ^ 52) by (apply Z.pow_le_mono_r; lia). lia.
    - destruct (Z.le_gt_cases d 54) as [?|Hgt]; [assumption|]. exfalso.
      assert (2 ^ 54 <= 2 ^ (d - 1)) by (apply Z.pow_le_mono_r; lia). lia. }
  assert (located N (Zpos my)
            (shr_record_of_loc (Zpos qp) (new_location (Zpos my) r))) as Hloc.
  { replace N with (Zpos qp * Zpos my + r) by lia.
    apply located_new_location; lia. }
  pose proof (round_aux_spec qp e (new_location (Zpos my) r) N (Zpos my))
    as Hspec.
  cbv zeta in Hspec. fold d in Hspec.
  destruct Hspec as [m1 [e1 [Hres [Bm1 [Be1 Hnear]]]]];
    [lia | unfold e; lia | unfold e; lia | lia | exact Hloc |].
  exists m1, (- e1). rewrite Z.opp_involutive.
  split; [assumption|]. split; [assumption|].
  split; [unfold e in Be1; lia|].
  (* scale the bound back to the counts *)
  set (s := e1 - e) in *.
  assert (0 <= s <= 2) as Hs by (unfold s; lia).
  assert (0 < 2 ^ s) as Ps by (apply Z.pow_pos_nonneg; lia).
  set (c := 2 ^ s * 2 ^ Ey).
  assert (0 < c) as Pc by (unfold c; nia).
  assert (2 ^ s * Zpos my = c * t) as ED by (unfold c; rewrite Vy; ring).
  assert (N = c * (p * 2 ^ (- e1))) as EN.
  { unfold N, c. rewrite Vx.
    replace (- e1) with (Ex + 53 - s - Ey) by (unfold s, e; lia).
    replace (p * 2 ^ Ex * 2 ^ 53) with (p * 2 ^ (Ex + 53))
      by (rewrite Z.pow_add_r by lia; ring).
    replace (2 ^ s * 2 ^ Ey * (p * 2 ^ (Ex + 53 - s - Ey)))
      with (p * (2 ^ s * 2 ^ Ey * 2 ^ (Ex + 53 - s - Ey))) by ring.
    rewrite <- !Z.pow_add_r by lia. do 2 f_equal. lia. }
  rewrite ED, EN in Hnear.
  replace (2 * (Zpos m1 * (c * t) - c * (p * 2 ^ (- e1))))
    with (c * (2 * (Zpos m1 * t - p * 2 ^ (- e1)))) in Hnear by ring.
  replace (- (c * t)) with (c * - t) in Hnear by ring.
  destruct Hnear as [Hn1 Hn2].
  apply Z.mul_le_mono_pos_l in Hn1, Hn2; try assumption. lia.
Qed.


(** *** The product with 100 *)
Lemma mul_100_spec (m1 : positive) (E1 : Z) :
  2 ^ 52 <= Zpos m1 < 2 ^ 53 -> 51 <= E1 <= 105 ->
  exists m2 E2 k,
    SFmul prec emax (S754_finite false m1 (- E1)) (Number 100)
      = S754_finite false m2 (- E2)
    /\ 2 ^ 52 <= Zpos m2 < 2 ^ 53
    /\ 6 <= k <= 8 /\ E1 = E2 + k
    /\ - 2 ^ k <= 2 * (Zpos m2 * 2 ^ k - 100 * Zpos m1) <= 2 ^ k.
Proof.
  intros Bm1 BE1.
  change (Number 100) with (S754_finite false 7036874417766400 (-46)).
  cbn [SFmul xorb].
  set (mc := 7036874417766400%positive).
  assert (Zpos mc = 100 * 2 ^ 46) as Emc by reflexivity.
  pose proof (digits2_pos_bounds (m1 * mc)) as [Dlo Dhi].
  set (d := Zpos (digits2_pos (m1 * mc))) in *.
  assert (2 ^ 104 <= Zpos (m1 * mc) < 2 ^ 106) as Bprod.
  { rewrite Pos2Z.inj_mul, Emc.
    change (2 ^ 104) with (2 ^ 52 * 2 ^ 52).
    change (2 ^ 106) with (2 ^ 53 * 2 ^ 53).
    change (2 ^ 46) with 70368744177664.
    change (2 ^ 52) with 4503599627370496 in *.
    change (2 ^ 53) with 9007199254740992 in *. nia. }
  assert (105 <= d <= 106) as Hd.
  { split.
    - destruct (Z.le_gt_cases 105 d) as [?|Hlt]; [assumption|]. exfalso.
      assert (2 ^ d <= 2 ^ 104) by (apply Z.pow_le_mono_r; lia). lia.
    - destruct (Z.le_gt_cases d 106) as [?|Hgt]; [assumption|]. exfalso.
      assert (2 ^ 106 <= 2 ^ (d - 1)) by (apply Z.pow_le_mono_r; lia). lia. }
  pose proof (round_aux_spec (m1 * mc) (- E1 + -46) loc_Exact
                (Zpos (m1 * mc)) 1) as Hspec.
  cbv zeta in Hspec. fold d in Hspec.
  destruct Hspec as [m2 [e2 [Hres [Bm2 [Be2 Hnear]]]]];
    [lia | lia | lia | lia
    | split; cbn [shr_record_of_loc shr_m shr_r shr_s]; lia |].
  set (k := e2 + E1).
  exists m2, (- e2), k. rewrite Z.opp_involutive.
  split; [assumption|]. split; [assumption|].
  split; [unfold k; lia|]. split; [unfold k; lia|].
  replace (e2 - (- E1 + -46)) with (k + 46) in Hnear by (unfold k; lia).
  assert (0 <= k) as Hk by (unfold k; lia).
  rewrite Z.pow_add_r, Z.mul_1_r, Pos2Z.inj_mul, Emc in Hnear by lia.
  assert (0 < 2 ^ 46) as P46 by reflexivity.
  set (c := 2 ^ 46) in *.
  replace (2 * (Zpos m2 * (2 ^ k * c) - Zpos m1 * (100 * c)))
    with (c * (2 * (Zpos m2 * 2 ^ k - 100 * Zpos m1))) in Hnear by ring.
  replace (- (2 ^ k * c)) with (c * - 2 ^ k) in Hnear by ring.
  replace (2 ^ k * c) with (c * 2 ^ k) in Hnear by ring.
  destruct Hnear as [Hn1 Hn2].
  apply Z.mul_le_mono_pos_l in Hn1, Hn2; try assumption. lia.
Qed.

(** *** [Math.round] of a positive Number with a fraction *)
Lemma Math_round_spec (m2 : positive) (E2 : Z) :
  0 < E2 ->
  exists r,
    Math_round (S754_finite false m2 (- E2)) = Number r
    /\ r * 2 ^ (E2 + 1) <= 2 * Zpos m2 + 2 ^ E2 < (r + 1) * 2 ^ (E2 + 1).
Proof.
  intros HE. destruct E2 as [|kp|kp]; try lia.
  cbn [Math_round Z.opp].
  set (a := 2 * Zpos m2 + 2 ^ Zpos kp).
  set (b := 2 ^ (Zpos kp + 1)).
  assert (0 < b) as Pb by (apply Z.pow_pos_nonneg; lia).
  exists (a / b). split.
  - destruct (a / b); reflexivity.
  - pose proof (Z.mul_div_le a b Pb).
    pose proof (Z.mul_succ_div_gt a b Pb). lia.
Qed.

(** *** The rate of [p] present out of [t]

    [Math.round((p / t) * 100)] is an integer nearest to [100 p / t]. *)
Lemma rate_nearest (p t : Z) :
  0 <= p <= t -> 0 < t < 2 ^ 32 ->
  exists r,
    Math_round (SFmul prec emax (SFdiv prec emax (Number p) (Number t))
                  (Number 100)) = Number r
    /\ 0 <= r <= 100
    /\ - t <= 2 * (100 * p - r * t) <= t.
Proof.
  intros Hp Ht.
  assert (2 ^ 32 < 2 ^ 53) as H3253 by reflexivity.
  destruct (Z.eq_dec p 0) as [->|Hp0].
  - (* nobody present *)
    destruct (Number_exact t ltac:(lia)) as [my [Ey [Hy _]]].
    rewrite Hy. exists 0. split; [reflexivity | lia].
  - destruct (div_spec p t ltac:(lia) ltac:(lia))
      as [m1 [E1 [Hdiv [Bm1 [BE1 R1]]]]].
    destruct (mul_100_spec m1 E1 Bm1 BE1)
      as [m2 [E2 [k [Hmul [Bm2 [Bk [EE R2]]]]]]].
    destruct (Math_round_spec m2 E2 ltac:(lia)) as [r [Hround R3]].
    rewrite Hdiv, Hmul, Hround. exists r.
    split; [reflexivity|].
    assert (0 < 2 ^ E2) as PA by (apply Z.pow_pos_nonneg; lia).
    assert (0 < 2 ^ k) as PB by (apply Z.pow_pos_nonneg; lia).
    assert (2 ^ E1 = 2 ^ E2 * 2 ^ k) as EAB
      by (rewrite EE, Z.pow_add_r by lia; reflexivity).
    rewrite Z.pow_add_r in R3 by lia. change (2 ^ 1) with 2 in R3.
    assert (2 ^ 39 <= 2 ^ E2) as HA by (apply Z.pow_le_mono_r; lia).
    assert (2 ^ k <= 2 ^ 8) as HB by (apply Z.pow_le_mono_r; lia).
    assert (1 <= 2 ^ k) as HB1 by lia.
    set (A := 2 ^ E2) in *. set (B := 2 ^ k) in *.
    rewrite EAB in R1.
    change (2 ^ 39) with 549755813888 in HA.
    change (2 ^ 8) with 256 in HB.
    change (2 ^ 32) with 4294967296 in Ht.
    change (2 ^ 52) with 4503599627370496 in *.
    change (2 ^ 53) with 9007199254740992 in *.
    clear Hdiv Hmul Hround EAB H3253 EE.
    (* the two sides of the half-way points *)
    assert (200 * p <= (2 * r + 1) * t) as Hup.
    { destruct (Z.le_gt_cases (200 * p) ((2 * r + 1) * t)) as [?|Hgt];
        [assumption|]. exfalso.
      assert (200 * (p * (A * B)) <= (2 * r + 1) * (A * B) * t + 100 * t)
        as H1.
      { assert (200 * (p * (A * B)) <= 200 * (Zpos m1 * t) + 100 * t) by lia.
        assert (200 * Zpos m1 <= (2 * Zpos m2 + 1) * B) by lia.
        assert (2 * Zpos m2 + 1 <= (2 * r + 1) * A) by lia.
        assert (200 * (Zpos m1 * t) <= (2 * Zpos m2 + 1) * B * t) by nia.
        assert ((2 * Zpos m2 + 1) * B * t <= (2 * r + 1) * A * B * t) by nia.
        lia. }
      assert ((A * B) * 1 <= (A * B) * (200 * p - (2 * r + 1) * t)) as H2
        by (apply Z.mul_le_mono_nonneg_l; nia).
      nia. }
    assert ((2 * r - 1) * t <= 200 * p) as Hdown.
    { destruct (Z.le_gt_cases ((2 * r - 1) * t) (200 * p)) as [?|Hgt];
        [assumption|]. exfalso.
      assert ((2 * r - 1) * (A * B) * t - B * t - 100 * t
              <= 200 * (p * (A * B))) as H1.
      { assert (200 * (Zpos m1 * t) - 100 * t <= 200 * (p * (A * B))) by lia.
        assert ((2 * Zpos m2 - 1) * B <= 200 * Zpos m1) by lia.
        assert ((2 * r - 1) * A <= 2 * Zpos m2) by lia.
        assert ((2 * Zpos m2 - 1) * B * t <= 200 * (Zpos m1 * t)) by nia.
        assert (((2 * r - 1) * A - 1) * B * t <= (2 * Zpos m2 - 1) * B * t)
          by nia.
        nia. }
      assert ((A * B) * 1 <= (A * B) * ((2 * r - 1) * t - 200 * p)) as H2
        by (apply Z.mul_le_mono_nonneg_l; nia).
      nia. }
    split; [|lia].
    split; nia.
Qed.

End Binary64Facts.

(** ** The dashboard *)
Module DashboardFacts.
Import Supabase Dashboard.

Lemma count_le rows :
  (count Present rows + count Absent rows <= List.length rows)%nat.
Proof.
  unfold count. induction rows as [|a rows IH]; simpl; [lia|].
  destruct (a_status a); simpl; lia.
Qed.

Lemma count_app x rows rows' :
  count x (rows ++ rows') = (count x rows + count x rows')%nat.
Proof. unfold count. now rewrite filter_app, length_app. Qed.

(** Rows that are neither Present nor Absent are not counted. *)
Lemma count_present_or_absent x rows :
  x = Present \/ x = Absent ->
  count x (filter (fun a => status_eqb (a_status a) Present
                            || status_eqb (a_status a) Absent) rows)
  = count x rows.
Proof.
  intros Hx. unfold count.
  induction rows as [|[i sid d y c] rows IH]; [reflexivity|].
  destruct Hx as [-> | ->];
    destruct y; cbn [a_status status_eqb orb filter List.length];
    rewrite ?IH; reflexivity.
Qed.

(** The operations of [spec_float] are those of the machine's doubles:
    on 29 of 200 both give 14.499999999999998. *)
Lemma rate_on_hardware :
  FloatOps.Prim2SF
    (PrimFloat.mul
       (PrimFloat.div (PrimFloat.of_uint63 29%uint63)
                      (PrimFloat.of_uint63 200%uint63))
       (PrimFloat.of_uint63 100%uint63))
  = mul (div (Number 29) (Number 200)) (Number 100).
Proof. vm_compute. reflexivity. Qed.

(** At a tie the rate goes either way: 14.5% comes out as 14, 12.5% as
    13. *)
Lemma attendanceRate_ties :
  attendanceRate (rows_of Present 29 ++ rows_of Absent 171) = Number 14
  /\ attendanceRate (rows_of Present 1 ++ rows_of Absent 7) = Number 13.
Proof. split; vm_compute; reflexivity. Qed.

(** C3: for a day's rows the attendance rate is an integer percentage
    nearest to present / (present + absent), and 0 when present + absent
    is 0; 7 Present and 3 Absent give 70, no rows give 0; rows that are
    Late or Excused change nothing. *)
Theorem attendanceRate_nearest :
  (forall rows,
     (Z.of_nat (List.length rows) < 2 ^ 32)%Z ->
     let p := Z.of_nat (count Present rows) in
     let t := Z.of_nat (count Present rows + count Absent rows) in
     exists r,
       attendanceRate rows = Number r
       /\ (0 <= r <= 100)%Z
       /\ (t = 0%Z -> r = 0%Z)
       /\ (- t <= 2 * (100 * p - r * t) <= t)%Z)
  /\ attendanceRate (rows_of Present 7 ++ rows_of Absent 3) = Number 70
  /\ attendanceRate [] = Number 0
  /\ (forall rows,
        attendanceRate
          (filter (fun a => status_eqb (a_status a) Present
                            || status_eqb (a_status a) Absent) rows)
        = attendanceRate rows).
Proof.
  split; [|split; [|split]].
  - intros rows Hlen p t. unfold attendanceRate. fold (count Present rows).
    pose proof (count_le rows) as Hle.
    destruct (Nat.ltb_spec 0 (count Present rows + count Absent rows))
      as [Hpos|Hzero].
    + destruct (Binary64Facts.rate_nearest p t) as [r [Hr [Br Hn]]];
        [unfold p, t; lia | unfold p, t; lia |].
      exists r. unfold div, mul. fold p. fold t.
      split; [exact Hr|]. split; [exact Br|]. split; [unfold t; lia | exact Hn].
    + exists 0%Z. split; [reflexivity|]. unfold p, t. lia.
  - vm_compute. reflexivity.
  - reflexivity.
  - intros rows. unfold attendanceRate.
    rewrite !count_present_or_absent by tauto. reflexivity.
Qed.

Lemma attendanceRate_nearest_witness :
  exists r,
    attendanceRate (rows_of Present 7 ++ rows_of Absent 3) = Number r
    /\ (0 <= r <= 100)%Z.
Proof.
  destruct (proj1 attendanceRate_nearest
              (rows_of Present 7 ++ rows_of Absent 3)) as [r [Hr [Br _]]].
  - vm_compute. reflexivity.
  - exists r. split; assumption.
Defined.

End DashboardFacts.

(** ** Validation *)
Module ValidationFacts.
Import ValidationSpec.

Section Platform.

Variable Date_parse : string -> option Z.
Variable Date_now : Z.
Variable isGuid : string -> bool.
Variable Number_parse : string -> Joi.coerced.

Lemma string_length_spec lo hi x p :
  1 <= lo ->
  field_agrees
    (Joi.required (Joi.string_max hi (Joi.string_min lo Joi.string)) x p)
    p (length_between lo hi x).
Proof.
  intros Hlo. destruct x as [[| | |s| |]|]; try (split; reflexivity).
  destruct (String.eqb_spec s "") as [->|Hne].
  - split; [reflexivity|]. simpl. destruct lo; [lia | reflexivity].
  - assert (Joi.string (Json.Str s) p = Joi.Valid s) as Hs
      by (destruct s; [congruence | reflexivity]).
    unfold Joi.required, Joi.string_max, Joi.string_min, Joi.bind,
      length_between.
    rewrite Hs. cbv beta iota. clear Hs Hne.
    destruct (Nat.ltb_spec (JsString.length s) lo) as [H1|H1]; simpl.
    + split; [reflexivity|].
      destruct (Nat.leb_spec lo (JsString.length s)); [lia | reflexivity].
    + destruct (Nat.ltb_spec hi (JsString.length s)) as [H2|H2]; simpl.
      * split; [reflexivity|].
        destruct (Nat.leb_spec (JsString.length s) hi); [lia|].
        apply andb_false_r.
      * destruct (Nat.leb_spec lo (JsString.length s)); [|lia].
        destruct (Nat.leb_spec (JsString.length s) hi); [reflexivity | lia].
Qed.

Lemma identifier_spec x p :
  field_agrees (Joi.required (Joi.uuid isGuid Joi.string) x p)
    p (identifier isGuid x).
Proof.
  destruct x as [[| | |s| |]|]; simpl; try (split; reflexivity).
  destruct s as [|c s]; simpl; [split; reflexivity|].
  unfold Joi.uuid, Joi.bind, Joi.string. simpl.
  destruct (isGuid (String c s)); simpl; [reflexivity | split; reflexivity].
Qed.

Lemma assoc_listed {A} (allowed : list (string * A)) s :
  match Joi.assoc allowed s with
  | Some _ => existsb (String.eqb s) (map fst allowed) = true
  | None => existsb (String.eqb s) (map fst allowed) = false
  end.
Proof.
  induction allowed as [|[k a] l IH]; simpl; [reflexivity|].
  destruct (String.eqb s k); simpl; [reflexivity | exact IH].
Qed.

Lemma one_of_spec {A} (allowed : list (string * A)) x p :
  field_agrees (Joi.required (Joi.valid allowed) x p)
    p (one_of (map fst allowed) x).
Proof.
  destruct x as [[| | |s| |]|]; simpl; try (split; reflexivity).
  unfold Joi.valid. pose proof (assoc_listed allowed s) as H.
  destruct (Joi.assoc allowed s); simpl;
    [exact H | split; [reflexivity | exact H]].
Qed.

Lemma date_spec x p :
  field_agrees (Joi.required (Joi.date Date_parse) x p)
    p (well_formed_date Date_parse x).
Proof.
  destruct x as [j|]; simpl; [|split; reflexivity].
  unfold Joi.date. destruct (Joi.to_Date Date_parse j); simpl;
    [reflexivity | split; reflexivity].
Qed.

Lemma date_max_now_spec x p :
  field_agrees
    (Joi.required (Joi.date_max_now Date_now (Joi.date Date_parse)) x p)
    p (not_after_now Date_parse Date_now x).
Proof.
  destruct x as [j|]; simpl; [|split; reflexivity].
  unfold Joi.date_max_now, Joi.date, Joi.bind.
  destruct (Joi.to_Date Date_parse j) as [t|]; simpl; [|split; reflexivity].
  destruct (Z.ltb_spec Date_now t); simpl.
  - split; [reflexivity|]. apply Z.leb_gt. assumption.
  - apply Z.leb_le. assumption.
Qed.

(** An integer of the range is a safe number. *)
Lemma in_range_safe q lo hi :
  (- Joi.MAX_SAFE_INTEGER <= lo)%Z -> (hi <= Joi.MAX_SAFE_INTEGER)%Z ->
  Joi.is_integer q = true ->
  (lo <= Qnum q / Zpos (Qden q))%Z -> (Qnum q / Zpos (Qden q) <= hi)%Z ->
  Joi.is_safe q = true.
Proof.
  intros Hlo Hhi Hint H1 H2. unfold Joi.is_safe, Joi.is_integer in *.
  set (M := Joi.MAX_SAFE_INTEGER) in *. clearbody M.
  apply Z.eqb_eq in Hint. destruct q as [n d].
  unfold Qle_bool, Qabs, inject_Z. cbn [Qnum Qden] in *.
  apply Z.leb_le.
  pose proof (Z.div_mod n (Zpos d) ltac:(lia)) as Hdm.
  rewrite Hint, Z.add_0_r in Hdm.
  set (z := (n / Zpos d)%Z) in *. clearbody z. subst n.
  rewrite Z.mul_1_r, Z.abs_mul.
  change (Z.abs (Zpos d)) with (Zpos d).
  assert (Z.abs z <= M)%Z by lia. nia.
Qed.

Lemma integer_spec x p :
  field_agrees
    (Joi.required
       (Joi.number_max 12 (Joi.number_min 1
          (Joi.integer (Joi.number Number_parse)))) x p)
    p (integer_between Number_parse 1 12 x).
Proof.
  assert (forall q,
    field_agrees
      (Joi.bind
         (Joi.bind
            (Joi.bind
               (if Joi.is_safe q then Joi.Valid q
                else Joi.fail "number.unsafe" p)
               (fun q => if Joi.is_integer q
                         then Joi.Valid (Qnum q / Zpos (Qden q))%Z
                         else Joi.fail "number.integer" p))
            (fun z => if (z <? 1)%Z then Joi.fail "number.min" p
                      else Joi.Valid z))
         (fun z => if (12 <? z)%Z then Joi.fail "number.max" p
                   else Joi.Valid z))
      p (Joi.is_integer q && (1 <=? Qnum q / Zpos (Qden q))%Z
         && (Qnum q / Zpos (Qden q) <=? 12)%Z)) as Hq.
  { intros q.
    destruct (Joi.is_integer q) eqn:Hint; simpl.
    - destruct (Z.leb_spec 1 (Qnum q / Zpos (Qden q))) as [H1|H1];
        destruct (Z.leb_spec (Qnum q / Zpos (Qden q)) 12) as [H2|H2]; simpl.
      + rewrite (in_range_safe q 1 12)
          by (assumption || (unfold Joi.MAX_SAFE_INTEGER; lia)).
        simpl. rewrite Hint. simpl.
        destruct (Z.ltb_spec (Qnum q / Zpos (Qden q)) 1); [lia|]. simpl.
        destruct (Z.ltb_spec 12 (Qnum q / Zpos (Qden q))); [lia|]. reflexivity.
      + destruct (Joi.is_safe q); simpl; [|split; reflexivity].
        rewrite Hint. simpl.
        destruct (Z.ltb_spec (Qnum q / Zpos (Qden q)) 1); [lia|]. simpl.
        destruct (Z.ltb_spec 12 (Qnum q / Zpos (Qden q))); [|lia].
        split; reflexivity.
      + destruct (Joi.is_safe q); simpl; [|split; reflexivity].
        rewrite Hint. simpl.
        destruct (Z.ltb_spec (Qnum q / Zpos (Qden q)) 1); [|lia].
        split; reflexivity.
      + destruct (Joi.is_safe q); simpl; [|split; reflexivity].
        rewrite Hint. simpl.
        destruct (Z.ltb_spec (Qnum q / Zpos (Qden q)) 1); [|lia].
        split; reflexivity.
    - destruct (Joi.is_safe q); simpl; [|split; reflexivity].
      rewrite Hint. simpl. split; reflexivity. }
  destruct x as [[| |q|s| |]|]; simpl; try (split; reflexivity).
  - unfold integer_between, Joi.number_max, Joi.number_min, Joi.integer,
      Joi.number. simpl. apply Hq.
  - unfold integer_between, Joi.number_max, Joi.number_min, Joi.integer,
      Joi.number. simpl.
    destruct (Number_parse s) as [| |q]; simpl; try (split; reflexivity).
    apply Hq.
Qed.

(** *** The three schemas *)

Ltac check_field H :=
  match goal with
  | |- context [Joi.bind ?r _] =>
      lazymatch r with
      | Joi.required _ _ _ =>
          let E := fresh "E" in
          pose proof H as E; unfold field_agrees in E;
          destruct r; simpl Joi.bind;
          cbv [map fst Schemas.genders Schemas.statuses] in E;
          [ rewrite E
          | destruct E as [? E]; rewrite E; simpl; eexists; split;
            [reflexivity | assumption] ]
      end
  end.

Ltac unknown_keys :=
  unfold Joi.unknown; simpl;
  match goal with
  | |- context [find ?f ?o] =>
      destruct (find f o) as [[? ?]|]; simpl;
      [ eexists; split; reflexivity | reflexivity ]
  end.

Lemma classSchema_agrees o :
  agrees (Schemas.validate (Schemas.classSchema Number_parse) (Json.Object o))
         (first_offending (class_checks Number_parse o) o).
Proof.
  unfold Schemas.validate, Schemas.classSchema, Joi.object, Joi.key,
    class_checks, first_offending, agrees.
  simpl app.
  check_field (string_length_spec 1 50 (Json.get o "class_name")
           [Joi.Key "class_name"] (le_n 1)).
  check_field (integer_spec (Json.get o "grade") [Joi.Key "grade"]).
  unknown_keys.
Qed.

Lemma studentSchema_agrees o :
  agrees (Schemas.validate (Schemas.studentSchema Date_parse Date_now isGuid)
            (Json.Object o))
         (first_offending (student_checks Date_parse Date_now isGuid o) o).
Proof.
  unfold Schemas.validate, Schemas.studentSchema, Joi.object, Joi.key,
    student_checks, first_offending, agrees.
  simpl app.
  check_field (string_length_spec 2 100 (Json.get o "name")
           [Joi.Key "name"] (le_S 1 1 (le_n 1))).
  check_field (identifier_spec (Json.get o "class_id") [Joi.Key "class_id"]).
  check_field (one_of_spec Schemas.genders (Json.get o "gender")
           [Joi.Key "gender"]).
  check_field (date_max_now_spec (Json.get o "date_of_birth")
           [Joi.Key "date_of_birth"]).
  unknown_keys.
Qed.

Lemma attendanceSchema_agrees o :
  agrees (Schemas.validate (Schemas.attendanceSchema Date_parse isGuid)
            (Json.Object o))
         (first_offending (attendance_checks Date_parse isGuid o) o).
Proof.
  unfold Schemas.validate, Schemas.attendanceSchema, Joi.object, Joi.key,
    attendance_checks, first_offending, agrees.
  simpl app.
  check_field (identifier_spec (Json.get o "student_id")
                 [Joi.Key "student_id"]).
  check_field (date_spec (Json.get o "date") [Joi.Key "date"]).
  check_field (one_of_spec Schemas.statuses (Json.get o "status")
           [Joi.Key "status"]).
  unknown_keys.
Qed.

(** What the schema accepts as a birth date is not after today. *)
Lemma not_after_now_today x :
  not_after_now Date_parse Date_now x = true ->
  not_after_today Date_parse Date_now x = true.
Proof.
  unfold not_after_now, not_after_today. destruct x as [j|]; [|discriminate].
  destruct (Joi.to_Date Date_parse j) as [t|]; [|discriminate].
  intros H. apply Z.leb_le in H. apply Z.leb_le. unfold day, ms_per_day.
  apply Z.div_le_mono; lia.
Qed.

(** For a date without a time of day the two readings coincide. *)
Lemma midnight_not_after_now d :
  ((d * ms_per_day <=? Date_now) = (day (d * ms_per_day) <=? day Date_now))%Z.
Proof.
  unfold day, ms_per_day. rewrite Z.div_mul by lia.
  destruct (Z.leb_spec (d * 86400000) Date_now) as [H|H];
    destruct (Z.leb_spec d (Date_now / 86400000)) as [H'|H'];
    try reflexivity; exfalso.
  - apply (Z.div_le_mono _ _ 86400000) in H; [|lia].
    rewrite Z.div_mul in H by lia. lia.
  - pose proof (Z.mul_div_le Date_now 86400000 ltac:(lia)). nia.
Qed.

End Platform.

(** C8, as stated, at a student born later today: with the clock at
    2024-01-02 05:00 UTC, a payload whose date_of_birth is 2024-01-02
    12:00 UTC offends no rule as the specification words them (the birth
    date is not after today), yet the schema rejects it at
    date_of_birth. *)
Lemma student_born_later_today :
  let now := 1704171600000%Z in
  let o := [ ("name", Json.Str "Emma Johnson");
             ("class_id", Json.Str Sample.class_3A);
             ("gender", Json.Str "Female");
             ("date_of_birth", Json.Number (1704196800000 # 1)) ] in
  first_offending
    (student_checks_as_stated Sample.Date_parse now Sample.isGuid o) o = None
  /\ Schemas.validate
       (Schemas.studentSchema Sample.Date_parse now Sample.isGuid)
       (Json.Object o)
     = Joi.Invalid {| Joi.type := "date.max";
                      Joi.path := [Joi.Key "date_of_birth"] |}
  /\ ~ agrees
         (Schemas.validate
            (Schemas.studentSchema Sample.Date_parse now Sample.isGuid)
            (Json.Object o))
         (first_offending
            (student_checks_as_stated Sample.Date_parse now Sample.isGuid o)
            o).
Proof.
  split; [reflexivity|]. split; [reflexivity|].
  intros [f [H _]]. discriminate H.
Qed.

(** Lengths are those of JavaScript strings, in UTF-16 code units: the
    one-letter name "é", two bytes of UTF-8, is too short for a student; a
    class name of twenty-six of them, fifty-two bytes, is within fifty;
    a single character beyond U+FFFF counts two and is long enough for a
    student's name. *)
Example name_of_one_letter now :
  Schemas.validate (Schemas.studentSchema Sample.Date_parse now Sample.isGuid)
    (Json.Object [("name", Json.Str "é")])
  = Joi.Invalid {| Joi.type := "string.min"; Joi.path := [Joi.Key "name"] |}.
Proof. reflexivity. Qed.

Example class_name_of_accented_letters :
  Schemas.validate (Schemas.classSchema Sample.Number_parse)
    (Json.Object [("class_name", Json.Str "éééééééééééééééééééééééééé");
                  ("grade", Json.Number (3 # 1))])
  = Joi.Valid {| Schemas.class_name := "éééééééééééééééééééééééééé";
                 Schemas.grade := 3 |}.
Proof. reflexivity. Qed.

Example name_of_one_pair now :
  Schemas.validate (Schemas.studentSchema Sample.Date_parse now Sample.isGuid)
    (Json.Object [("name", Json.Str "😀")])
  = Joi.Invalid {| Joi.type := "any.required";
                   Joi.path := [Joi.Key "class_id"] |}.
Proof. reflexivity. Qed.

(** C8, amended: for every payload object each schema accepts exactly when
    no field offends its rule and no field is unknown, and otherwise
    reports the first offending field, in schema order: class_name of 1 to
    50 characters and grade an integer from 1 to 12; name of 2 to 100
    characters, class_id an identifier, gender Male or Female and
    date_of_birth not after the current instant; student_id an
    identifier, date well formed and status one of the four. Characters
    are counted as JavaScript counts the length of a string, in UTF-16
    code units. *)
Theorem validation_agrees Date_parse Date_now isGuid Number_parse o :
  agrees (Schemas.validate (Schemas.classSchema Number_parse) (Json.Object o))
         (first_offending (class_checks Number_parse o) o)
  /\ agrees
       (Schemas.validate (Schemas.studentSchema Date_parse Date_now isGuid)
          (Json.Object o))
       (first_offending (student_checks Date_parse Date_now isGuid o) o)
  /\ agrees
       (Schemas.validate (Schemas.attendanceSchema Date_parse isGuid)
          (Json.Object o))
       (first_offending (attendance_checks Date_parse isGuid o) o).
Proof.
  split; [apply classSchema_agrees|].
  split; [apply studentSchema_agrees | apply attendanceSchema_agrees].
Qed.

End ValidationFacts.

(** ** The store *)
Module SupabaseFacts.
Import Supabase.

Lemma mem_In x l : mem x l = true <-> In x l.
Proof.
  unfold mem. rewrite existsb_exists. split.
  - intros [y [Hin Heq]]. apply String.eqb_eq in Heq. now subst.
  - intros H. exists x. split; [assumption | apply String.eqb_refl].
Qed.

Lemma read_all_length input lits vs :
  read_all input lits = Some vs -> List.length vs = List.length lits.
Proof.
  revert vs. induction lits as [|l lits IH]; simpl; intros vs H.
  - inversion H. reflexivity.
  - destruct (input l); [|discriminate].
    destruct (read_all input lits); [|discriminate].
    inversion H. simpl. f_equal. now apply IH.
Qed.

(** Reading literals keeps repetitions. *)
Lemma read_all_NoDup input lits vs :
  read_all input lits = Some vs -> NoDup vs -> NoDup lits.
Proof.
  revert vs. induction lits as [|l lits IH]; simpl; intros vs H Hnd.
  - constructor.
  - destruct (input l) as [v|] eqn:Hl; [|discriminate].
    destruct (read_all input lits) as [vs'|] eqn:Hr; [|discriminate].
    inversion H; subst. inversion Hnd as [|? ? Hnotin Hnd']; subst.
    constructor; [|now apply (IH vs')].
    intros Hin. apply Hnotin. clear -Hin Hl Hr.
    revert vs' Hr. induction lits as [|l' lits IH]; simpl; intros vs' Hr.
    + contradiction.
    + destruct (input l') as [v'|] eqn:Hl'; [|discriminate].
      destruct (read_all input lits) as [vs''|]; [|discriminate].
      inversion Hr; subst. destruct Hin as [->|Hin].
      * left. congruence.
      * right. now apply IH.
Qed.

Lemma read_all_In input lits vs l :
  read_all input lits = Some vs -> In l lits ->
  exists v, input l = Some v /\ In v vs.
Proof.
  revert vs. induction lits as [|l' lits IH]; simpl; intros vs H Hin.
  - contradiction.
  - destruct (input l') as [v'|] eqn:Hl'; [|discriminate].
    destruct (read_all input lits) as [vs'|]; [|discriminate].
    inversion H; subst. destruct Hin as [->|Hin].
    + exists v'. split; [assumption | now left].
    + destruct (IH vs' eq_refl Hin) as [v [Hv Hin']].
      exists v. split; [assumption | now right].
Qed.

Lemma NoDup_map_filter {A B} (f : A -> B) (p : A -> bool) l :
  NoDup (map f l) -> NoDup (map f (filter p l)).
Proof.
  induction l as [|a l IH]; simpl; intros H; [constructor|].
  inversion H as [|? ? Hnotin Hnd]; subst.
  destruct (p a); simpl; [|now apply IH].
  constructor; [|now apply IH].
  intros Hin. apply Hnotin. apply in_map_iff in Hin.
  destruct Hin as [b [Hb Hin]]. apply filter_In in Hin.
  rewrite <- Hb. apply in_map. tauto.
Qed.

(** *** The batch existence check of the bulk route

    [matched] are the rows [.in('id', ids)] finds. Under the primary key
    their number equals the number of ids exactly when the ids are
    distinct and all known. *)
Section Matching.

Variable students : list student_row.
Hypothesis primary_key : NoDup (map s_id students).

Lemma matched_NoDup ids : NoDup (map s_id (matched students ids)).
Proof. now apply NoDup_map_filter. Qed.

Lemma matched_incl ids : incl (map s_id (matched students ids)) ids.
Proof.
  intros x Hin. apply in_map_iff in Hin. destruct Hin as [r [<- Hin]].
  apply filter_In in Hin. now apply mem_In.
Qed.

Lemma matched_le ids : List.length (matched students ids) <= List.length ids.
Proof.
  rewrite <- (length_map s_id).
  apply NoDup_incl_length; [apply matched_NoDup | apply matched_incl].
Qed.

Lemma matched_all_known ids :
  List.length (matched students ids) = List.length ids ->
  incl ids (map s_id students).
Proof.
  intros Hlen x Hin.
  assert (incl ids (map s_id (matched students ids))) as Hincl.
  { apply NoDup_length_incl;
      [apply matched_NoDup | rewrite length_map; lia | apply matched_incl]. }
  specialize (Hincl x Hin). apply in_map_iff in Hincl.
  destruct Hincl as [r [<- Hr]]. apply filter_In in Hr.
  apply in_map. tauto.
Qed.

Lemma matched_all_distinct ids :
  List.length (matched students ids) = List.length ids -> NoDup ids.
Proof.
  intros Hlen.
  apply NoDup_incl_NoDup with (l := map s_id (matched students ids));
    [apply matched_NoDup | rewrite length_map; lia | apply matched_incl].
Qed.

(** When every id is known, the rows found are as many as the distinct
    ids. *)
Lemma matched_count ids :
  incl ids (map s_id students) ->
  List.length (matched students ids) = List.length (nodup string_dec ids).
Proof.
  intros Hknown. rewrite <- (length_map s_id).
  apply Permutation_length, NoDup_Permutation.
  - apply matched_NoDup.
  - apply NoDup_nodup.
  - intros x. rewrite nodup_In. split.
    + apply matched_incl.
    + intros Hin. pose proof (Hknown x Hin) as Hx.
      apply in_map_iff in Hx. destruct Hx as [r [<- Hr]].
      apply in_map, filter_In. split; [assumption | now apply mem_In].
Qed.

Lemma nodup_shorter (ids : list string) :
  ~ NoDup ids -> List.length (nodup string_dec ids) < List.length ids.
Proof.
  induction ids as [|x ids IH]; simpl; intros H.
  - exfalso. apply H. constructor.
  - destruct (in_dec string_dec x ids) as [Hin|Hnotin].
    + pose proof (NoDup_incl_length (NoDup_nodup string_dec ids)
                    (fun y Hy => proj1 (nodup_In string_dec ids y) Hy)). lia.
    + simpl. apply -> Nat.succ_lt_mono. apply IH.
      intros Hnd. apply H. now constructor.
Qed.

End Matching.

(** *** Sorting *)
Section Order.

Context {A : Type} (le : A -> A -> bool).
Hypothesis le_total : forall a b, le a b = true \/ le b a = true.

Lemma insert_by_perm x l : Permutation (insert_by le x l) (x :: l).
Proof.
  induction l as [|y l IH]; simpl; [reflexivity|].
  destruct (le x y); [reflexivity|].
  rewrite IH. apply perm_swap.
Qed.

Lemma order_by_perm l : Permutation (order_by le l) l.
Proof.
  induction l as [|x l IH]; simpl; [reflexivity|].
  rewrite insert_by_perm. now constructor.
Qed.

Lemma insert_by_sorted x l :
  Sorted (fun a b => le a b = true) l ->
  Sorted (fun a b => le a b = true) (insert_by le x l).
Proof.
  induction l as [|y l IH]; simpl; intros H.
  - repeat constructor.
  - destruct (le x y) eqn:E.
    + constructor; [assumption | now constructor].
    + inversion H as [|? ? Hs Hhd]; subst.
      constructor; [now apply IH|].
      destruct l as [|z l]; simpl.
      * constructor. destruct (le_total x y); congruence.
      * destruct (le x z).
        -- constructor. destruct (le_total x y); congruence.
        -- inversion Hhd; subst. now constructor.
Qed.

Lemma order_by_sorted l : Sorted (fun a b => le a b = true) (order_by le l).
Proof.
  induction l as [|x l IH]; simpl; [constructor | now apply insert_by_sorted].
Qed.

End Order.

End SupabaseFacts.

(** ** The request handlers *)
Module RoutesFacts.
Import Supabase SupabaseFacts Routes.

Section Platform.

Variable Date_parse : string -> option Z.
Variable isGuid : string -> bool.
Variable Date_toISOString : Z -> string.
Variable uuid_in : string -> option string.
Variable date_in : string -> option string.

(** *** Deleting a class *)

Lemma filter_none {A} (p : A -> bool) l :
  (forall x, In x l -> p x = false) -> filter p l = [].
Proof.
  induction l as [|a l IH]; simpl; intros H; [reflexivity|].
  rewrite (H a) by now left. apply IH. intros x Hx. apply H. now right.
Qed.

Lemma filter_all {A} (p : A -> bool) l :
  (forall x, In x l -> p x = true) -> filter p l = l.
Proof.
  induction l as [|a l IH]; simpl; intros H; [reflexivity|].
  rewrite (H a) by now left. f_equal. apply IH. intros x Hx. apply H. now right.
Qed.

(** A class that a student references stays. *)
Lemma delete_class_with_students st id u s :
  uuid_in id = Some u -> In s (students st) -> s_class_id s = u ->
  delete_class uuid_in None st id =
  (st, respond 400
         (Failure (Message "Cannot delete class with existing students"))).
Proof.
  intros Hu Hin Hs. unfold delete_class, unless, select, eq. simpl.
  rewrite Hu. simpl.
  destruct (filter _ (students st)) as [|s0 l] eqn:E.
  - exfalso.
    assert (In s (filter (fun r => String.eqb (s_class_id r) u && true)
                         (students st))) as H.
    { apply filter_In. split; [assumption|].
      now rewrite Hs, String.eqb_refl. }
    now rewrite E in H.
  - reflexivity.
Qed.

(** A class without students goes, and only the class, whether the first
    query is answered or not. *)
Lemma delete_class_without_students guard st id u c :
  uuid_in id = Some u ->
  (forall s, In s (students st) -> s_class_id s <> u) ->
  filter (fun c => String.eqb (c_id c) u) (classes st) = [c] ->
  delete_class uuid_in guard st id =
  ({| classes := filter (fun c => negb (String.eqb (c_id c) u)) (classes st);
      students := students st; attendance := attendance st;
      serial := serial st |},
   respond 200 (Success tt (Some "Class deleted successfully"))).
Proof.
  intros Hu Hnone Hc.
  assert (forall p : student_row -> bool,
            (forall r, p r = String.eqb (s_class_id r) u) ->
            filter p (students st) = []) as Hempty.
  { intros p Hp. apply filter_none. intros x Hx. rewrite Hp.
    destruct (String.eqb_spec (s_class_id x) u); [|reflexivity].
    exfalso. now apply (Hnone x). }
  assert (match data (unless guard
                        (map_reply (firstn 1)
                           (select (students st)
                              [eq uuid_in s_class_id id]))) with
          | Some (_ :: _) => False
          | _ => True
          end) as Hguard.
  { destruct guard; [exact I|]. unfold unless, select, eq. simpl.
    rewrite Hu. simpl.
    now rewrite (Hempty (fun r => String.eqb (s_class_id r) u && true))
      by (intros r; apply andb_true_r). }
  unfold delete_class.
  destruct (data (unless guard _)) as [[|? ?]|]; [|contradiction|];
  unfold delete_class_single; rewrite Hu, Hc;
  rewrite (Hempty (fun r => String.eqb (s_class_id r) u)) by reflexivity;
  simpl; repeat f_equal;
  try (now apply filter_all);
  (apply filter_all; intros x Hx;
   destruct (String.eqb_spec (s_class_id x) u); [|reflexivity];
   exfalso; now apply (Hnone x)).
Qed.

(** The request for a class that does not exist fails: [.single()] reports
    the empty result as an error, which is thrown. *)
Lemma delete_class_missing guard st id u :
  uuid_in id = Some u ->
  (forall s, In s (students st) -> s_class_id s <> u) ->
  (forall c, In c (classes st) -> c_id c <> u) ->
  delete_class uuid_in guard st id =
  (st, respond 500 (Failure (Message "Failed to delete class"))).
Proof.
  intros Hu Hnone Hc.
  assert (delete_class_single uuid_in st id = (st, failed "PGRST116")) as Hd.
  { unfold delete_class_single. rewrite Hu.
    rewrite filter_none; [reflexivity|].
    intros c Hin. destruct (String.eqb_spec (c_id c) u); [|reflexivity].
    exfalso. now apply (Hc c). }
  unfold delete_class. rewrite Hd.
  destruct guard; [reflexivity|].
  unfold unless, select, eq. simpl. rewrite Hu. simpl.
  rewrite filter_none; [reflexivity|].
  intros x Hx. rewrite andb_true_r.
  destruct (String.eqb_spec (s_class_id x) u); [|reflexivity].
  exfalso. now apply (Hnone x).
Qed.

(** The branch that answers 404 is never taken. *)
Lemma delete_class_not_404 guard st id :
  status_code (snd (delete_class uuid_in guard st id)) <> 404.
Proof.
  unfold delete_class.
  destruct (data (unless guard _)) as [[|? ?]|]; simpl; try discriminate;
    unfold delete_class_single;
    destruct (uuid_in id); simpl; try discriminate;
    destruct (filter _ (classes st)) as [|? [|? ?]]; simpl; discriminate.
Qed.

(** *** The bulk write *)

Lemma attendanceRecords_ids value :
  map (fun r => fst (fst r)) (attendanceRecords Date_toISOString value) =
  studentIds value.
Proof. unfold attendanceRecords, studentIds. now rewrite map_map. Qed.

Lemma attendanceRecords_stamped value :
  Forall (fun r => snd (fst r) = Date_toISOString (Schemas.bv_date value))
         (attendanceRecords Date_toISOString value).
Proof.
  unfold attendanceRecords. apply Forall_forall. intros r Hin.
  apply in_map_iff in Hin. destruct Hin as [x [<- _]]. reflexivity.
Qed.

Lemma select_in_matched st us :
  filter (fun r => forallb (fun g : student_row -> bool => g r)
                     [fun r => mem (s_id r) us]) (students st)
  = matched (students st) us.
Proof.
  unfold matched. apply filter_ext. intros r. simpl. apply andb_true_r.
Qed.

(** The batch is refused as a whole, and nothing is written, unless the
    submitted ids are distinct and all known. *)
Lemma record_bulk_refused st ts body value us :
  Schemas.validate (Schemas.bulkAttendanceSchema Date_parse isGuid) body
    = Joi.Valid value ->
  NoDup (map s_id (students st)) ->
  read_all uuid_in (studentIds value) = Some us ->
  ~ (NoDup us /\ incl us (map s_id (students st))) ->
  record_bulk Date_parse isGuid Date_toISOString uuid_in date_in st ts body =
  (st, respond 400 (Failure (Message "One or more students not found"))).
Proof.
  intros Hv Hpk Hread Hbad. unfold record_bulk. rewrite Hv.
  cbv zeta. rewrite attendanceRecords_ids.
  unfold select, in_, all_ready. rewrite Hread.
  cbn [option_map fold_right data ok]. rewrite select_in_matched.
  destruct (Nat.eqb_spec (List.length (matched (students st) us))
                         (List.length (studentIds value))) as [E|_].
  - exfalso. apply Hbad.
    rewrite <- (read_all_length _ _ _ Hread) in E.
    split; [now apply (matched_all_distinct (students st))
           | now apply matched_all_known].
  - reflexivity.
Qed.

(** *** The single write *)

Lemma filter_replace {A} (p : A -> bool) (new : A) l :
  p new = true ->
  List.length (filter p l) <= 1 ->
  (exists a, In a l /\ p a = true) ->
  filter p (map (fun a => if p a then new else a) l) = [new].
Proof.
  intros Hnew. induction l as [|a l IH]; simpl; intros Hlen [b [Hin Hb]].
  - contradiction.
  - destruct (p a) eqn:Ha; simpl.
    + rewrite Hnew. f_equal. simpl in Hlen.
      destruct (filter p l) as [|c l'] eqn:E; [|simpl in Hlen; lia].
      apply filter_none. intros y Hy. apply in_map_iff in Hy.
      destruct Hy as [z [<- Hz]].
      assert (p z = false) as Hpz.
      { destruct (p z) eqn:Hz'; [|reflexivity].
        assert (In z (filter p l)) as F by (apply filter_In; tauto).
        now rewrite E in F. }
      now rewrite Hpz.
    + rewrite Ha. apply IH; [assumption|].
      destruct Hin as [->|Hin]; [congruence|]. now exists b.
Qed.

Lemma same_key_refl sid d a :
  a_student_id a = sid -> a_date a = d -> same_key sid d a = true.
Proof. intros <- <-. unfold same_key. now rewrite !String.eqb_refl. Qed.

(** After one row of an upsert the key identifies exactly the row
    written. *)
Lemma upsert_row_key ts st sid d x :
  List.length (filter (same_key sid d) (attendance st)) <= 1 ->
  filter (same_key sid d) (attendance (fst (upsert_row ts st (sid, d, x))))
    = [snd (upsert_row ts st (sid, d, x))]
  /\ a_status (snd (upsert_row ts st (sid, d, x))) = x
  /\ students (fst (upsert_row ts st (sid, d, x))) = students st.
Proof.
  intros Hlen. unfold upsert_row.
  destruct (find (same_key sid d) (attendance st)) as [old|] eqn:E; simpl.
  - repeat split. apply find_some in E. apply filter_replace.
    + now apply same_key_refl.
    + assumption.
    + now exists old.
  - repeat split. rewrite filter_app. simpl.
    rewrite (same_key_refl sid d) by reflexivity.
    rewrite filter_none; [reflexivity|].
    intros a Hin. now apply (find_none _ _ E).
Qed.

Lemma select_by_id (l : list student_row) u :
  NoDup (map s_id l) -> In u (map s_id l) ->
  exists r, filter (fun r => String.eqb (s_id r) u && true) l = [r].
Proof.
  induction l as [|a l IH]; simpl; intros Hnd Hin; [contradiction|].
  inversion Hnd as [|? ? Hnotin Hnd']; subst.
  destruct (String.eqb_spec (s_id a) u) as [E|Hne]; simpl.
  - exists a. f_equal. apply filter_none. intros y Hy. rewrite andb_true_r.
    destruct (String.eqb_spec (s_id y) u) as [E'|]; [|reflexivity].
    exfalso. apply Hnotin. rewrite E, <- E'. now apply in_map.
  - destruct Hin as [?|Hin]; [contradiction|]. now apply IH.
Qed.

(** One accepted write: the response is 201 and the key identifies exactly
    the row written, which carries the submitted status. *)
Lemma record_attendance_stores st ts body s t x u dd :
  Schemas.validate (Schemas.attendanceSchema Date_parse isGuid) body
    = Joi.Valid {| Schemas.student_id := s; Schemas.av_date := t;
                   Schemas.av_status := x |} ->
  uuid_in s = Some u -> date_in (Date_toISOString t) = Some dd ->
  NoDup (map s_id (students st)) -> In u (map s_id (students st)) ->
  List.length (filter (same_key u dd) (attendance st)) <= 1 ->
  exists st' row,
    record_attendance Date_parse isGuid Date_toISOString uuid_in date_in
      st ts body
    = (st', respond 201 (Success (enrich st' row)
                           (Some "Attendance recorded successfully")))
    /\ filter (same_key u dd) (attendance st') = [row]
    /\ a_status row = x
    /\ students st' = students st.
Proof.
  intros Hv Hu Hd Hpk Hin Hlen.
  destruct (upsert_row_key ts st u dd x Hlen) as [Hkey [Hst Hstud]].
  exists (fst (upsert_row ts st (u, dd, x))),
         (snd (upsert_row ts st (u, dd, x))).
  split; [|tauto].
  unfold record_attendance. rewrite Hv. cbn [Schemas.student_id
    Schemas.av_date Schemas.av_status].
  unfold select, eq, all_ready. rewrite Hu.
  cbn [option_map fold_right data ok forallb].
  destruct (select_by_id _ _ Hpk Hin) as [r Hr]. rewrite Hr.
  cbn [single data ok].
  unfold upsert. cbn [read_records]. rewrite Hu, Hd.
  cbn [forallb fst snd distinct_keys existsb negb andb].
  apply mem_In in Hin. rewrite Hin. cbn [negb andb upsert_rows].
  destruct (upsert_row ts st (u, dd, x)) as [st1 row]. reflexivity.
Qed.

End Platform.

(** *** The class-and-date view *)
Section ClassDate.

Variable uuid_in : string -> option string.
Variable date_in : string -> option string.
Variable name_le : string -> string -> bool.
Hypothesis name_le_total : forall a b, name_le a b = true \/ name_le b a = true.

Variable st : store.
(** The store prints the ids it holds in the form it reads them. *)
Hypothesis canonical_ids :
  forall s, In s (students st) -> uuid_in (s_id s) = Some (s_id s).
(** [UNIQUE(student_id, date)] *)
Hypothesis unique_key :
  forall a b, In a (attendance st) -> In b (attendance st) ->
    a_student_id a = a_student_id b -> a_date a = a_date b -> a = b.

Lemma of_class_In u s :
  In s (of_class name_le st u) <-> In s (students st) /\ s_class_id s = u.
Proof.
  unfold of_class. split.
  - intros H. apply (Permutation_in _ (order_by_perm (by_name name_le) _)) in H.
    apply filter_In in H. simpl in H. rewrite andb_true_r in H.
    destruct H as [H1 H2]. apply String.eqb_eq in H2. tauto.
  - intros [H1 H2].
    apply (Permutation_in _
             (Permutation_sym (order_by_perm (by_name name_le) _))).
    apply filter_In. simpl. rewrite andb_true_r. split; [assumption|].
    now apply String.eqb_eq.
Qed.

Lemma read_canonical (l : list student_row) :
  (forall s, In s l -> In s (students st)) ->
  read_all uuid_in (map s_id l) = Some (map s_id l).
Proof.
  induction l as [|a l IH]; simpl; intros H; [reflexivity|].
  rewrite canonical_ids by (apply H; now left).
  rewrite IH by (intros s Hs; apply H; now right). reflexivity.
Qed.

Lemma getClassAttendanceForDate_runs classId date u dd :
  uuid_in classId = Some u -> date_in date = Some dd ->
  getClassAttendanceForDate uuid_in date_in name_le st classId date =
  inr {| cd_date := date; cd_class_id := classId;
         cd_students :=
           studentsWithAttendance st (of_class name_le st u)
             (on_date st (map s_id (of_class name_le st u)) dd) |}.
Proof.
  intros Hu Hd. unfold getClassAttendanceForDate, select, eq, in_, all_ready.
  rewrite Hu, Hd. cbn [option_map fold_right map_reply data error ok].
  fold (by_name name_le). fold (of_class name_le st u).
  rewrite read_canonical by (intros s Hs; now apply of_class_In in Hs).
  reflexivity.
Qed.

Lemma merged_attendance u dd student :
  In student (of_class name_le st u) ->
  let found := find (fun a => String.eqb (a_student_id a) (s_id student))
                    (on_date st (map s_id (of_class name_le st u)) dd) in
  (forall a, In a (attendance st) -> a_student_id a = s_id student ->
             a_date a = dd -> found = Some a)
  /\ ((forall a, In a (attendance st) -> a_student_id a = s_id student ->
                 a_date a <> dd) -> found = None).
Proof.
  intros Hin. cbv zeta.
  assert (forall a, In a (on_date st (map s_id (of_class name_le st u)) dd) ->
                    In a (attendance st) /\ a_date a = dd) as Hon.
  { intros a Ha. unfold on_date in Ha. apply filter_In in Ha. simpl in Ha.
    destruct Ha as [Ha1 Ha2]. apply andb_prop in Ha2. destruct Ha2 as [_ Ha2].
    rewrite andb_true_r in Ha2. apply String.eqb_eq in Ha2. tauto. }
  split.
  - intros a Ha Hs Hdate.
    destruct (find _ _) as [a'|] eqn:E.
    + apply find_some in E. destruct E as [E1 E2].
      apply String.eqb_eq in E2. destruct (Hon _ E1) as [H1 H2].
      f_equal. apply unique_key; congruence.
    + exfalso.
      assert (In a (on_date st (map s_id (of_class name_le st u)) dd)) as Hrec.
      { unfold on_date. apply filter_In. split; [assumption|]. simpl.
        rewrite Hdate, String.eqb_refl, andb_true_r.
        apply mem_In. rewrite Hs. now apply in_map. }
      pose proof (find_none _ _ E _ Hrec) as Hf. simpl in Hf.
      rewrite Hs, String.eqb_refl in Hf. discriminate.
  - intros Hnone. destruct (find _ _) as [a'|] eqn:E; [|reflexivity].
    exfalso. apply find_some in E. destruct E as [E1 E2].
    apply String.eqb_eq in E2. destruct (Hon _ E1) as [H1 H2].
    now apply (Hnone a').
Qed.

Lemma Sorted_views (l : list student_row) recs :
  Sorted (fun a b => by_name name_le a b = true) l ->
  Sorted (fun a b => by_name name_le (v_student a) (v_student b) = true)
         (studentsWithAttendance st l recs).
Proof.
  unfold studentsWithAttendance.
  induction 1 as [|a l Hs IH Hhd]; simpl; constructor; [assumption|].
  destruct Hhd; simpl; constructor. assumption.
Qed.

End ClassDate.

(** C7, at a class that does not exist: in a store without classes and
    students the delete-class request is answered 500 "Failed to delete
    class", not 404 "Class not found", whether its first query is
    answered or not; no request is ever answered 404. *)
Theorem delete_missing_class_fails :
  (forall guard,
     delete_class Sample.uuid_in guard Sample.empty Sample.class_3A =
       (Sample.empty,
        respond 500 (Failure (Message "Failed to delete class"))))
  /\ forall uuid_in guard st id,
       status_code (snd (delete_class uuid_in guard st id)) <> 404.
Proof. split; [intros [e|]; reflexivity | apply delete_class_not_404]. Qed.

(** Without [limit] and [offset] the page is the first hundred rows of
    the ordering. *)
Lemma list_attendance_default_page uuid_in date_in st :
  list_attendance uuid_in date_in st Sample.no_filter =
  respond 200
    (Success {| p_data := map (enrich st)
                            (firstn 100
                               (order_by newest_first (attendance st)));
                p_limit := Js.Num 100; p_offset := Js.Num 0 |} None).
Proof.
  unfold list_attendance, Sample.no_filter, select, all_ready, when, range.
  cbn [q_limit q_offset q_student_id q_class_id q_date q_start_date
       q_end_date q_status app fold_right map_reply data error ok option_map].
  replace (pg_nat (Js.ToString (Js.Num 0))) with (Some 0%nat)
    by (vm_compute; reflexivity).
  replace (pg_nat (Js.ToString
                     (Js.add (Js.sub (Js.sub (Js.add (Js.Num 0) (Js.Num 100))
                                             (Js.Num 1)) (Js.Num 0))
                             (Js.Num 1))))
    with (Some 100%nat) by (vm_compute; reflexivity).
  replace (Js.parseInt (Js.Num 100)) with (Js.Num 100)
    by (vm_compute; reflexivity).
  replace (Js.parseInt (Js.Num 0)) with (Js.Num 0)
    by (vm_compute; reflexivity).
  rewrite (filter_all (fun r : attendance_row =>
                         forallb (fun g : attendance_row -> bool => g r) []))
    by reflexivity.
  reflexivity.
Qed.

(** C9, at [?offset=1&limit=1] over three stored rows: the page holds the
    two rows at positions 1 and 2 of the ordering, not the single row at
    position 1, because [offset + limit - 1] on the strings "1" and "1"
    is 10. *)
Theorem list_attendance_offset_page :
  let q := {| q_student_id := None; q_class_id := None; q_date := None;
              q_start_date := None; q_end_date := None; q_status := None;
              q_limit := Some "1"; q_offset := Some "1" |} in
  let ordered := order_by newest_first (attendance Sample.register) in
  Js.sub (Js.add (Js.Text "1") (Js.Text "1")) (Js.Num 1) = Js.Num 10
  /\ json (list_attendance Sample.uuid_in Sample.date_in Sample.register q) =
       Success {| p_data := map (enrich Sample.register)
                              (firstn 2 (skipn 1 ordered));
                  p_limit := Js.Num 1; p_offset := Js.Num 1 |} None
  /\ firstn 2 (skipn 1 ordered) <> firstn 1 (skipn 1 ordered).
Proof.
  split; [vm_compute; reflexivity | split; [vm_compute; reflexivity|]].
  discriminate.
Qed.

(** Strings of a query read as JavaScript reads them: an exponent, padding,
    a fraction and a radix prefix are numerals to [ToNumber], which rounds
    to binary64; [parseInt] stops at the first character that is no
    digit. *)
Example ToNumber_literals :
  map (fun s => Js.ToString (Js.sub (Js.Text s) (Js.Num 0)))
      ["1e1"; " 2"; "2.0"; "0x2"; ""; "12px"; "9007199254740993"; "0.1";
       "-0"; "1e21"]
  = ["10"; "2"; "2"; "2"; "0"; "NaN"; "9007199254740992"; "0.1"; "0";
     "1e+21"].
Proof. vm_compute. reflexivity. Qed.

Example parseInt_literals :
  map (fun s => Js.ToString (Js.parseInt (Js.Text s)))
      ["1e1"; " 2"; "2.0"; "0x1F"; ""; "12px"; "9007199254740993"; "-7.9"]
  = ["1"; "2"; "2"; "31"; "NaN"; "12"; "9007199254740992"; "-7"].
Proof. vm_compute. reflexivity. Qed.

(** [?limit=1e1]: [offset + limit - 1] is 0 + "1e1" - 1 = "01e1" - 1 = 9,
    so the page holds up to ten rows, and [parseInt(limit)] is 1. *)
Example list_attendance_limit_1e1 :
  let q := {| q_student_id := None; q_class_id := None; q_date := None;
              q_start_date := None; q_end_date := None; q_status := None;
              q_limit := Some "1e1"; q_offset := None |} in
  list_attendance Sample.uuid_in Sample.date_in Sample.register q =
  respond 200
    (Success {| p_data := map (enrich Sample.register)
                            (firstn 10
                               (order_by newest_first
                                  (attendance Sample.register)));
                p_limit := Js.Num 1; p_offset := Js.Num 0 |} None).
Proof. vm_compute. reflexivity. Qed.

(** The part of C4 that holds: a bulk submission that passes the schema,
    whose ids the store can read, and that names a student the store does
    not hold is answered 400 "One or more students not found" and leaves
    the store as it was; the records prepared for the write all carry the
    one shared date. *)
Lemma bulk_unknown_student
  Date_parse isGuid Date_toISOString uuid_in date_in st ts body value us s u :
  Schemas.validate (Schemas.bulkAttendanceSchema Date_parse isGuid) body
    = Joi.Valid value ->
  NoDup (map s_id (students st)) ->
  read_all uuid_in (studentIds value) = Some us ->
  In s (studentIds value) -> uuid_in s = Some u ->
  ~ In u (map s_id (students st)) ->
  record_bulk Date_parse isGuid Date_toISOString uuid_in date_in st ts body =
    (st, respond 400 (Failure (Message "One or more students not found")))
  /\ Forall (fun r => snd (fst r) = Date_toISOString (Schemas.bv_date value))
            (attendanceRecords Date_toISOString value).
Proof.
  intros Hv Hpk Hread Hs Hu Hunknown.
  split; [|apply attendanceRecords_stamped].
  eapply record_bulk_refused; eauto.
  intros [_ Hknown]. apply Hunknown, Hknown.
  destruct (read_all_In _ _ _ _ Hread Hs) as [v [Hv' Hin]]. congruence.
Qed.

Lemma bulk_unknown_student_witness :
  record_bulk Sample.Date_parse Sample.isGuid Sample.Date_toISOString
    Sample.uuid_in Sample.date_in Sample.school 7
    (Sample.bulk_body (Json.Number 0)
       [(Sample.emma, Present); (Sample.nobody, Absent)]) =
    (Sample.school,
     respond 400 (Failure (Message "One or more students not found"))).
Proof.
  refine (proj1 (bulk_unknown_student
                   Sample.Date_parse Sample.isGuid Sample.Date_toISOString
                   Sample.uuid_in Sample.date_in Sample.school 7 _
                   {| Schemas.bv_date := 0;
                      Schemas.records :=
                        [ {| Schemas.br_student_id := Sample.emma;
                             Schemas.br_status := Present |};
                          {| Schemas.br_student_id := Sample.nobody;
                             Schemas.br_status := Absent |} ] |}
                   [Sample.emma; Sample.nobody] Sample.nobody Sample.nobody
                   _ _ _ _ _ _)).
  - reflexivity.
  - simpl. repeat constructor; simpl; intuition discriminate.
  - reflexivity.
  - simpl. tauto.
  - reflexivity.
  - simpl. intuition discriminate.
Defined.

Lemma read_all_unreadable input lits s :
  In s lits -> input s = None -> read_all input lits = None.
Proof.
  induction lits as [|l lits IH]; simpl; intros Hin Hs; [contradiction|].
  destruct Hin as [->|Hin]; [now rewrite Hs|].
  rewrite (IH Hin Hs). now destruct (input l).
Qed.

(** C4, at a student id the store cannot read: a bulk submission that
    passes the schema and names such an id (Joi's GUID pattern admits
    colons and brackets that the store's uuid type does not read)
    references no student, yet it is answered 500 "Failed to record bulk
    attendance", not 400 "One or more students not found": the error of
    the existence query is dropped and [students.length] of [null]
    throws. Nothing is stored. The single write, which looks at the error
    of its existence query, answers 400 "Student not found" to the same
    id. *)
Theorem bulk_unreadable_student
  Date_parse isGuid Date_toISOString uuid_in date_in st ts body value s :
  Schemas.validate (Schemas.bulkAttendanceSchema Date_parse isGuid) body
    = Joi.Valid value ->
  In s (studentIds value) -> uuid_in s = None ->
  record_bulk Date_parse isGuid Date_toISOString uuid_in date_in st ts body =
    (st, respond 500 (Failure (Message "Failed to record bulk attendance")))
  /\ forall body1 value1,
       Schemas.validate (Schemas.attendanceSchema Date_parse isGuid) body1
         = Joi.Valid value1 ->
       Schemas.student_id value1 = s ->
       record_attendance Date_parse isGuid Date_toISOString uuid_in date_in
         st ts body1
       = (st, respond 400 (Failure (Message "Student not found"))).
Proof.
  intros Hv Hin Hs. split.
  - unfold record_bulk. rewrite Hv. cbv zeta. rewrite attendanceRecords_ids.
    unfold select, in_, all_ready.
    now rewrite (read_all_unreadable uuid_in _ s Hin Hs).
  - intros body1 value1 Hv1 <-. unfold record_attendance. rewrite Hv1.
    unfold select, eq, all_ready. now rewrite Hs.
Qed.

Lemma bulk_unreadable_student_witness :
  record_bulk Sample.Date_parse Sample.isGuid Sample.Date_toISOString
    Sample.uuid_in_hyphens Sample.date_in Sample.school 7
    (Sample.bulk_body (Json.Number 0)
       [(Sample.emma, Present); (Sample.colons, Absent)]) =
    (Sample.school,
     respond 500 (Failure (Message "Failed to record bulk attendance"))).
Proof.
  refine (proj1 (bulk_unreadable_student
                   Sample.Date_parse Sample.isGuid Sample.Date_toISOString
                   Sample.uuid_in_hyphens Sample.date_in Sample.school 7 _
                   {| Schemas.bv_date := 0;
                      Schemas.records :=
                        [ {| Schemas.br_student_id := Sample.emma;
                             Schemas.br_status := Present |};
                          {| Schemas.br_student_id := Sample.colons;
                             Schemas.br_status := Absent |} ] |}
                   Sample.colons _ _ _)).
  - reflexivity.
  - simpl. tauto.
  - reflexivity.
Defined.

(** C10: a bulk submission that passes the schema, in which every id
    references a student but some id occurs twice, is answered 400 "One or
    more students not found" and leaves the store as it was: the students
    found are as many as the distinct ids, fewer than the ids
    submitted. *)
Theorem bulk_duplicate_student
  Date_parse isGuid Date_toISOString uuid_in date_in st ts body value us :
  Schemas.validate (Schemas.bulkAttendanceSchema Date_parse isGuid) body
    = Joi.Valid value ->
  NoDup (map s_id (students st)) ->
  read_all uuid_in (studentIds value) = Some us ->
  incl us (map s_id (students st)) ->
  ~ NoDup (studentIds value) ->
  record_bulk Date_parse isGuid Date_toISOString uuid_in date_in st ts body =
    (st, respond 400 (Failure (Message "One or more students not found")))
  /\ List.length (matched (students st) us)
     = List.length (nodup string_dec us)
  /\ List.length (nodup string_dec us) < List.length (studentIds value).
Proof.
  intros Hv Hpk Hread Hknown Hdup.
  assert (~ NoDup us) as Hdup'
    by (intros Hnd; apply Hdup; eapply read_all_NoDup; eauto).
  split; [|split].
  - eapply record_bulk_refused; eauto. tauto.
  - now apply matched_count.
  - rewrite <- (read_all_length _ _ _ Hread). now apply nodup_shorter.
Qed.

Lemma bulk_duplicate_student_witness :
  record_bulk Sample.Date_parse Sample.isGuid Sample.Date_toISOString
    Sample.uuid_in Sample.date_in Sample.school 7
    (Sample.bulk_body (Json.Number 0)
       [(Sample.emma, Present); (Sample.emma, Absent)]) =
    (Sample.school,
     respond 400 (Failure (Message "One or more students not found"))).
Proof.
  refine (proj1 (bulk_duplicate_student
                   Sample.Date_parse Sample.isGuid Sample.Date_toISOString
                   Sample.uuid_in Sample.date_in Sample.school 7 _
                   {| Schemas.bv_date := 0;
                      Schemas.records :=
                        [ {| Schemas.br_student_id := Sample.emma;
                             Schemas.br_status := Present |};
                          {| Schemas.br_student_id := Sample.emma;
                             Schemas.br_status := Absent |} ] |}
                   [Sample.emma; Sample.emma] _ _ _ _ _)).
  - reflexivity.
  - simpl. repeat constructor; simpl; intuition discriminate.
  - reflexivity.
  - intros x Hx. simpl in *. intuition.
  - intros H. inversion H as [|? ? Hnotin _]. apply Hnotin. now left.
Defined.

(** C5: for an existing student s, a date d and statuses x then y, the
    single write of (s, d, x) followed by the single write of (s, d, y) is
    answered 201 twice and leaves exactly one stored record for (s, d),
    whose status is y. *)
Theorem attendance_write_twice
  Date_parse isGuid Date_toISOString uuid_in date_in
  st ts1 ts2 body1 body2 s t x y u dd :
  Schemas.validate (Schemas.attendanceSchema Date_parse isGuid) body1
    = Joi.Valid {| Schemas.student_id := s; Schemas.av_date := t;
                   Schemas.av_status := x |} ->
  Schemas.validate (Schemas.attendanceSchema Date_parse isGuid) body2
    = Joi.Valid {| Schemas.student_id := s; Schemas.av_date := t;
                   Schemas.av_status := y |} ->
  uuid_in s = Some u -> date_in (Date_toISOString t) = Some dd ->
  NoDup (map s_id (students st)) -> In u (map s_id (students st)) ->
  List.length (filter (same_key u dd) (attendance st)) <= 1 ->
  let write := record_attendance Date_parse isGuid Date_toISOString
                 uuid_in date_in in
  let st1 := fst (write st ts1 body1) in
  let st2 := fst (write st1 ts2 body2) in
  status_code (snd (write st ts1 body1)) = 201
  /\ status_code (snd (write st1 ts2 body2)) = 201
  /\ exists a, filter (same_key u dd) (attendance st2) = [a]
               /\ a_status a = y.
Proof.
  intros Hv1 Hv2 Hu Hd Hpk Hin Hlen. cbv zeta.
  destruct (record_attendance_stores Date_parse isGuid Date_toISOString
              uuid_in date_in st ts1 body1 s t x u dd Hv1 Hu Hd Hpk Hin Hlen)
    as [st1 [row1 [E1 [K1 [_ S1]]]]].
  rewrite E1. cbn [fst snd status_code respond].
  assert (List.length (filter (same_key u dd) (attendance st1)) <= 1) as Hlen1
    by (rewrite K1; simpl; lia).
  rewrite <- S1 in Hpk, Hin.
  destruct (record_attendance_stores Date_parse isGuid Date_toISOString
              uuid_in date_in st1 ts2 body2 s t y u dd Hv2 Hu Hd Hpk Hin Hlen1)
    as [st2 [row2 [E2 [K2 [Y2 _]]]]].
  rewrite E2. cbn [fst snd status_code respond].
  split; [reflexivity|]. split; [reflexivity|]. now exists row2.
Qed.

Lemma attendance_write_twice_witness :
  let write := record_attendance Sample.Date_parse Sample.isGuid
                 Sample.Date_toISOString Sample.uuid_in Sample.date_in in
  let st1 := fst (write Sample.school 8%Z
                    (Sample.attendance_body Sample.emma (Json.Number 0)
                       Present)) in
  let st2 := fst (write st1 9%Z
                    (Sample.attendance_body Sample.emma (Json.Number 0)
                       Absent)) in
  exists a, filter (same_key Sample.emma "1970-01-01") (attendance st2) = [a]
            /\ a_status a = Absent.
Proof.
  refine (proj2 (proj2 (attendance_write_twice
                   Sample.Date_parse Sample.isGuid Sample.Date_toISOString
                   Sample.uuid_in Sample.date_in Sample.school 8 9
                   (Sample.attendance_body Sample.emma (Json.Number 0) Present)
                   (Sample.attendance_body Sample.emma (Json.Number 0) Absent)
                   Sample.emma 0 Present Absent Sample.emma "1970-01-01"
                   _ _ _ _ _ _ _))).
  - reflexivity.
  - reflexivity.
  - reflexivity.
  - reflexivity.
  - simpl. repeat constructor; simpl; intuition discriminate.
  - simpl. tauto.
  - simpl. lia.
Defined.

(** C6: for a class c and a date D the store can read, the
    class-and-date view is answered 200 with one entry per student of c,
    ordered by name; a student with a stored record on D carries that
    record's id, status and date, a student without one carries a null
    attendance. *)
Theorem class_date_view uuid_in date_in name_le st classId date u dd :
  (forall a b, name_le a b = true \/ name_le b a = true) ->
  (forall s, In s (students st) -> uuid_in (s_id s) = Some (s_id s)) ->
  (forall a b, In a (attendance st) -> In b (attendance st) ->
     a_student_id a = a_student_id b -> a_date a = a_date b -> a = b) ->
  uuid_in classId = Some u -> date_in date = Some dd ->
  exists view,
    class_attendance uuid_in date_in name_le st classId date
      = respond 200 (Success view None)
    /\ getClassAttendanceForDate uuid_in date_in name_le st classId date
       = inr view
    /\ cd_date view = date /\ cd_class_id view = classId
    /\ Permutation (map v_student (cd_students view))
         (filter (fun s => String.eqb (s_class_id s) u) (students st))
    /\ Sorted (fun a b => name_le (s_name (v_student a))
                                  (s_name (v_student b)) = true)
              (cd_students view)
    /\ Forall (fun e =>
         (forall a, In a (attendance st) ->
            a_student_id a = s_id (v_student e) -> a_date a = dd ->
            v_attendance e = Some {| v_id := a_id a; v_status := a_status a;
                                     v_date := a_date a |})
         /\ ((forall a, In a (attendance st) ->
                a_student_id a = s_id (v_student e) -> a_date a <> dd) ->
             v_attendance e = None))
        (cd_students view).
Proof.
  intros Htotal Hcanon Huniq Hu Hd.
  pose proof (getClassAttendanceForDate_runs uuid_in date_in name_le st
                Hcanon classId date u dd Hu Hd) as Hrun.
  eexists. unfold class_attendance. rewrite Hrun.
  split; [reflexivity|]. split; [reflexivity|].
  cbn [cd_date cd_class_id cd_students].
  split; [reflexivity|]. split; [reflexivity|].
  split; [|split].
  - unfold studentsWithAttendance. rewrite map_map. simpl. rewrite map_id.
    unfold of_class. rewrite order_by_perm.
    erewrite filter_ext; [reflexivity|]. intros r. simpl. apply andb_true_r.
  - apply (Sorted_views name_le). unfold of_class. apply order_by_sorted.
    intros a b. apply Htotal.
  - apply Forall_forall. intros e He. unfold studentsWithAttendance in He.
    apply in_map_iff in He. destruct He as [student [<- Hin]].
    cbn [v_student v_attendance].
    destruct (merged_attendance uuid_in name_le st Huniq u dd student Hin)
      as [Hsome Hnone].
    split.
    + intros a Ha Hs Hdate. now rewrite (Hsome a Ha Hs Hdate).
    + intros H. now rewrite (Hnone H).
Qed.

(** Students [Emma; Liam] with a record only for Emma. *)
Lemma class_date_view_witness :
  exists view,
    class_attendance Sample.uuid_in Sample.date_in String.leb
      Sample.school Sample.class_3A "1970-01-01"
      = respond 200 (Success view None)
    /\ map (fun e => (s_name (v_student e), v_attendance e))
           (cd_students view)
       = [ ("Emma Johnson",
            Some {| v_id := 0; v_status := Late; v_date := "1970-01-01" |});
           ("Liam Smith", None) ].
Proof.
  destruct (class_date_view Sample.uuid_in Sample.date_in String.leb
              Sample.school Sample.class_3A "1970-01-01"
              Sample.class_3A "1970-01-01") as [view [Hview _]].
  - apply String.leb_total.
  - intros s [<-|[<-|[]]]; reflexivity.
  - intros a b [<-|[]] [<-|[]] _ _. reflexivity.
  - reflexivity.
  - reflexivity.
  - exists view. split; [exact Hview|].
    vm_compute in Hview. injection Hview as <-. reflexivity.
Defined.

End RoutesFacts.

(** * Further properties of the code *)

(** ** The chart aggregation, continued *)
Module ChartsTotals.
Import JsObject JsObjectFacts Charts ChartsFacts Totals.

Lemma statusCounts_fold data cd s :
  get s (statusCounts (fold_left step data cd)) =
  get s (statusCounts cd) + tally_all data s.
Proof.
  revert cd. induction data as [|r data IH]; intros cd.
  - simpl. unfold tally_all. simpl. lia.
  - cbn [fold_left]. rewrite IH. unfold step. cbn [statusCounts].
    rewrite get_incr. unfold tally_all. cbn [filter].
    destruct (status_eqb (row_status r) s); simpl; lia.
Qed.

Lemma tally_all_sum data :
  tally_all data Present + tally_all data Absent
  + tally_all data Late + tally_all data Excused = List.length data.
Proof.
  unfold tally_all. induction data as [|r data IH]; [reflexivity|].
  cbn [filter List.length]. destruct (row_status r); simpl; lia.
Qed.

Lemma tally_sum data d :
  tally data d Present + tally data d Absent
  + tally data d Late + tally data d Excused = rows_on data d.
Proof.
  unfold tally, rows_on. induction data as [|r data IH]; [reflexivity|].
  cbn [filter]. destruct (String.eqb (date r) d); [|exact IH].
  destruct (row_status r); simpl in *; lia.
Qed.

Lemma sum_filter_ne (f : string -> nat) (d0 : string) (l : list string) :
  NoDup l ->
  list_sum (map f l) =
  (if existsb (String.eqb d0) l then f d0 else 0)
  + list_sum (map f (filter (fun x => negb (String.eqb x d0)) l)).
Proof.
  induction l as [|x l IH]; intros Hnd; [reflexivity|].
  inversion Hnd as [|? ? Hnotin Hnd']; subst.
  change (list_sum (map f (x :: l))) with (f x + list_sum (map f l)).
  rewrite (IH Hnd'). cbn [filter existsb].
  destruct (String.eqb_spec x d0) as [->|Hne].
  - rewrite String.eqb_refl. cbn [negb orb].
    destruct (existsb (String.eqb d0) l) eqn:E; [|lia].
    apply existsb_eqb_In in E. contradiction.
  - destruct (String.eqb_spec d0 x) as [e|_]; [congruence|].
    cbn [negb orb].
    change (list_sum (map f (x :: ?t))) with (f x + list_sum (map f t)).
    destruct (existsb (String.eqb d0) l); lia.
Qed.

Lemma rows_on_absent data d : ~ In d (map date data) -> rows_on data d = 0.
Proof.
  unfold rows_on. induction data as [|r data IH]; simpl; [reflexivity|].
  intros H. destruct (String.eqb_spec (date r) d) as [E|_].
  - exfalso. apply H. now left.
  - apply IH. tauto.
Qed.

(** Every row belongs to exactly one of the dates seen. *)
Lemma rows_on_first_seen data :
  list_sum (map (rows_on data) (first_seen (map date data)))
  = List.length data.
Proof.
  induction data as [|r data IH]; [reflexivity|].
  cbn [map first_seen list_sum fold_right List.length].
  fold (list_sum (map (rows_on (r :: data))
                    (filter (fun x => negb (String.eqb x (date r)))
                            (first_seen (map date data))))).
  assert (forall l, (forall x, In x l -> x <> date r) ->
            map (rows_on (r :: data)) l = map (rows_on data) l) as Hother.
  { intros l Hl. apply map_ext_in. intros x Hx. unfold rows_on. cbn [filter].
    destruct (String.eqb_spec (date r) x) as [E|_]; [|reflexivity].
    exfalso. now apply (Hl x Hx). }
  rewrite Hother.
  2:{ intros x Hx. apply filter_In in Hx. destruct Hx as [_ Hx].
      destruct (String.eqb_spec x (date r)); [discriminate | assumption]. }
  pose proof (sum_filter_ne (rows_on data) (date r)
                (first_seen (map date data)) (first_seen_NoDup _)) as Hs.
  rewrite IH in Hs.
  assert (rows_on (r :: data) (date r) = S (rows_on data (date r))) as Hr.
  { unfold rows_on. cbn [filter]. now rewrite String.eqb_refl. }
  rewrite Hr.
  destruct (existsb (String.eqb (date r)) (first_seen (map date data)))
    eqn:E.
  - lia.
  - assert (~ In (date r) (map date data)) as Hnotin.
    { intros Hin. apply first_seen_In, existsb_eqb_In in Hin. congruence. }
    rewrite (rows_on_absent _ _ Hnotin). lia.
Qed.

(** Over dates of the store the summaries are the entries of [daily], in
    its order. *)
Lemma trends_of_daily data :
  Forall (fun r => is_iso_date (date r) = true) data ->
  invariant data (fold_left step data initial)
  /\ trends (aggregate data)
     = map to_trend (daily (fold_left step data initial)).
Proof.
  intros Hiso.
  assert (invariant data (fold_left step data initial)) as Hinv.
  { apply invariant_fold. eapply Forall_impl; [|exact Hiso].
    intros r. apply iso_date_not_inherited. }
  split; [exact Hinv|]. destruct Hinv as [Hk _ _].
  unfold aggregate. cbn [trends]. f_equal.
  apply entries_plain. rewrite Hk. apply Forall_forall. intros k Hin.
  apply first_seen_In, in_map_iff in Hin. destruct Hin as [r [<- Hin]].
  rewrite Forall_forall in Hiso. now apply iso_date_not_index, Hiso.
Qed.

(** X1: whatever the rows, each of the four overall status counts is the
    number of rows of that status, and the four add up to the number of
    rows. *)
Theorem statusCounts_tally data :
  (forall s, get s (statusCounts (aggregate data)) = tally_all data s)
  /\ cPresent (statusCounts (aggregate data))
     + cAbsent (statusCounts (aggregate data))
     + cLate (statusCounts (aggregate data))
     + cExcused (statusCounts (aggregate data)) = List.length data.
Proof.
  assert (forall s, get s (statusCounts (aggregate data)) = tally_all data s)
    as H.
  { intros s. unfold aggregate. cbn [statusCounts].
    rewrite statusCounts_fold. now destruct s. }
  split; [exact H|].
  rewrite <- (tally_all_sum data), <- (H Present), <- (H Absent),
    <- (H Late), <- (H Excused). reflexivity.
Qed.

(** X2: for rows dated as the store prints dates, the totals of the
    per-date summaries add up to the number of rows: every row is counted
    on exactly one date. *)
Theorem trends_total_rows data :
  Forall (fun r => is_iso_date (date r) = true) data ->
  list_sum (map t_total (trends (aggregate data))) = List.length data.
Proof.
  intros Hiso. destruct (trends_of_daily data Hiso) as [[Hk Hd _] Ht].
  rewrite Ht, <- (rows_on_first_seen data), <- Hk.
  unfold keys. rewrite !map_map. f_equal. apply map_ext_in.
  intros [d c] Hin. cbn [fst]. rewrite total_sum.
  cbn [to_trend t_Present t_Absent t_Late t_Excused].
  assert (own (daily (fold_left step data initial)) d = Some c) as Hown.
  { apply own_In; [|assumption]. rewrite Hk. apply first_seen_NoDup. }
  pose proof (Hd _ _ Hown) as Hc.
  rewrite <- tally_sum, <- (Hc Present), <- (Hc Absent), <- (Hc Late),
    <- (Hc Excused). reflexivity.
Qed.

Lemma trends_total_rows_witness :
  list_sum (map t_total
         (trends (aggregate
                    [ {| date := "2024-01-01"; row_status := Present |};
                      {| date := "2024-01-02"; row_status := Late |};
                      {| date := "2024-01-01"; row_status := Absent |} ])))
  = 3.
Proof.
  refine (trends_total_rows _ _). repeat constructor.
Defined.

(** X3: the [daily] mapping of the result has a key for a date exactly
    when some row has that date, and the key holds that date's four
    counts. *)
Theorem daily_lookup data d :
  Forall (fun r => is_iso_date (date r) = true) data ->
  (In d (map date data) ->
   exists c, own (daily (aggregate data)) d = Some c
             /\ forall s, get s c = tally data d s)
  /\ (~ In d (map date data) -> own (daily (aggregate data)) d = None).
Proof.
  intros Hiso. unfold aggregate. cbn [daily].
  assert (invariant data (fold_left step data initial)) as [Hk Hd _].
  { apply invariant_fold. eapply Forall_impl; [|exact Hiso].
    intros r. apply iso_date_not_inherited. }
  split.
  - intros Hin.
    destruct (own (daily (fold_left step data initial)) d) as [c|] eqn:E.
    + exists c. split; [reflexivity|]. now apply Hd.
    + exfalso. apply own_None_keys in E. apply E.
      rewrite Hk. now apply first_seen_In.
  - intros Hnotin. apply own_None_keys. rewrite Hk, first_seen_In. exact Hnotin.
Qed.

Lemma daily_lookup_witness :
  own (daily (aggregate [ {| date := "2024-01-01"; row_status := Late |} ]))
      "2024-01-02" = None.
Proof.
  refine (proj2 (daily_lookup
                   [ {| date := "2024-01-01"; row_status := Late |} ]
                   "2024-01-02" _) _).
  - repeat constructor.
  - simpl. intros [H|[]]. discriminate H.
Defined.

End ChartsTotals.

(** ** The attendance writes, continued *)
Module AttendanceWrites.
Import Supabase SupabaseFacts Routes RoutesFacts Constraints.

Lemma same_key_key sid d a : same_key sid d a = true <-> key a = (sid, d).
Proof.
  unfold same_key, key. rewrite andb_true_iff, !String.eqb_eq.
  split; [intros [-> ->]; reflexivity | intros H; now inversion H].
Qed.

Lemma key_filter l sid d :
  NoDup (map key l) -> List.length (filter (same_key sid d) l) <= 1.
Proof.
  induction l as [|a l IH]; simpl; intros H; [lia|].
  inversion H as [|? ? Hnotin Hnd]; subst.
  destruct (same_key sid d a) eqn:E; [|now apply IH].
  rewrite filter_none; [simpl; lia|].
  intros b Hb. destruct (same_key sid d b) eqn:E'; [|reflexivity].
  exfalso. apply Hnotin. apply same_key_key in E, E'. rewrite E, <- E'.
  now apply in_map.
Qed.

Lemma NoDup_map_eq {A B} (f : A -> B) l a b :
  NoDup (map f l) -> In a l -> In b l -> f a = f b -> a = b.
Proof.
  induction l as [|c l IH]; simpl; intros Hnd Ha Hb E; [contradiction|].
  inversion Hnd as [|? ? Hnotin Hnd']; subst.
  destruct Ha as [->|Ha], Hb as [->|Hb].
  - reflexivity.
  - exfalso. apply Hnotin. rewrite E. now apply in_map.
  - exfalso. apply Hnotin. rewrite <- E. now apply in_map.
  - now apply IH.
Qed.

Lemma Forall2_map_r {A} (R : A -> A -> Prop) (g : A -> A) l :
  (forall a, In a l -> R a (g a)) -> Forall2 R l (map g l).
Proof.
  induction l as [|a l IH]; simpl; intros H; constructor.
  - apply H. now left.
  - apply IH. intros b Hb. apply H. now right.
Qed.

Lemma kept_refl keys a : kept keys a a.
Proof. repeat split. now left. Qed.

Lemma kept_trans keys a b c : kept keys a b -> kept keys b c -> kept keys a c.
Proof.
  intros [[H1 [H2 [H3 H4]]] Hab] [[G1 [G2 [G3 G4]]] Hbc].
  split; [repeat split; congruence|].
  destruct Hab as [->|Hab]; [|now right].
  destruct Hbc as [->|Hbc]; [now left | now right].
Qed.

Lemma kept_more keys keys' a b :
  incl keys keys' -> kept keys a b -> kept keys' a b.
Proof.
  intros Hi [H [E|Hin]]; (split; [assumption|]);
    [now left | right; now apply Hi].
Qed.

Lemma kept_key keys l l' : Forall2 (kept keys) l l' -> map key l = map key l'.
Proof.
  induction 1 as [|a b l l' [[_ [H2 [H3 _]]] _] _ IH]; simpl; [reflexivity|].
  unfold key at 1 3. now rewrite H2, H3, IH.
Qed.

Lemma kept_id keys l l' : Forall2 (kept keys) l l' -> map a_id l = map a_id l'.
Proof.
  induction 1 as [|a b l l' [[H1 _] _] _ IH]; simpl; [reflexivity|].
  now rewrite H1, IH.
Qed.

Lemma kept_student keys l l' :
  Forall2 (kept keys) l l' -> map a_student_id l = map a_student_id l'.
Proof.
  induction 1 as [|a b l l' [[_ [H2 _]] _] _ IH]; simpl; [reflexivity|].
  now rewrite H2, IH.
Qed.

Lemma Forall2_refl {A} (R : A -> A -> Prop) l :
  (forall a, R a a) -> Forall2 R l l.
Proof. intros H. induction l; constructor; [apply H | assumption]. Qed.

Lemma Forall2_kept_refl keys l : Forall2 (kept keys) l l.
Proof. apply Forall2_refl, kept_refl. Qed.

(** One row of an upsert: the stored rows keep their places and all but
    the status; the row that holds the key is the only one rewritten, and
    without one a row with a new id is added at the end. *)
Lemma upsert_row_shape ts st sid d x :
  NoDup (map key (attendance st)) ->
  let st1 := fst (upsert_row ts st (sid, d, x)) in
  let new := snd (upsert_row ts st (sid, d, x)) in
  key new = (sid, d) /\ a_status new = x
  /\ classes st1 = classes st /\ students st1 = students st
  /\ exists rows,
       Forall2 (kept [(sid, d)]) (attendance st) rows
       /\ In new (attendance st1)
       /\ ((In (sid, d) (map key (attendance st))
            /\ attendance st1 = rows /\ serial st1 = serial st)
           \/ (~ In (sid, d) (map key (attendance st))
               /\ attendance st1 = rows ++ [new]
               /\ serial st1 = S (serial st) /\ a_id new = serial st)).
Proof.
  intros Huniq. unfold upsert_row.
  destruct (find (same_key sid d) (attendance st)) as [old|] eqn:E;
    cbn [fst snd classes students attendance serial a_status].
  - repeat split. apply find_some in E. destruct E as [Hold Kold].
    eexists. split; [|split; [|left; split; [|split; reflexivity]]].
    + apply Forall2_map_r. intros a Ha.
      destruct (same_key sid d a) eqn:K; [|apply kept_refl].
      assert (a = old) as ->.
      { apply (NoDup_map_eq key (attendance st)); try assumption.
        apply same_key_key in K, Kold. congruence. }
      apply same_key_key in Kold. inversion Kold.
      split; [repeat split|]. right. left.
      unfold key. congruence.
    + apply in_map_iff. exists old. now rewrite Kold.
    + apply in_map_iff. exists old. split; [now apply same_key_key|assumption].
  - repeat split. exists (attendance st).
    split; [apply Forall2_kept_refl|]. split; [apply in_or_app; right; now left|].
    right. repeat split. intros Hin. apply in_map_iff in Hin.
    destruct Hin as [a [Ha Hin]].
    pose proof (find_none _ _ E a Hin) as F.
    apply same_key_key in Ha. congruence.
Qed.

Lemma upsert_row_holds ts st sid d x :
  holds st -> In sid (map s_id (students st)) ->
  holds (fst (upsert_row ts st (sid, d, x))).
Proof.
  intros [C1 C2 C3 C4 C5 C6 C7 C8] Hsid.
  destruct (upsert_row_shape ts st sid d x C8)
    as [Hk [_ [Hc [Hs [rows [Hrows [_ Hcase]]]]]]].
  set (st1 := fst (upsert_row ts st (sid, d, x))) in *.
  set (new := snd (upsert_row ts st (sid, d, x))) in *.
  assert (a_student_id new = sid) as Hnew by (now inversion Hk).
  assert (forall P : nat -> Prop,
            Forall (fun a => P (a_id a)) (attendance st) ->
            Forall (fun a => P (a_id a)) rows) as Hids.
  { intros P H. rewrite Forall_forall in *. intros b Hb.
    apply (in_map a_id) in Hb. rewrite <- (kept_id _ _ _ Hrows) in Hb.
    apply in_map_iff in Hb. destruct Hb as [a [<- Ha]]. now apply H. }
  assert (Forall (fun a => In (a_student_id a) (map s_id (students st)))
                 rows) as Hfk.
  { rewrite Forall_forall in *. intros b Hb.
    apply (in_map a_student_id) in Hb.
    rewrite <- (kept_student _ _ _ Hrows) in Hb.
    apply in_map_iff in Hb. destruct Hb as [a [<- Ha]]. now apply C7. }
  destruct Hcase as [[_ [Ha Hser]] | [Hnotin [Ha [Hser Hid]]]];
    constructor; rewrite ?Hc, ?Hs, ?Ha, ?Hser; try assumption.
  - now rewrite <- (kept_id _ _ _ Hrows).
  - now apply (Hids (fun i => i < serial st)).
  - now rewrite <- (kept_key _ _ _ Hrows).
  - rewrite map_app, <- (kept_id _ _ _ Hrows). simpl. rewrite Hid.
    apply NoDup_app; [assumption | repeat constructor; simpl; tauto |].
    intros i Hi [<-|[]]. apply in_map_iff in Hi. destruct Hi as [a [Ea Hi]].
    rewrite Forall_forall in C6. specialize (C6 a Hi). lia.
  - apply Forall_app. split.
    + apply (Hids (fun i => i < S (serial st))).
      eapply Forall_impl; [|exact C6]. cbv beta. intros a H. lia.
    + constructor; [|constructor]. rewrite Hid. lia.
  - apply Forall_app. split; [assumption|].
    constructor; [|constructor]. now rewrite Hnew.
  - rewrite map_app, <- (kept_key _ _ _ Hrows). simpl. rewrite Hk.
    apply NoDup_app; [assumption | repeat constructor; simpl; tauto |].
    intros k Hin [<-|[]]. contradiction.
Qed.

Lemma upsert_row_unique ts st sid d x :
  NoDup (map key (attendance st)) ->
  NoDup (map key (attendance (fst (upsert_row ts st (sid, d, x))))).
Proof.
  intros Huniq.
  destruct (upsert_row_shape ts st sid d x Huniq)
    as [Hk [_ [_ [_ [rows [Hrows [_ Hcase]]]]]]].
  destruct Hcase as [[_ [-> _]] | [Hnotin [-> _]]].
  - now rewrite <- (kept_key _ _ _ Hrows).
  - rewrite map_app, <- (kept_key _ _ _ Hrows). cbn [map]. rewrite Hk.
    apply NoDup_app; [assumption | repeat constructor; simpl; tauto |].
    intros k Hin [<-|[]]. contradiction.
Qed.

Lemma Forall2_In_l {A B} (R : A -> B -> Prop) l l' a :
  Forall2 R l l' -> In a l -> exists b, In b l' /\ R a b.
Proof.
  induction 1 as [|x y l l' Hxy _ IH]; simpl; intros Hin; [contradiction|].
  destruct Hin as [->|Hin].
  - exists y. split; [now left | assumption].
  - destruct (IH Hin) as [b [Hb Hab]]. exists b. split; [now right | assumption].
Qed.

Lemma Forall2_trans {A} (R : A -> A -> Prop) l1 l2 l3 :
  (forall a b c, R a b -> R b c -> R a c) ->
  Forall2 R l1 l2 -> Forall2 R l2 l3 -> Forall2 R l1 l3.
Proof.
  intros Ht H. revert l3. induction H as [|a b l1 l2 Hab _ IH]; intros l3 H3.
  - inversion H3. constructor.
  - inversion H3 as [|? c ? l3' Hbc H3']; subst. constructor.
    + eapply Ht; eassumption.
    + now apply IH.
Qed.

Lemma Forall2_impl {A B} (R R' : A -> B -> Prop) l l' :
  (forall a b, R a b -> R' a b) -> Forall2 R l l' -> Forall2 R' l l'.
Proof. intros Hi. induction 1; constructor; auto. Qed.

Lemma distinct_keys_NoDup rs : distinct_keys rs = true <-> NoDup (map fst rs).
Proof.
  induction rs as [|[[sid d] x] rs IH]; simpl.
  - split; [constructor | reflexivity].
  - rewrite andb_true_iff, negb_true_iff, IH. split.
    + intros [Hnot Hnd]. constructor; [|assumption].
      intros Hin. apply in_map_iff in Hin. destruct Hin as [[[s' d'] x'] [E Hin]].
      simpl in E. inversion E; subst.
      assert (existsb (fun r => String.eqb (fst (fst r)) sid
                                && String.eqb (snd (fst r)) d) rs = true) as F.
      { apply existsb_exists. exists (sid, d, x'). split; [assumption|].
        simpl. now rewrite !String.eqb_refl. }
      congruence.
    + intros H. inversion H as [|? ? Hnotin Hnd]; subst. split; [|assumption].
      destruct (existsb _ rs) eqn:F; [|reflexivity].
      exfalso. apply Hnotin. apply existsb_exists in F.
      destruct F as [[[s' d'] x'] [Hin E]]. simpl in E.
      apply andb_true_iff in E. rewrite !String.eqb_eq in E.
      destruct E as [-> ->]. apply in_map_iff. now exists (sid, d, x').
Qed.

(** The rows of an upsert, one after the other: each record is stored
    under its key, the rows written come back in the order submitted, and
    the rows held before keep their places. *)
Lemma upsert_rows_shape ts rs : forall st,
  NoDup (map key (attendance st)) ->
  NoDup (map fst rs) ->
  let st' := fst (upsert_rows ts st rs) in
  let written := snd (upsert_rows ts st rs) in
  map (fun r => (key r, a_status r)) written = rs
  /\ incl written (attendance st')
  /\ NoDup (map key (attendance st'))
  /\ classes st' = classes st /\ students st' = students st
  /\ exists rows added,
       attendance st' = rows ++ added
       /\ List.length added <= List.length rs
       /\ Forall2 (kept (map fst rs)) (attendance st) rows.
Proof.
  induction rs as [|[[sid d] x] rs IH]; intros st Huniq Hnd.
  - simpl. split; [reflexivity|]. split; [intros a []|].
    split; [assumption|]. split; [reflexivity|]. split; [reflexivity|].
    exists (attendance st), []. rewrite app_nil_r.
    split; [reflexivity|]. split; [simpl; lia | apply Forall2_kept_refl].
  - cbn [upsert_rows].
    pose proof (upsert_row_shape ts st sid d x Huniq) as H1.
    pose proof (upsert_row_unique ts st sid d x Huniq) as U1.
    destruct (upsert_row ts st (sid, d, x)) as [st1 new].
    cbn [fst snd] in H1, U1. cbv zeta in H1.
    destruct H1 as [Hk [Hx [Hc [Hs [rows1 [Hrows1 [Hnew Hcase]]]]]]].
    cbn [map fst] in Hnd. apply NoDup_cons_iff in Hnd.
    destruct Hnd as [Hnotin Hnd'].
    specialize (IH st1 U1 Hnd'). cbv zeta in IH.
    destruct (upsert_rows ts st1 rs) as [st2 written]. cbn [fst snd] in *.
    destruct IH as [Hw [Hincl [U2 [Hc2 [Hs2 [rows2 [added2 [Ha2 [Hl2 Hk2]]]]]]]]].
    assert (exists added1, attendance st1 = rows1 ++ added1
                           /\ List.length added1 <= 1) as [added1 [Ha1 Hl1]].
    { destruct Hcase as [[_ [-> _]] | [_ [-> _]]].
      - exists []. rewrite app_nil_r. split; [reflexivity | simpl; lia].
      - exists [new]. split; [reflexivity | simpl; lia]. }
    split; [|split; [|split; [|split; [|split]]]].
    + cbn [map]. now rewrite Hk, Hx, Hw.
    + intros a [<-|Ha]; [|now apply Hincl].
      destruct (Forall2_In_l _ _ _ _ Hk2 Hnew) as [b [Hb [_ [<-|Hin]]]].
      * rewrite Ha2. apply in_or_app. now left.
      * exfalso. apply Hnotin. simpl. now rewrite <- Hk.
    + assumption.
    + congruence.
    + congruence.
    + rewrite Ha1 in Hk2. apply Forall2_app_inv_l in Hk2.
      destruct Hk2 as [k2a [k2b [Hk2a [Hk2b ->]]]].
      exists k2a, (k2b ++ added2). split; [now rewrite Ha2, app_assoc|].
      split.
      * rewrite length_app, <- (Forall2_length Hk2b). simpl. lia.
      * apply Forall2_trans with (l2 := rows1); [apply kept_trans | |].
        -- eapply Forall2_impl; [|exact Hrows1]. intros a b.
           apply kept_more. intros k [<-|[]]. now left.
        -- eapply Forall2_impl; [|exact Hk2a]. intros a b.
           apply kept_more. intros k Hin. now right.
Qed.

Lemma upsert_row_tables ts st rec :
  classes (fst (upsert_row ts st rec)) = classes st
  /\ students (fst (upsert_row ts st rec)) = students st.
Proof.
  destruct rec as [[sid d] x]. unfold upsert_row.
  destruct (find _ _); split; reflexivity.
Qed.

Lemma upsert_rows_holds ts rs : forall st,
  holds st ->
  Forall (fun r => In (fst (fst r)) (map s_id (students st))) rs ->
  holds (fst (upsert_rows ts st rs)).
Proof.
  induction rs as [|[[sid d] x] rs IH]; intros st Hst Hknown; [assumption|].
  cbn [upsert_rows]. inversion Hknown as [|? ? Hsid Hknown']; subst.
  pose proof (upsert_row_holds ts st sid d x Hst Hsid) as H1.
  pose proof (upsert_row_tables ts st (sid, d, x)) as [_ Hs].
  destruct (upsert_row ts st (sid, d, x)) as [st1 new]. cbn [fst] in *.
  rewrite <- Hs in Hknown'. specialize (IH st1 H1 Hknown').
  destruct (upsert_rows ts st1 rs) as [st2 written]. exact IH.
Qed.

(** The upsert statement either fails and leaves the store alone, or
    runs over records that were read, reference students and have
    distinct keys. *)
Lemma upsert_cases uuid_in date_in st ts recs :
  (exists e, upsert uuid_in date_in st ts recs = (st, failed e))
  \/ (exists rs,
        read_records uuid_in date_in recs = Some rs
        /\ Forall (fun r => In (fst (fst r)) (map s_id (students st))) rs
        /\ NoDup (map fst rs)
        /\ upsert uuid_in date_in st ts recs =
           (fst (upsert_rows ts st rs), ok (snd (upsert_rows ts st rs)))).
Proof.
  unfold upsert. destruct (read_records uuid_in date_in recs) as [rs|];
    [|left; now eexists].
  destruct (forallb _ rs) eqn:F; cbn [negb]; [|left; now eexists].
  destruct (distinct_keys rs) eqn:D; cbn [negb]; [|left; now eexists].
  right. exists rs. split; [reflexivity|]. split; [|split].
  - rewrite forallb_forall in F. apply Forall_forall. intros r Hr.
    apply mem_In. now apply F.
  - now apply distinct_keys_NoDup.
  - now destruct (upsert_rows ts st rs).
Qed.

Lemma upsert_rows_length ts rs : forall st,
  List.length (snd (upsert_rows ts st rs)) = List.length rs.
Proof.
  induction rs as [|rec rs IH]; intros st; [reflexivity|].
  cbn [upsert_rows]. destruct (upsert_row ts st rec) as [st1 new].
  specialize (IH st1). destruct (upsert_rows ts st1 rs). simpl in *.
  now rewrite IH.
Qed.

Lemma read_records_length uuid_in date_in recs rs :
  read_records uuid_in date_in recs = Some rs ->
  List.length rs = List.length recs.
Proof.
  revert rs. induction recs as [|[[s d] x] recs IH]; simpl; intros rs H.
  - now inversion H.
  - destruct (uuid_in s); [|discriminate]. destruct (date_in d); [|discriminate].
    destruct (read_records uuid_in date_in recs); [|discriminate].
    inversion H. simpl. f_equal. now apply IH.
Qed.

Lemma filter_key_In l r :
  NoDup (map key l) -> In r l ->
  filter (same_key (a_student_id r) (a_date r)) l = [r].
Proof.
  intros Huniq Hin.
  pose proof (key_filter l (a_student_id r) (a_date r) Huniq) as Hlen.
  assert (In r (filter (same_key (a_student_id r) (a_date r)) l)) as F.
  { apply filter_In. split; [assumption | now apply same_key_refl]. }
  destruct (filter _ l) as [|a [|b l']]; simpl in *; [contradiction| |lia].
  destruct F as [->|[]]. reflexivity.
Qed.

Lemma read_records_In uuid_in date_in recs rs k :
  read_records uuid_in date_in recs = Some rs -> In k (map fst rs) ->
  exists rec, In rec recs /\ uuid_in (fst (fst rec)) = Some (fst k)
              /\ date_in (snd (fst rec)) = Some (snd k).
Proof.
  revert rs. induction recs as [|[[s d] x] recs IH]; simpl; intros rs H Hin.
  - inversion H; subst. contradiction.
  - destruct (uuid_in s) as [u|] eqn:Hu; [|discriminate].
    destruct (date_in d) as [dd|] eqn:Hd; [|discriminate].
    destruct (read_records uuid_in date_in recs) as [rs'|]; [|discriminate].
    inversion H; subst. destruct Hin as [<-|Hin].
    + exists (s, d, x). simpl. tauto.
    + destruct (IH rs' eq_refl Hin) as [rec [Hrec Hread]].
      exists rec. tauto.
Qed.

(** The records of a bulk submission as the store reads them. *)
Lemma read_records_stamped uuid_in date_in D dd recs us :
  read_all uuid_in (map Schemas.br_student_id recs) = Some us ->
  date_in D = Some dd ->
  exists rs,
    read_records uuid_in date_in
      (map (fun r => (Schemas.br_student_id r, D, Schemas.br_status r)) recs)
    = Some rs
    /\ map fst rs = map (fun u => (u, dd)) us
    /\ map snd rs = map Schemas.br_status recs.
Proof.
  intros Hread Hd. revert us Hread.
  induction recs as [|r recs IH]; simpl; intros us Hread.
  - inversion Hread. now exists [].
  - destruct (uuid_in (Schemas.br_student_id r)) as [u|]; [|discriminate].
    destruct (read_all uuid_in _) as [us'|]; [|discriminate].
    inversion Hread; subst. destruct (IH us' eq_refl) as [rs [-> [H1 H2]]].
    rewrite Hd. eexists. split; [reflexivity|]. simpl. now rewrite H1, H2.
Qed.

(** X4: a single write that is not answered 201 leaves the store as it
    was. A body that passes the schema is refused with 400 "Student not
    found" when no student has the submitted id, also when the store
    cannot read the id; for a student that exists the write fails with
    500 when the store cannot read the date. *)
Theorem record_attendance_refused
  Date_parse isGuid Date_toISOString uuid_in date_in st ts body :
  (status_code (snd (record_attendance Date_parse isGuid Date_toISOString
                       uuid_in date_in st ts body)) <> 201 ->
   fst (record_attendance Date_parse isGuid Date_toISOString
          uuid_in date_in st ts body) = st)
  /\ forall value,
       Schemas.validate (Schemas.attendanceSchema Date_parse isGuid) body
         = Joi.Valid value ->
       ((forall u, uuid_in (Schemas.student_id value) = Some u ->
                   ~ In u (map s_id (students st))) ->
        record_attendance Date_parse isGuid Date_toISOString uuid_in date_in
          st ts body
        = (st, respond 400 (Failure (Message "Student not found"))))
       /\ (NoDup (map s_id (students st)) ->
           (exists u, uuid_in (Schemas.student_id value) = Some u
                      /\ In u (map s_id (students st))) ->
           date_in (Date_toISOString (Schemas.av_date value)) = None ->
           record_attendance Date_parse isGuid Date_toISOString
             uuid_in date_in st ts body
           = (st, respond 500
                    (Failure (Message "Failed to record attendance")))).
Proof.
  split.
  - unfold record_attendance.
    destruct (Schemas.validate _ body) as [value|]; [|reflexivity].
    destruct (data (single _)); [|reflexivity].
    destruct (upsert_cases uuid_in date_in st ts
                [(Schemas.student_id value,
                  Date_toISOString (Schemas.av_date value),
                  Schemas.av_status value)])
      as [[e ->] | [rs [Hr [_ [_ ->]]]]]; [reflexivity|].
    apply read_records_length in Hr.
    pose proof (upsert_rows_length ts rs st) as Hlen. rewrite Hr in Hlen.
    destruct (snd (upsert_rows ts st rs)) as [|row [|? ?]]; try discriminate.
    simpl. intros H. now contradiction H.
  - intros value Hv. unfold record_attendance. rewrite Hv. split.
    + intros Hunknown. unfold select, eq, all_ready.
      destruct (uuid_in (Schemas.student_id value)) as [u|]; [|reflexivity].
      cbn [option_map fold_right data ok forallb].
      rewrite filter_none; [reflexivity|].
      intros r Hr. rewrite andb_true_r.
      destruct (String.eqb_spec (s_id r) u) as [E|]; [|reflexivity].
      exfalso. apply (Hunknown u eq_refl). rewrite <- E. now apply in_map.
    + intros Hpk [u [Hu Hin]] Hd. unfold select, eq, all_ready. rewrite Hu.
      cbn [option_map fold_right data ok forallb].
      destruct (select_by_id _ _ Hpk Hin) as [r ->]. cbn [single data ok].
      unfold upsert. cbn [read_records]. now rewrite Hu, Hd.
Qed.

Lemma record_attendance_refused_witness :
  record_attendance Sample.Date_parse Sample.isGuid Sample.Date_toISOString
    Sample.uuid_in Sample.date_in Sample.school 7
    (Sample.attendance_body Sample.nobody (Json.Number 0) Present)
  = (Sample.school, respond 400 (Failure (Message "Student not found"))).
Proof.
  refine (proj1 (proj2 (record_attendance_refused
                   Sample.Date_parse Sample.isGuid Sample.Date_toISOString
                   Sample.uuid_in Sample.date_in Sample.school 7 _)
                   {| Schemas.student_id := Sample.nobody;
                      Schemas.av_date := 0;
                      Schemas.av_status := Present |} _) _).
  - reflexivity.
  - intros u Hu. injection Hu as <-. simpl. intuition discriminate.
Defined.

(** X5: in a store that holds one record per (student, date) at most, a
    single write deletes and moves no record and changes no column of a
    stored record but the status, and the status only of the record of
    the submitted student and date; it adds one record at most and leaves
    classes and students alone. *)
Theorem record_attendance_keeps_rows
  Date_parse isGuid Date_toISOString uuid_in date_in st ts body value :
  Schemas.validate (Schemas.attendanceSchema Date_parse isGuid) body
    = Joi.Valid value ->
  NoDup (map key (attendance st)) ->
  let st' := fst (record_attendance Date_parse isGuid Date_toISOString
                    uuid_in date_in st ts body) in
  classes st' = classes st /\ students st' = students st
  /\ exists rows added,
       attendance st' = rows ++ added /\ List.length added <= 1
       /\ Forall2 (fun a b =>
                     same_but_status a b
                     /\ (a = b
                         \/ uuid_in (Schemas.student_id value)
                            = Some (a_student_id a)
                            /\ date_in (Date_toISOString
                                          (Schemas.av_date value))
                               = Some (a_date a)))
                  (attendance st) rows.
Proof.
  intros Hv Huniq st'.
  assert (forall P : store -> Prop, P st ->
            P (fst (upsert uuid_in date_in st ts
                      [(Schemas.student_id value,
                        Date_toISOString (Schemas.av_date value),
                        Schemas.av_status value)])) -> P st') as Hcase.
  { intros P H0 H1. unfold st', record_attendance. rewrite Hv.
    destruct (data (single _)); [|exact H0].
    destruct (upsert _ _ st ts _) as [st1 r]. cbn [fst] in H1.
    destruct (error (single r)); [exact H1|].
    destruct (data (single r)); exact H1. }
  apply Hcase; clear Hcase st'.
  - split; [reflexivity|]. split; [reflexivity|].
    exists (attendance st), []. rewrite app_nil_r.
    split; [reflexivity|]. split; [simpl; lia|].
    apply Forall2_refl. intros a. split; [repeat split | now left].
  - destruct (upsert_cases uuid_in date_in st ts
                [(Schemas.student_id value,
                  Date_toISOString (Schemas.av_date value),
                  Schemas.av_status value)])
      as [[e ->] | [rs [Hr [_ [Hnd ->]]]]]; cbn [fst].
    + split; [reflexivity|]. split; [reflexivity|].
      exists (attendance st), []. rewrite app_nil_r.
      split; [reflexivity|]. split; [simpl; lia|].
      apply Forall2_refl. intros a. split; [repeat split | now left].
    + destruct (upsert_rows_shape ts rs st Huniq Hnd)
        as [_ [_ [_ [Hc [Hs [rows [added [Ha [Hl Hk]]]]]]]]].
      split; [assumption|]. split; [assumption|].
      exists rows, added. split; [assumption|].
      split; [now rewrite (read_records_length _ _ _ _ Hr) in Hl|].
      eapply Forall2_impl; [|exact Hk]. intros a b [Hsame [->|Hin]].
      * split; [assumption | now left].
      * split; [assumption|]. right.
        destruct (read_records_In _ _ _ _ _ Hr Hin) as [rec [[<-|[]] H]].
        exact H.
Qed.

Lemma record_attendance_keeps_rows_witness :
  students (fst (record_attendance Sample.Date_parse Sample.isGuid
                   Sample.Date_toISOString Sample.uuid_in Sample.date_in
                   Sample.school 7
                   (Sample.attendance_body Sample.liam (Json.Number 0)
                      Present)))
  = students Sample.school.
Proof.
  refine (proj1 (proj2 (record_attendance_keeps_rows
                   Sample.Date_parse Sample.isGuid Sample.Date_toISOString
                   Sample.uuid_in Sample.date_in Sample.school 7 _
                   {| Schemas.student_id := Sample.liam;
                      Schemas.av_date := 0;
                      Schemas.av_status := Present |} _ _))).
  - reflexivity.
  - simpl. repeat constructor. simpl. tauto.
Defined.

(** X6: a bulk submission that passes the schema, with distinct ids of
    students that exist and a date the store can read, is answered 201;
    the rows returned are one per submitted record, in the order
    submitted, with the submitted statuses and the one shared date, and
    each is the only stored record of its student on that date. *)
Theorem record_bulk_stores
  Date_parse isGuid Date_toISOString uuid_in date_in st ts body value us dd :
  Schemas.validate (Schemas.bulkAttendanceSchema Date_parse isGuid) body
    = Joi.Valid value ->
  NoDup (map s_id (students st)) ->
  NoDup (map key (attendance st)) ->
  read_all uuid_in (studentIds value) = Some us ->
  NoDup us -> incl us (map s_id (students st)) ->
  date_in (Date_toISOString (Schemas.bv_date value)) = Some dd ->
  exists st' rows,
    record_bulk Date_parse isGuid Date_toISOString uuid_in date_in st ts body
    = (st', respond 201
              (Success (map (enrich st') rows)
                 (Some (processed (List.length (Schemas.records value))))))
    /\ map a_student_id rows = us
    /\ map a_status rows = map Schemas.br_status (Schemas.records value)
    /\ Forall (fun r =>
                 a_date r = dd
                 /\ filter (same_key (a_student_id r) dd) (attendance st')
                    = [r])
              rows.
Proof.
  intros Hv Hpk Huniq Hread Hnd Hknown Hd.
  destruct (read_records_stamped uuid_in date_in
              (Date_toISOString (Schemas.bv_date value)) dd
              (Schemas.records value) us Hread Hd) as [rs [Hrs [Hkeys Hst]]].
  assert (NoDup (map fst rs)) as Hdist.
  { rewrite Hkeys. clear -Hnd.
    induction Hnd as [|u us Hnotin _ IH]; simpl; constructor; [|assumption].
    intros Hin. apply in_map_iff in Hin. destruct Hin as [v [E Hv]].
    inversion E; subst. contradiction. }
  pose proof (upsert_rows_shape ts rs st Huniq Hdist) as Hshape.
  pose proof (upsert_rows_length ts rs st) as Hlen.
  rewrite <- (length_map snd rs), Hst, length_map in Hlen.
  cbv zeta in Hshape.
  remember (upsert_rows ts st rs) as res eqn:Hres.
  destruct res as [st' written]. cbn [fst snd] in Hshape, Hlen.
  destruct Hshape as [Hw [Hincl [U2 _]]].
  assert (map key written = map (fun u => (u, dd)) us) as Hkw.
  { rewrite <- Hkeys, <- Hw, map_map. reflexivity. }
  exists st', written. split; [|split; [|split]].
  - unfold record_bulk. rewrite Hv. cbv zeta. rewrite attendanceRecords_ids.
    unfold select, in_, all_ready. rewrite Hread.
    cbn [option_map fold_right data ok]. rewrite select_in_matched.
    rewrite matched_count by assumption.
    rewrite (nodup_fixed_point string_dec Hnd).
    rewrite (read_all_length _ _ _ Hread), Nat.eqb_refl. cbn [negb].
    unfold upsert, attendanceRecords. rewrite Hrs.
    assert (forallb (fun r => mem (fst (fst r)) (map s_id (students st))) rs
            = true) as ->.
    { apply forallb_forall. intros r Hr. apply mem_In, Hknown.
      apply (in_map fst), (in_map fst) in Hr. rewrite Hkeys, map_map in Hr.
      simpl in Hr. now rewrite map_id in Hr. }
    apply distinct_keys_NoDup in Hdist. rewrite Hdist. cbn [negb].
    rewrite <- Hres. cbn [error data ok]. now rewrite Hlen.
  - apply (f_equal (map fst)) in Hkw. rewrite !map_map in Hkw.
    cbn [fst key] in Hkw. now rewrite map_id in Hkw.
  - rewrite <- Hst, <- Hw, map_map. reflexivity.
  - apply Forall_forall. intros r Hr.
    assert (a_date r = dd) as Hdate.
    { apply (in_map key) in Hr. rewrite Hkw in Hr.
      apply in_map_iff in Hr. destruct Hr as [u [E _]]. now inversion E. }
    split; [assumption|]. rewrite <- Hdate.
    apply filter_key_In; [assumption | now apply Hincl].
Qed.

Lemma record_bulk_stores_witness :
  status_code
    (snd (record_bulk Sample.Date_parse Sample.isGuid
            Sample.Date_toISOString Sample.uuid_in Sample.date_in
            Sample.school 7
            (Sample.bulk_body (Json.Number 0)
               [(Sample.emma, Present); (Sample.liam, Absent)])))
  = 201.
Proof.
  destruct (record_bulk_stores
              Sample.Date_parse Sample.isGuid Sample.Date_toISOString
              Sample.uuid_in Sample.date_in Sample.school 7
              (Sample.bulk_body (Json.Number 0)
                 [(Sample.emma, Present); (Sample.liam, Absent)])
              {| Schemas.bv_date := 0;
                 Schemas.records :=
                   [ {| Schemas.br_student_id := Sample.emma;
                        Schemas.br_status := Present |};
                     {| Schemas.br_student_id := Sample.liam;
                        Schemas.br_status := Absent |} ] |}
              [Sample.emma; Sample.liam] "1970-01-01")
    as [st' [rows [E _]]].
  - reflexivity.
  - simpl. repeat constructor; simpl; intuition discriminate.
  - simpl. repeat constructor. simpl. tauto.
  - reflexivity.
  - repeat constructor; simpl; intuition discriminate.
  - intros x Hx. simpl in *. intuition.
  - reflexivity.
  - rewrite E. reflexivity.
Defined.

(** X7: a bulk write that is not answered 201 leaves the store as it
    was; and under the primary key of students it is answered 201 only
    if the body passes the schema and the submitted ids are distinct ids
    of students that exist. *)
Theorem record_bulk_all_or_nothing
  Date_parse isGuid Date_toISOString uuid_in date_in st ts body :
  let r := record_bulk Date_parse isGuid Date_toISOString uuid_in date_in
             st ts body in
  (status_code (snd r) <> 201 -> fst r = st)
  /\ (status_code (snd r) = 201 -> NoDup (map s_id (students st)) ->
      exists value us,
        Schemas.validate (Schemas.bulkAttendanceSchema Date_parse isGuid)
          body = Joi.Valid value
        /\ read_all uuid_in (studentIds value) = Some us
        /\ NoDup us /\ incl us (map s_id (students st))).
Proof.
  cbv zeta. unfold record_bulk.
  destruct (Schemas.validate _ body) as [value|];
    [|split; [reflexivity | discriminate]].
  cbv zeta. rewrite attendanceRecords_ids. unfold select, in_, all_ready.
  destruct (read_all uuid_in (studentIds value)) as [us|] eqn:Hread;
    cbn [option_map fold_right data ok failed];
    [|split; [reflexivity | discriminate]].
  rewrite select_in_matched.
  destruct (Nat.eqb_spec (List.length (matched (students st) us))
                         (List.length (studentIds value))) as [E|_];
    cbn [negb]; [|split; [reflexivity | discriminate]].
  split.
  - destruct (upsert_cases uuid_in date_in st ts
                (attendanceRecords Date_toISOString value))
      as [[e ->] | [rs [_ [_ [_ ->]]]]]; [reflexivity|].
    simpl. intros H. now contradiction H.
  - intros _ Hpk. exists value, us. split; [reflexivity|].
    split; [exact Hread|].
    rewrite <- (read_all_length _ _ _ Hread) in E.
    split; [now apply (matched_all_distinct (students st))
           | now apply matched_all_known].
Qed.

Lemma record_bulk_all_or_nothing_witness :
  fst (record_bulk Sample.Date_parse Sample.isGuid Sample.Date_toISOString
         Sample.uuid_in Sample.date_in Sample.school 7 Json.Null)
  = Sample.school.
Proof.
  apply (proj1 (record_bulk_all_or_nothing
                  Sample.Date_parse Sample.isGuid Sample.Date_toISOString
                  Sample.uuid_in Sample.date_in Sample.school 7 Json.Null)).
  vm_compute. discriminate.
Defined.

(** X8: in a store that holds one record per (student, date) at most, a
    bulk write deletes and moves no record and changes no column of a
    stored record but the status, and the status only of records of
    submitted students on the submitted date; it adds no more records
    than were submitted and leaves classes and students alone. *)
Theorem record_bulk_keeps_rows
  Date_parse isGuid Date_toISOString uuid_in date_in st ts body value :
  Schemas.validate (Schemas.bulkAttendanceSchema Date_parse isGuid) body
    = Joi.Valid value ->
  NoDup (map key (attendance st)) ->
  let st' := fst (record_bulk Date_parse isGuid Date_toISOString
                    uuid_in date_in st ts body) in
  classes st' = classes st /\ students st' = students st
  /\ exists rows added,
       attendance st' = rows ++ added
       /\ List.length added <= List.length (Schemas.records value)
       /\ Forall2 (fun a b =>
                     same_but_status a b
                     /\ (a = b
                         \/ (exists s, In s (studentIds value)
                                       /\ uuid_in s = Some (a_student_id a))
                            /\ date_in (Date_toISOString
                                          (Schemas.bv_date value))
                               = Some (a_date a)))
                  (attendance st) rows.
Proof.
  intros Hv Huniq st'.
  assert (forall P : store -> Prop, P st ->
            P (fst (upsert uuid_in date_in st ts
                      (attendanceRecords Date_toISOString value))) -> P st')
    as Hcase.
  { intros P H0 H1. unfold st', record_bulk. rewrite Hv. cbv zeta.
    destruct (data (select _ _)); [|exact H0].
    destruct (negb _); [exact H0|].
    destruct (upsert _ _ st ts _) as [st1 r]. cbn [fst] in H1.
    destruct (error r); [exact H1|]. destruct (data r); exact H1. }
  assert (classes st = classes st /\ students st = students st
          /\ exists rows added,
               attendance st = rows ++ added
               /\ List.length added <= List.length (Schemas.records value)
               /\ Forall2 (fun a b =>
                     same_but_status a b
                     /\ (a = b
                         \/ (exists s, In s (studentIds value)
                                       /\ uuid_in s = Some (a_student_id a))
                            /\ date_in (Date_toISOString
                                          (Schemas.bv_date value))
                               = Some (a_date a)))
                  (attendance st) rows) as Hsame.
  { split; [reflexivity|]. split; [reflexivity|].
    exists (attendance st), []. rewrite app_nil_r.
    split; [reflexivity|]. split; [simpl; lia|].
    apply Forall2_refl. intros a. split; [repeat split | now left]. }
  apply Hcase; clear Hcase st'; [exact Hsame|].
  destruct (upsert_cases uuid_in date_in st ts
              (attendanceRecords Date_toISOString value))
    as [[e ->] | [rs [Hr [_ [Hnd ->]]]]]; cbn [fst]; [exact Hsame|].
  destruct (upsert_rows_shape ts rs st Huniq Hnd)
    as [_ [_ [_ [Hc [Hs [rows [added [Ha [Hl Hk]]]]]]]]].
  split; [assumption|]. split; [assumption|].
  exists rows, added. split; [assumption|]. split.
  - rewrite (read_records_length _ _ _ _ Hr) in Hl.
    unfold attendanceRecords in Hl. now rewrite length_map in Hl.
  - eapply Forall2_impl; [|exact Hk]. intros a b [Hsame' [->|Hin]].
    + split; [assumption | now left].
    + split; [assumption|]. right.
      destruct (read_records_In _ _ _ _ _ Hr Hin) as [rec [Hrec [Hu Hd]]].
      unfold attendanceRecords in Hrec. apply in_map_iff in Hrec.
      destruct Hrec as [r [<- Hr']]. cbn [fst snd] in Hu, Hd.
      split; [|exact Hd]. exists (Schemas.br_student_id r).
      split; [now apply in_map | exact Hu].
Qed.

Lemma record_bulk_keeps_rows_witness :
  students (fst (record_bulk Sample.Date_parse Sample.isGuid
                   Sample.Date_toISOString Sample.uuid_in Sample.date_in
                   Sample.school 7
                   (Sample.bulk_body (Json.Number 0)
                      [(Sample.liam, Present)])))
  = students Sample.school.
Proof.
  refine (proj1 (proj2 (record_bulk_keeps_rows
                   Sample.Date_parse Sample.isGuid Sample.Date_toISOString
                   Sample.uuid_in Sample.date_in Sample.school 7 _
                   {| Schemas.bv_date := 0;
                      Schemas.records :=
                        [ {| Schemas.br_student_id := Sample.liam;
                             Schemas.br_status := Present |} ] |} _ _))).
  - reflexivity.
  - simpl. repeat constructor. simpl. tauto.
Defined.

(** X9: both attendance writes keep the constraints of the schema:
    from a store in which the primary keys, the foreign keys and the
    uniqueness of (student_id, date) hold they lead to a store in which
    they hold. *)
Theorem attendance_writes_keep_constraints
  Date_parse isGuid Date_toISOString uuid_in date_in st ts body :
  holds st ->
  holds (fst (record_attendance Date_parse isGuid Date_toISOString
                uuid_in date_in st ts body))
  /\ holds (fst (record_bulk Date_parse isGuid Date_toISOString
                   uuid_in date_in st ts body)).
Proof.
  intros Hst.
  assert (forall recs, holds (fst (upsert uuid_in date_in st ts recs)))
    as Hup.
  { intros recs.
    destruct (upsert_cases uuid_in date_in st ts recs)
      as [[e ->] | [rs [_ [Hknown [_ ->]]]]]; [assumption|].
    now apply upsert_rows_holds. }
  split.
  - unfold record_attendance.
    destruct (Schemas.validate _ body) as [value|]; [|assumption].
    destruct (data (single _)); [|assumption].
    specialize (Hup [(Schemas.student_id value,
                      Date_toISOString (Schemas.av_date value),
                      Schemas.av_status value)]).
    destruct (upsert _ _ st ts _) as [st1 r]. cbn [fst] in Hup.
    destruct (error (single r)); [assumption|].
    now destruct (data (single r)).
  - unfold record_bulk.
    destruct (Schemas.validate _ body) as [value|]; [|assumption]. cbv zeta.
    destruct (data (select _ _)); [|assumption].
    destruct (negb _); [assumption|].
    specialize (Hup (attendanceRecords Date_toISOString value)).
    destruct (upsert _ _ st ts _) as [st1 r]. cbn [fst] in Hup.
    destruct (error r); [assumption|]. now destruct (data r).
Qed.

Lemma school_holds : holds Sample.school.
Proof.
  constructor; simpl; repeat constructor; simpl; try lia;
    intuition discriminate.
Qed.

Lemma attendance_writes_keep_constraints_witness :
  holds (fst (record_attendance Sample.Date_parse Sample.isGuid
                Sample.Date_toISOString Sample.uuid_in Sample.date_in
                Sample.school 7
                (Sample.attendance_body Sample.liam (Json.Number 0)
                   Present))).
Proof.
  exact (proj1 (attendance_writes_keep_constraints
                  Sample.Date_parse Sample.isGuid Sample.Date_toISOString
                  Sample.uuid_in Sample.date_in Sample.school 7
                  (Sample.attendance_body Sample.liam (Json.Number 0)
                     Present)
                  school_holds)).
Defined.

End AttendanceWrites.
(** ** The schema of the bulk route *)
Module BulkSchema.
Import Schemas.

Lemma bind_Valid {A B} (r : Joi.result A) (k : A -> Joi.result B) b :
  Joi.bind r k = Joi.Valid b -> exists a, r = Joi.Valid a /\ k a = Joi.Valid b.
Proof. destruct r as [a|d]; simpl; [now exists a | discriminate]. Qed.

Lemma items_Valid {A} (item : Joi.validator A) l : forall i p vs,
  Joi.items item l i p = Joi.Valid vs ->
  Forall2 (fun j v => exists q, item j q = Joi.Valid v) l vs.
Proof.
  induction l as [|j l IH]; simpl; intros i p vs H.
  - inversion H. constructor.
  - apply bind_Valid in H. destruct H as [a [Ha H]].
    apply bind_Valid in H. destruct H as [rest [Hrest H]].
    inversion H; subst. constructor; [now exists (p ++ [Joi.Index i])|].
    now apply (IH (S i) p).
Qed.

Lemma valid_statuses j p x :
  Joi.valid statuses j p = Joi.Valid x -> j = Json.Str (status_name x).
Proof.
  unfold Joi.valid. destruct j as [| | |s| |]; try discriminate.
  unfold statuses. cbn [Joi.assoc].
  destruct (String.eqb_spec s "Present") as [->|_];
    [intros H; inversion H; reflexivity|].
  destruct (String.eqb_spec s "Absent") as [->|_];
    [intros H; inversion H; reflexivity|].
  destruct (String.eqb_spec s "Late") as [->|_];
    [intros H; inversion H; reflexivity|].
  destruct (String.eqb_spec s "Excused") as [->|_];
    [intros H; inversion H; reflexivity | discriminate].
Qed.

Lemma bulkRecordSchema_Valid isGuid j p r :
  bulkRecordSchema isGuid j p = Joi.Valid r ->
  exists o, j = Json.Object o
            /\ Json.get o "student_id" = Some (Json.Str (br_student_id r))
            /\ isGuid (br_student_id r) = true
            /\ Json.get o "status"
               = Some (Json.Str (status_name (br_status r))).
Proof.
  unfold bulkRecordSchema, Joi.object.
  destruct j as [| | | | |o]; try discriminate. intros H.
  apply bind_Valid in H. destruct H as [a [Ha H]].
  apply bind_Valid in H. destruct H as [_ [_ H]]. inversion H; subst a.
  clear H. apply bind_Valid in Ha. destruct Ha as [s [Hs Ha]].
  apply bind_Valid in Ha. destruct Ha as [x [Hx Ha]]. inversion Ha; subst r.
  cbn [br_student_id br_status]. exists o. split; [reflexivity|].
  unfold Joi.key, Joi.required in Hs, Hx.
  destruct (Json.get o "student_id") as [js|] eqn:Gs; [|discriminate].
  destruct (Json.get o "status") as [jx|] eqn:Gx; [|discriminate].
  apply valid_statuses in Hx. subst jx.
  unfold Joi.uuid in Hs. apply bind_Valid in Hs. destruct Hs as [s' [Hs' Hs]].
  destruct (isGuid s') eqn:G; [|discriminate]. inversion Hs; subst s'.
  unfold Joi.string in Hs'.
  destruct js as [| | |s0| |]; try discriminate.
  destruct s0; [discriminate|]. inversion Hs'. subst s. tauto.
Qed.

(** X10: a body the bulk schema accepts is an object whose [date] reads
    as the date of the value and whose [records] is a non-empty array;
    the records of the value are its items, one for one and in order,
    each an object with a well-formed id and one of the four statuses. A
    body with a readable date and no items under [records] is rejected at
    [records] by the rule [array.min]. *)
Theorem bulkAttendanceSchema_accepts Date_parse isGuid :
  (forall body value,
     validate (bulkAttendanceSchema Date_parse isGuid) body
       = Joi.Valid value ->
     exists o j l,
       body = Json.Object o
       /\ Json.get o "date" = Some j
       /\ Joi.to_Date Date_parse j = Some (bv_date value)
       /\ Json.get o "records" = Some (Json.Array l)
       /\ l <> []
       /\ Forall2
            (fun item r =>
               exists o',
                 item = Json.Object o'
                 /\ Json.get o' "student_id"
                    = Some (Json.Str (br_student_id r))
                 /\ isGuid (br_student_id r) = true
                 /\ Json.get o' "status"
                    = Some (Json.Str (status_name (br_status r))))
            l (records value))
  /\ (forall o j t,
        Json.get o "date" = Some j -> Joi.to_Date Date_parse j = Some t ->
        Json.get o "records" = Some (Json.Array []) ->
        validate (bulkAttendanceSchema Date_parse isGuid) (Json.Object o)
        = Joi.Invalid {| Joi.type := "array.min";
                         Joi.path := [Joi.Key "records"] |}).
Proof.
  split.
  - intros body value. unfold validate, bulkAttendanceSchema, Joi.object.
    destruct body as [| | | | |o]; try discriminate. intros H.
    apply bind_Valid in H. destruct H as [a [Ha H]].
    apply bind_Valid in H. destruct H as [_ [_ H]]. inversion H; subst a.
    clear H. apply bind_Valid in Ha. destruct Ha as [t [Ht Ha]].
    apply bind_Valid in Ha. destruct Ha as [rs [Hrs Ha]].
    inversion Ha; subst value. cbn [bv_date records].
    unfold Joi.key, Joi.required in Ht, Hrs.
    destruct (Json.get o "date") as [j|] eqn:Hj; [|discriminate].
    destruct (Json.get o "records") as [jr|] eqn:Hr; [|discriminate].
    unfold Joi.date in Ht.
    destruct (Joi.to_Date Date_parse j) as [t'|] eqn:Hd; [|discriminate].
    injection Ht as ->.
    unfold Joi.array_items_min in Hrs.
    destruct jr as [| | | |l|]; try discriminate.
    apply bind_Valid in Hrs. destruct Hrs as [vs [Hvs Hrs]].
    destruct (Nat.ltb_spec (List.length l) 1) as [|Hlen]; [discriminate|].
    inversion Hrs; subst vs.
    exists o, j, l. split; [reflexivity|]. split; [exact Hj|].
    split; [exact Hd|]. split; [exact Hr|].
    split; [intros ->; simpl in Hlen; lia|].
    apply items_Valid in Hvs.
    eapply Forall2_impl; [|exact Hvs]. intros item r [q Hq].
    now apply (bulkRecordSchema_Valid isGuid item q r).
  - intros o j t Hj Ht Hr.
    unfold validate, bulkAttendanceSchema, Joi.object, Joi.key, Joi.required.
    rewrite Hj, Hr. unfold Joi.date. rewrite Ht. reflexivity.
Qed.

Lemma bulkAttendanceSchema_accepts_witness :
  validate (bulkAttendanceSchema Sample.Date_parse Sample.isGuid)
    (Sample.bulk_body (Json.Number 0) [])
  = Joi.Invalid {| Joi.type := "array.min";
                   Joi.path := [Joi.Key "records"] |}.
Proof.
  refine (proj2 (bulkAttendanceSchema_accepts Sample.Date_parse Sample.isGuid)
                _ (Json.Number 0) 0%Z _ _ _); reflexivity.
Defined.

End BulkSchema.
(** ** The attendance list, continued *)
Module ListFacts.
Import Supabase SupabaseFacts Routes RoutesFacts.

Lemma all_ready_In {R} (fs : list (option (R -> bool))) gs f :
  all_ready fs = Some gs -> In f fs -> exists g, f = Some g /\ In g gs.
Proof.
  revert gs. induction fs as [|f' fs IH]; simpl; intros gs H Hin.
  - contradiction.
  - destruct f' as [g'|]; [|discriminate].
    destruct (all_ready fs) as [gs'|] eqn:E; [|discriminate].
    injection H as <-. destruct Hin as [<-|Hin].
    + exists g'. split; [reflexivity | now left].
    + destruct (IH gs' eq_refl Hin) as [g [Hg Hin']].
      exists g. split; [assumption | now right].
Qed.

Lemma all_ready_None {R} (fs : list (option (R -> bool))) :
  In None fs -> all_ready fs = None.
Proof.
  induction fs as [|f fs IH]; intros Hin; [contradiction|].
  change (all_ready (f :: fs))
    with (match f, all_ready fs with
          | Some g, Some gs => Some (g :: gs)
          | _, _ => None
          end).
  destruct Hin as [->|Hin]; [reflexivity|].
  rewrite (IH Hin). now destruct f.
Qed.

Lemma when_In {R} (x : option string) (f : string -> option (R -> bool)) s :
  x = Some s -> s <> "" -> In (f s) (when x f).
Proof. intros -> Hs. destruct s; [contradiction | now left]. Qed.

Lemma In_firstn {A} n (l : list A) x : In x (firstn n l) -> In x l.
Proof.
  intros H. rewrite <- (firstn_skipn n l). apply in_or_app. now left.
Qed.

Lemma In_skipn {A} n (l : list A) x : In x (skipn n l) -> In x l.
Proof.
  intros H. rewrite <- (firstn_skipn n l). apply in_or_app. now right.
Qed.

Lemma Sorted_skipn {A} (R : A -> A -> Prop) n : forall l,
  Sorted R l -> Sorted R (skipn n l).
Proof.
  induction n as [|n IH]; intros l H; [assumption|].
  destruct l as [|a l]; [constructor|]. simpl. apply IH.
  now inversion H.
Qed.

Lemma Sorted_firstn {A} (R : A -> A -> Prop) n : forall l,
  Sorted R l -> Sorted R (firstn n l).
Proof.
  induction n as [|n IH]; intros l H; [constructor|].
  destruct l as [|a l]; [constructor|]. simpl.
  inversion H as [|? ? Hs Hhd]; subst. constructor; [now apply IH|].
  destruct l as [|b l]; [destruct n; constructor|].
  destruct n; simpl; constructor. now inversion Hhd.
Qed.

Lemma Sorted_map {A B} (R : A -> A -> Prop) (f : B -> A) l :
  Sorted R (map f l) -> Sorted (fun a b => R (f a) (f b)) l.
Proof.
  induction l as [|a l IH]; simpl; intros H; [constructor|].
  inversion H as [|? ? Hs Hhd]; subst. constructor; [now apply IH|].
  destruct l as [|b l]; constructor. now inversion Hhd.
Qed.

Lemma newest_first_total a b :
  newest_first a b = true \/ newest_first b a = true.
Proof.
  unfold newest_first. rewrite (String.eqb_sym (a_date b) (a_date a)).
  destruct (String.eqb (a_date a) (a_date b)).
  - rewrite !Z.leb_le. lia.
  - destruct (String.leb_total (a_date a) (a_date b)); tauto.
Qed.

Lemma embed_student_row st keep l :
  map e_row (map (embed_student st keep) l) = l.
Proof. rewrite map_map. simpl. apply map_id. Qed.

(** The page of a request that is answered 200: rows of the store that
    pass the row filters, a stretch of them in the ordering. *)
Lemma list_attendance_page uuid_in date_in st q p :
  list_attendance uuid_in date_in st q = respond 200 (Success p None) ->
  exists gs off lim,
    all_ready (when (q_student_id q) (eq uuid_in a_student_id)
               ++ when (q_date q) (eq date_in a_date)
               ++ when (q_start_date q) (gte date_in a_date)
               ++ when (q_end_date q) (lte date_in a_date)
               ++ when (q_status q) (eq_status)) = Some gs
    /\ map e_row (p_data p)
       = firstn lim
           (skipn off
              (order_by newest_first
                 (filter (fun r => forallb (fun g => g r) gs)
                         (attendance st)))).
Proof.
  unfold list_attendance. cbv zeta.
  destruct (all_ready (when (q_class_id q) _)) as [keep|];
    [|discriminate].
  unfold select.
  destruct (all_ready (when (q_student_id q) _ ++ _)) as [gs|];
    [|unfold range; destruct (pg_nat _); [destruct (pg_nat _)|]; discriminate].
  unfold range.
  destruct (pg_nat _) as [off|]; [|discriminate].
  destruct (pg_nat _) as [lim|]; [|discriminate].
  cbn [map_reply ok data error option_map]. intros H.
  injection H as <-. exists gs, off, lim. split; [reflexivity|].
  cbn [p_data]. apply embed_student_row.
Qed.

(** X11: every row of a page answered 200 is a row of the store that
    passes each of the filters the request names: the student, the exact
    date, the start and the end of the date range, and the status. The
    rows come newest first: each row's date is not before the next row's,
    and on the same date it was not created before the next row. *)
Theorem list_attendance_page_rows uuid_in date_in st q p :
  list_attendance uuid_in date_in st q = respond 200 (Success p None) ->
  Forall (fun e =>
            In (e_row e) (attendance st)
            /\ (forall s, q_student_id q = Some s -> s <> "" ->
                  uuid_in s = Some (a_student_id (e_row e)))
            /\ (forall s, q_date q = Some s -> s <> "" ->
                  date_in s = Some (a_date (e_row e)))
            /\ (forall s, q_start_date q = Some s -> s <> "" ->
                  exists d, date_in s = Some d
                            /\ String.leb d (a_date (e_row e)) = true)
            /\ (forall s, q_end_date q = Some s -> s <> "" ->
                  exists d, date_in s = Some d
                            /\ String.leb (a_date (e_row e)) d = true)
            /\ (forall s, q_status q = Some s -> s <> "" ->
                  s = status_name (a_status (e_row e))))
         (p_data p)
  /\ Sorted (fun a b =>
               String.leb (a_date (e_row b)) (a_date (e_row a)) = true
               /\ (a_date (e_row a) = a_date (e_row b) ->
                   (a_created_at (e_row b) <= a_created_at (e_row a))%Z))
            (p_data p).
Proof.
  intros H. destruct (list_attendance_page _ _ _ _ _ H)
    as [gs [off [lim [Hgs Hrows]]]].
  split.
  - apply Forall_forall. intros e He.
    apply (in_map e_row) in He. rewrite Hrows in He.
    apply In_firstn, In_skipn in He.
    apply (Permutation_in _ (order_by_perm newest_first _)) in He.
    apply filter_In in He. destruct He as [Hin Hpass].
    rewrite forallb_forall in Hpass.
    assert (forall f, In f (when (q_student_id q) (eq uuid_in a_student_id)
                 ++ when (q_date q) (eq date_in a_date)
                 ++ when (q_start_date q) (gte date_in a_date)
                 ++ when (q_end_date q) (lte date_in a_date)
                 ++ when (q_status q) (eq_status)) ->
              exists g, f = Some g /\ g (e_row e) = true) as Hf.
    { intros f Hfin. destruct (all_ready_In _ _ _ Hgs Hfin) as [g [-> Hg]].
      exists g. split; [reflexivity | now apply Hpass]. }
    split; [assumption|]. repeat split.
    + intros s Hq Hs.
      destruct (Hf (eq uuid_in a_student_id s)) as [g [Eg Hg]].
      { apply in_or_app. left. now apply when_In. }
      unfold eq in Eg. destruct (uuid_in s) as [u|]; [|discriminate].
      injection Eg as <-. apply String.eqb_eq in Hg. now rewrite Hg.
    + intros s Hq Hs. destruct (Hf (eq date_in a_date s)) as [g [Eg Hg]].
      { apply in_or_app. right. apply in_or_app. left. now apply when_In. }
      unfold eq in Eg. destruct (date_in s) as [u|]; [|discriminate].
      injection Eg as <-. apply String.eqb_eq in Hg. now rewrite Hg.
    + intros s Hq Hs. destruct (Hf (gte date_in a_date s)) as [g [Eg Hg]].
      { do 2 (apply in_or_app; right). apply in_or_app. left.
        now apply when_In. }
      unfold gte in Eg. destruct (date_in s) as [u|]; [|discriminate].
      injection Eg as <-. now exists u.
    + intros s Hq Hs. destruct (Hf (lte date_in a_date s)) as [g [Eg Hg]].
      { do 3 (apply in_or_app; right). apply in_or_app. left.
        now apply when_In. }
      unfold lte in Eg. destruct (date_in s) as [u|]; [|discriminate].
      injection Eg as <-. now exists u.
    + intros s Hq Hs. destruct (Hf (eq_status s)) as [g [Eg Hg]].
      { do 4 (apply in_or_app; right). now apply when_In. }
      unfold eq_status in Eg.
      destruct (Joi.assoc Schemas.statuses s) as [x|] eqn:Ex; [|discriminate].
      injection Eg as <-.
      destruct (status_eqb_spec (a_status (e_row e)) x) as [<-|];
        [|discriminate].
      assert (Joi.valid Schemas.statuses (Json.Str s) []
              = Joi.Valid (a_status (e_row e))) as Hv
        by (unfold Joi.valid; now rewrite Ex).
      apply BulkSchema.valid_statuses in Hv. now injection Hv.
  - pose proof (order_by_sorted newest_first newest_first_total
                  (filter (fun r => forallb (fun g => g r) gs)
                          (attendance st))) as Hs.
    apply (Sorted_skipn _ off), (Sorted_firstn _ lim) in Hs.
    rewrite <- Hrows in Hs. apply Sorted_map in Hs.
    clear Hrows. revert Hs. generalize (p_data p). intros l.
    induction l as [|a l IH]; intros Hs; [constructor|].
    inversion Hs as [|? ? Hl Hhd]; subst.
    constructor; [now apply IH|].
    destruct Hhd as [|b l' Hab]; constructor.
    unfold newest_first in Hab.
    destruct (String.eqb_spec (a_date (e_row a)) (a_date (e_row b)))
      as [E|Hne].
    + split; [|intros _; now apply Z.leb_le].
      rewrite E. destruct (String.leb_total (a_date (e_row b))
                                            (a_date (e_row b))); assumption.
    + split; [assumption | intros E; contradiction].
Qed.

Lemma list_attendance_page_rows_witness :
  Forall (fun e => In (e_row e) (attendance Sample.register))
    (map (enrich Sample.register)
         (firstn 100 (order_by newest_first (attendance Sample.register)))).
Proof.
  eapply Forall_impl;
    [|exact (proj1 (list_attendance_page_rows Sample.uuid_in Sample.date_in
                      Sample.register Sample.no_filter _
                      (list_attendance_default_page Sample.uuid_in
                         Sample.date_in Sample.register)))].
  intros e H. exact (proj1 H).
Defined.

(** X12: a request that names a student, class or date the store cannot
    read, or a status that is none of the four, is answered 500 "Failed to
    fetch attendance records". *)
Theorem list_attendance_unreadable uuid_in date_in st q s :
  s <> "" ->
  (q_student_id q = Some s /\ uuid_in s = None)
  \/ (q_class_id q = Some s /\ uuid_in s = None)
  \/ (q_date q = Some s /\ date_in s = None)
  \/ (q_start_date q = Some s /\ date_in s = None)
  \/ (q_end_date q = Some s /\ date_in s = None)
  \/ (q_status q = Some s /\ Joi.assoc Schemas.statuses s = None) ->
  list_attendance uuid_in date_in st q
  = respond 500 (Failure (Message "Failed to fetch attendance records")).
Proof.
  intros Hs Hbad. unfold list_attendance. cbv zeta.
  assert (forall r : reply (list enriched), error r <> None ->
            match error r with
            | Some _ =>
                respond 500
                  (Failure (Message "Failed to fetch attendance records"))
            | None =>
                respond 200
                  (Success
                     {| p_data := match data r with
                                  | Some l => l
                                  | None => []
                                  end;
                        p_limit :=
                          Js.parseInt
                            match q_limit q with
                            | Some s => Js.Text s
                            | None => Js.Num 100
                            end;
                        p_offset :=
                          Js.parseInt
                            match q_offset q with
                            | Some s => Js.Text s
                            | None => Js.Num 0
                            end |} None)
            end
            = respond 500
                (Failure (Message "Failed to fetch attendance records")))
    as Hfail.
  { intros r Hr. destruct (error r); [reflexivity | contradiction]. }
  destruct (all_ready (when (q_class_id q) _)) as [keep|] eqn:Hkeep.
  - assert (all_ready
              (when (q_student_id q) (eq uuid_in a_student_id)
               ++ when (q_date q) (eq date_in a_date)
               ++ when (q_start_date q) (gte date_in a_date)
               ++ when (q_end_date q) (lte date_in a_date)
               ++ when (q_status q) (eq_status)) = None) as Hnone.
    { apply all_ready_None.
      destruct Hbad as [[Hq E]|[[Hq E]|[[Hq E]|[[Hq E]|[[Hq E]|[Hq E]]]]]].
      - apply in_or_app. left.
        replace None with (eq uuid_in a_student_id s)
          by (unfold eq; now rewrite E).
        now apply when_In.
      - exfalso.
        assert (In (eq uuid_in s_class_id s)
                   (when (q_class_id q) (eq uuid_in s_class_id))) as Hin
          by now apply when_In.
        destruct (all_ready_In _ _ _ Hkeep Hin) as [g [Eg _]].
        unfold eq in Eg. now rewrite E in Eg.
      - apply in_or_app. right. apply in_or_app. left.
        replace None with (eq date_in a_date s)
          by (unfold eq; now rewrite E).
        now apply when_In.
      - do 2 (apply in_or_app; right). apply in_or_app. left.
        replace None with (gte date_in a_date s)
          by (unfold gte; now rewrite E).
        now apply when_In.
      - do 3 (apply in_or_app; right). apply in_or_app. left.
        replace None with (lte date_in a_date s)
          by (unfold lte; now rewrite E).
        now apply when_In.
      - do 4 (apply in_or_app; right).
        replace None with (eq_status s)
          by (unfold eq_status; now rewrite E).
        now apply when_In. }
    apply Hfail. unfold select. rewrite Hnone. unfold range.
    destruct (pg_nat _); [destruct (pg_nat _)|]; discriminate.
  - apply Hfail. discriminate.
Qed.

Lemma list_attendance_unreadable_witness :
  list_attendance Sample.uuid_in Sample.date_in Sample.register
    {| q_student_id := None; q_class_id := None;
       q_date := Some "yesterday"; q_start_date := None;
       q_end_date := None; q_status := None;
       q_limit := None; q_offset := None |}
  = respond 500 (Failure (Message "Failed to fetch attendance records")).
Proof.
  apply (list_attendance_unreadable Sample.uuid_in Sample.date_in
           Sample.register _ "yesterday").
  - discriminate.
  - right. right. left. split; reflexivity.
Defined.



End ListFacts.
(** ** The class-and-date view, continued *)
Module ClassDateFacts.
Import Supabase SupabaseFacts Routes RoutesFacts.

(** X14: the class-and-date view of a class without students, which
    includes a class that does not exist, is answered 200 with an empty
    list of students; a class id or a date the store cannot read is
    answered 500 "Failed to fetch class attendance". *)
Theorem class_attendance_edges uuid_in date_in name_le st classId date :
  (uuid_in classId = None \/ date_in date = None ->
   class_attendance uuid_in date_in name_le st classId date
   = respond 500 (Failure (Message "Failed to fetch class attendance")))
  /\ (forall u dd,
        uuid_in classId = Some u -> date_in date = Some dd ->
        (forall s, In s (students st) -> s_class_id s <> u) ->
        class_attendance uuid_in date_in name_le st classId date
        = respond 200
            (Success {| cd_date := date; cd_class_id := classId;
                        cd_students := [] |} None)).
Proof.
  split.
  - intros Hbad. unfold class_attendance, getClassAttendanceForDate.
    unfold select, eq, in_.
    destruct (uuid_in classId) as [u|]; [|reflexivity].
    destruct Hbad as [Hbad|Hbad]; [discriminate|]. rewrite Hbad.
    cbn [option_map all_ready fold_right map_reply ok data error].
    now destruct (read_all uuid_in _).
  - intros u dd Hu Hd Hnone.
    unfold class_attendance, getClassAttendanceForDate.
    unfold select, eq, in_, all_ready. rewrite Hu, Hd.
    cbn [option_map fold_right map_reply ok data error].
    rewrite filter_none.
    + reflexivity.
    + intros s Hs. cbn [forallb]. rewrite andb_true_r.
      destruct (String.eqb_spec (s_class_id s) u); [|reflexivity].
      exfalso. now apply (Hnone s).
Qed.

Lemma class_attendance_edges_witness :
  class_attendance Sample.uuid_in Sample.date_in String.leb Sample.school
    Sample.nobody "1970-01-01"
  = respond 200
      (Success {| cd_date := "1970-01-01"; cd_class_id := Sample.nobody;
                  cd_students := [] |} None).
Proof.
  refine (proj2 (class_attendance_edges Sample.uuid_in Sample.date_in
                   String.leb Sample.school Sample.nobody "1970-01-01")
                Sample.nobody "1970-01-01" _ _ _).
  - reflexivity.
  - reflexivity.
  - intros s [<-|[<-|[]]]; discriminate.
Defined.

End ClassDateFacts.

(** ** The classes router *)
Module ClassesFacts.
Import Supabase SupabaseFacts Routes RoutesFacts Constraints Tables Classes.

Lemma classSchema_Valid Number_parse body value :
  Schemas.validate (Schemas.classSchema Number_parse) body = Joi.Valid value ->
  (1 <= Schemas.grade value <= 12)%Z.
Proof.
  unfold Schemas.validate, Schemas.classSchema, Joi.object.
  destruct body as [| | | | |o]; try discriminate. intros H.
  apply BulkSchema.bind_Valid in H. destruct H as [a [Ha H]].
  apply BulkSchema.bind_Valid in H. destruct H as [_ [_ H]].
  inversion H; subst a. clear H.
  apply BulkSchema.bind_Valid in Ha. destruct Ha as [n [_ Ha]].
  apply BulkSchema.bind_Valid in Ha. destruct Ha as [g [Hg Ha]].
  inversion Ha; subst value. cbn [Schemas.grade].
  unfold Joi.key, Joi.required in Hg.
  destruct (Json.get o "grade") as [j|]; [|discriminate].
  unfold Joi.number_max in Hg. apply BulkSchema.bind_Valid in Hg.
  destruct Hg as [z [Hz Hg]].
  destruct (Z.ltb_spec 12 z); [discriminate|]. inversion Hg; subst z.
  unfold Joi.number_min in Hz. apply BulkSchema.bind_Valid in Hz.
  destruct Hz as [z [_ Hz]].
  destruct (Z.ltb_spec z 1); [discriminate|]. inversion Hz; subst z. lia.
Qed.

Lemma int4_in_grade g : (1 <= g <= 12)%Z -> int4_in g = Some g.
Proof.
  intros H. unfold int4_in.
  destruct (Z.leb_spec (- 2 ^ 31) g); [|lia].
  destruct (Z.ltb_spec g (2 ^ 31)); [reflexivity | lia].
Qed.

Lemma grade_check_spec g : grade_check g = true <-> (1 <= g <= 12)%Z.
Proof. unfold grade_check. rewrite andb_true_iff, !Z.leb_le. tauto. Qed.

(** The duplicate check of [POST /api/classes]. *)
Lemma select_named st n g :
  (1 <= g <= 12)%Z ->
  select (classes st) [eq text_in c_class_name n; eq_int c_grade g]
  = ok (named st n g).
Proof.
  intros Hg. unfold select, eq, eq_int, text_in. rewrite (int4_in_grade g Hg).
  cbn [option_map all_ready fold_right]. unfold named. f_equal.
  apply filter_ext. intros c. cbn [forallb]. now rewrite andb_true_r.
Qed.

Lemma named_In st n g c :
  In c (named st n g) <-> In c (classes st) /\ name_grade c = (n, g).
Proof.
  unfold named, name_grade. rewrite filter_In, andb_true_iff.
  rewrite String.eqb_eq, Z.eqb_eq. split.
  - intros [H [-> ->]]. tauto.
  - intros [H E]. inversion E. tauto.
Qed.

(** X15: for a body that passes the schema, [POST /api/classes] answers
    400, and writes nothing, when exactly one class holds the name and
    grade. When none does the class is stored after the others, with the
    generated id, and the answer is 201 with the stored row; so it is
    when two or more classes hold the name and grade already. *)
Theorem create_class_checks_duplicates Number_parse gen now st body value :
  Schemas.validate (Schemas.classSchema Number_parse) body = Joi.Valid value ->
  let n := List.length
             (named st (Schemas.class_name value) (Schemas.grade value)) in
  let row := {| c_id := gen; c_class_name := Schemas.class_name value;
                c_grade := Schemas.grade value; c_created_at := now |} in
  (n = 1 ->
   create_class Number_parse gen now st body
   = (st, respond 400 (Failure (Message duplicate))))
  /\ (n <> 1 -> ~ In gen (map c_id (classes st)) ->
      create_class Number_parse gen now st body
      = (with_classes st (classes st ++ [row]),
         respond 201 (Success row (Some "Class created successfully")))).
Proof.
  intros Hv n row. pose proof (classSchema_Valid _ _ _ Hv) as Hg.
  unfold create_class. rewrite Hv, (select_named st _ _ Hg).
  subst n. unfold single. cbn [data ok].
  destruct (named st (Schemas.class_name value) (Schemas.grade value))
    as [|c [|c' l]]; cbn [List.length data ok failed]; split;
    try (intros H; discriminate H); try reflexivity;
    try (intros H; now contradiction H); intros _ Hgen;
    unfold insert_class; rewrite (int4_in_grade _ Hg);
    rewrite (proj2 (grade_check_spec _) Hg); cbn [negb];
    (destruct (mem gen (map c_id (classes st))) eqn:M;
     [apply mem_In in M; contradiction | reflexivity]).
Qed.

Lemma create_class_checks_duplicates_witness :
  create_class Sample.Number_parse Sample.class_3A 7 Sample.school
    (Json.Object [("class_name", Json.Str "3A");
                  ("grade", Json.Number (3 # 1))])
  = (Sample.school, respond 400 (Failure (Message duplicate))).
Proof.
  refine (proj1 (create_class_checks_duplicates Sample.Number_parse
                   Sample.class_3A 7 Sample.school _
                   {| Schemas.class_name := "3A"; Schemas.grade := 3 |} _)
                _); reflexivity.
Defined.

(** *** Reading a class *)

Lemma select_class_id uuid_in st id u :
  uuid_in id = Some u ->
  select (classes st) [eq uuid_in c_id id]
  = ok (filter (fun c => String.eqb (c_id c) u) (classes st)).
Proof.
  intros Hu. unfold select, eq. rewrite Hu.
  cbn [option_map all_ready fold_right]. f_equal.
  apply filter_ext. intros c. cbn [forallb]. now rewrite andb_true_r.
Qed.

Lemma filter_pkey {A} (f : A -> string) l a :
  NoDup (map f l) -> In a l ->
  filter (fun x => String.eqb (f x) (f a)) l = [a].
Proof.
  induction l as [|b l IH]; simpl; intros Hnd Hin; [contradiction|].
  inversion Hnd as [|? ? Hnotin Hnd']; subst.
  destruct Hin as [->|Hin].
  - rewrite String.eqb_refl. f_equal. apply filter_none.
    intros x Hx. destruct (String.eqb_spec (f x) (f a)) as [E|]; [|reflexivity].
    exfalso. apply Hnotin. rewrite <- E. now apply in_map.
  - destruct (String.eqb_spec (f b) (f a)) as [E|_]; [|now apply IH].
    exfalso. apply Hnotin. rewrite E. now apply in_map.
Qed.

Lemma filter_missing {A} (f : A -> string) l u :
  ~ In u (map f l) -> filter (fun x => String.eqb (f x) u) l = [].
Proof.
  intros H. apply filter_none. intros x Hx.
  destruct (String.eqb_spec (f x) u) as [E|]; [|reflexivity].
  exfalso. apply H. rewrite <- E. now apply in_map.
Qed.

(** X16: under the primary key, [GET /api/classes/:id] answers 200 with
    the class of that id and, embedded, exactly the students whose class
    it is; for an id that no class has, or that the store cannot read,
    it answers 500 "Failed to fetch class". It never answers 404. *)
Theorem get_class_found uuid_in st id :
  (forall c, NoDup (map c_id (classes st)) -> In c (classes st) ->
             uuid_in id = Some (c_id c) ->
             get_class uuid_in st id
             = respond 200
                 (Success
                    {| cv_class := c;
                       cv_students :=
                         filter (fun s => String.eqb (s_class_id s) (c_id c))
                                (students st) |} None))
  /\ ((forall u, uuid_in id = Some u -> ~ In u (map c_id (classes st))) ->
      get_class uuid_in st id
      = respond 500 (Failure (Message "Failed to fetch class")))
  /\ status_code (get_class uuid_in st id) <> 404.
Proof.
  split; [|split].
  - intros c Hpk Hin Hu. unfold get_class.
    rewrite (select_class_id _ _ _ _ Hu), (filter_pkey c_id _ c Hpk Hin).
    reflexivity.
  - intros Hmissing. unfold get_class.
    destruct (uuid_in id) as [u|] eqn:Hu.
    + rewrite (select_class_id _ _ _ _ Hu).
      rewrite (filter_missing c_id _ u (Hmissing u eq_refl)). reflexivity.
    + unfold select, eq. rewrite Hu. reflexivity.
  - unfold get_class, select, eq.
    destruct (uuid_in id) as [u|]; [|discriminate].
    cbn [option_map all_ready fold_right map_reply data error ok].
    destruct (filter _ (classes st)) as [|c [|c' l]]; discriminate.
Qed.

Lemma get_class_found_witness :
  get_class Sample.uuid_in Sample.school Sample.class_3A
  = respond 200
      (Success
         {| cv_class := {| c_id := Sample.class_3A; c_class_name := "3A";
                           c_grade := 3; c_created_at := 0 |};
            cv_students := students Sample.school |} None).
Proof.
  refine (proj1 (get_class_found Sample.uuid_in Sample.school
                   Sample.class_3A)
                {| c_id := Sample.class_3A; c_class_name := "3A";
                   c_grade := 3; c_created_at := 0 |} _ _ _).
  - simpl. repeat constructor. simpl. tauto.
  - simpl. tauto.
  - reflexivity.
Defined.

(** *** Updating a class *)

Lemma filter_twice {A} (p q : A -> bool) l :
  filter p (filter q l) = filter (fun x => q x && p x) l.
Proof.
  induction l as [|a l IH]; [reflexivity|]. cbn [filter].
  destruct (q a); cbn [filter andb]; [|exact IH].
  destruct (p a); [f_equal|]; exact IH.
Qed.

Lemma select_others uuid_in st n g id u :
  (1 <= g <= 12)%Z -> uuid_in id = Some u ->
  select (classes st)
    [eq text_in c_class_name n; eq_int c_grade g; neq uuid_in c_id id]
  = ok (filter (fun c => negb (String.eqb (c_id c) u)) (named st n g)).
Proof.
  intros Hg Hu. unfold select, eq, eq_int, neq, text_in.
  rewrite (int4_in_grade g Hg), Hu.
  cbn [option_map all_ready fold_right]. unfold named. f_equal.
  rewrite filter_twice. apply filter_ext. intros c. cbn [forallb].
  now rewrite andb_true_r, andb_assoc.
Qed.

Lemma update_class_single_cases uuid_in st id value :
  (exists e, update_class_single uuid_in st id value = (st, failed e))
  \/ (exists u c,
        uuid_in id = Some u
        /\ filter (fun c => String.eqb (c_id c) u) (classes st) = [c]
        /\ (1 <= Schemas.grade value <= 12)%Z
        /\ update_class_single uuid_in st id value
           = (with_classes st
                (map (fun x =>
                        if String.eqb (c_id x) u
                        then {| c_id := c_id c;
                                c_class_name := Schemas.class_name value;
                                c_grade := Schemas.grade value;
                                c_created_at := c_created_at c |}
                        else x) (classes st)),
              ok {| c_id := c_id c;
                    c_class_name := Schemas.class_name value;
                    c_grade := Schemas.grade value;
                    c_created_at := c_created_at c |})).
Proof.
  unfold update_class_single.
  destruct (uuid_in id) as [u|]; [|left; now eexists].
  unfold int4_in.
  destruct ((- 2 ^ 31 <=? Schemas.grade value)
            && (Schemas.grade value <? 2 ^ 31))%Z; [|left; now eexists].
  destruct (filter _ (classes st)) as [|c [|c' l]] eqn:F;
    [left; now eexists | | left; now eexists].
  destruct (grade_check (Schemas.grade value)) eqn:G; cbn [negb];
    [|left; now eexists].
  right. exists u, c. apply grade_check_spec in G. tauto.
Qed.

(** X17: for a body that passes the schema, [PUT /api/classes/:id] of a
    class that exists, when no other class holds the new name and grade,
    rewrites the name and grade of that class in its place and answers
    200 with the row; the id and the time of creation stay. For an id
    that no class has nothing is written and the answer is not 200. It
    never answers 404. *)
Theorem update_class_in_place Number_parse uuid_in st id body value :
  Schemas.validate (Schemas.classSchema Number_parse) body = Joi.Valid value ->
  (forall c,
     NoDup (map c_id (classes st)) -> In c (classes st) ->
     uuid_in id = Some (c_id c) ->
     (forall c', In c' (classes st) ->
                 name_grade c'
                 = (Schemas.class_name value, Schemas.grade value) ->
                 c_id c' = c_id c) ->
     let row := {| c_id := c_id c; c_class_name := Schemas.class_name value;
                   c_grade := Schemas.grade value;
                   c_created_at := c_created_at c |} in
     update_class Number_parse uuid_in st id body
     = (with_classes st
          (map (fun x => if String.eqb (c_id x) (c_id c) then row else x)
               (classes st)),
        respond 200 (Success row (Some "Class updated successfully"))))
  /\ ((forall u, uuid_in id = Some u -> ~ In u (map c_id (classes st))) ->
      fst (update_class Number_parse uuid_in st id body) = st
      /\ status_code (snd (update_class Number_parse uuid_in st id body))
         <> 200)
  /\ status_code (snd (update_class Number_parse uuid_in st id body)) <> 404.
Proof.
  intros Hv. pose proof (classSchema_Valid _ _ _ Hv) as Hg.
  split; [|split].
  - intros c Hpk Hin Hu Hothers row. unfold update_class. rewrite Hv.
    rewrite (select_others _ _ _ _ _ _ Hg Hu).
    rewrite filter_none.
    + cbn [single data ok failed]. unfold update_class_single.
      rewrite Hu, (int4_in_grade _ Hg), (filter_pkey c_id _ c Hpk Hin).
      rewrite (proj2 (grade_check_spec _) Hg). reflexivity.
    + intros c' Hc'. apply named_In in Hc'. destruct Hc' as [Hin' Hpair].
      rewrite (Hothers c' Hin' Hpair), String.eqb_refl. reflexivity.
  - intros Hmissing. unfold update_class. rewrite Hv.
    destruct (data (single _)); [split; [reflexivity | discriminate]|].
    destruct (update_class_single_cases uuid_in st id value)
      as [[e ->] | [u [c [Hu [F _]]]]]; [split; [reflexivity | discriminate]|].
    exfalso. apply (Hmissing u Hu).
    assert (In c (filter (fun c => String.eqb (c_id c) u) (classes st))) as H
      by (rewrite F; now left).
    apply filter_In in H. destruct H as [H E]. apply String.eqb_eq in E.
    rewrite <- E. now apply in_map.
  - unfold update_class. rewrite Hv.
    destruct (data (single _)); [discriminate|].
    destruct (update_class_single_cases uuid_in st id value)
      as [[e ->] | [u [c [_ [_ [_ ->]]]]]]; discriminate.
Qed.

Lemma update_class_in_place_witness :
  update_class Sample.Number_parse Sample.uuid_in Sample.school
    Sample.class_3A
    (Json.Object [("class_name", Json.Str "3C");
                  ("grade", Json.Number (4 # 1))])
  = (with_classes Sample.school
       [ {| c_id := Sample.class_3A; c_class_name := "3C"; c_grade := 4;
            c_created_at := 0 |} ],
     respond 200
       (Success {| c_id := Sample.class_3A; c_class_name := "3C";
                   c_grade := 4; c_created_at := 0 |}
          (Some "Class updated successfully"))).
Proof.
  refine (proj1 (update_class_in_place Sample.Number_parse Sample.uuid_in
                   Sample.school Sample.class_3A _
                   {| Schemas.class_name := "3C"; Schemas.grade := 4 |} _)
                {| c_id := Sample.class_3A; c_class_name := "3A";
                   c_grade := 3; c_created_at := 0 |} _ _ _ _).
  - reflexivity.
  - simpl. repeat constructor. simpl. tauto.
  - simpl. tauto.
  - reflexivity.
  - intros c' [<-|[]] _. reflexivity.
Defined.

(** *** The constraints *)

Lemma NoDup_map_snoc {A B} (f : A -> B) l a :
  NoDup (map f l) -> ~ In (f a) (map f l) -> NoDup (map f (l ++ [a])).
Proof.
  intros Hnd Hnotin. rewrite map_app. simpl.
  apply NoDup_app; [assumption | repeat constructor; simpl; tauto |].
  intros b Hb [<-|[]]. contradiction.
Qed.








(** X19: [DELETE /api/classes/:id] takes students and attendance away
    only when its first query fails. When that query is answered,
    students and attendance are left as they were and no class goes but
    the one named. When it fails, the handler, which does not look at the
    error, goes on to the deletion: a class that exists is deleted
    together with its students and their attendance, and the answer is
    200. *)
Theorem delete_class_cascades_unguarded uuid_in st id :
  (students (fst (delete_class uuid_in None st id)) = students st
   /\ attendance (fst (delete_class uuid_in None st id)) = attendance st
   /\ forall c, In c (classes st) -> uuid_in id <> Some (c_id c) ->
                In c (classes (fst (delete_class uuid_in None st id))))
  /\ forall e u c,
       uuid_in id = Some u ->
       filter (fun c => String.eqb (c_id c) u) (classes st) = [c] ->
       let st' := fst (delete_class uuid_in (Some e) st id) in
       snd (delete_class uuid_in (Some e) st id)
       = respond 200 (Success tt (Some "Class deleted successfully"))
       /\ classes st'
          = filter (fun c => negb (String.eqb (c_id c) u)) (classes st)
       /\ students st'
          = filter (fun s => negb (String.eqb (s_class_id s) u)) (students st)
       /\ forall a, In a (attendance st') <->
                    In a (attendance st)
                    /\ forall s, In s (students st) -> s_class_id s = u ->
                                 a_student_id a <> s_id s.
Proof.
  split.
  - destruct (uuid_in id) as [u|] eqn:Hu.
    + destruct (filter (fun s => String.eqb (s_class_id s) u) (students st))
        as [|s l] eqn:Fs.
      * assert (forall s, In s (students st) -> s_class_id s <> u) as Hnone.
        { intros s Hs E.
          assert (In s (filter (fun s => String.eqb (s_class_id s) u)
                               (students st))) as H
            by (apply filter_In; split;
                [assumption | now apply String.eqb_eq]).
          now rewrite Fs in H. }
        destruct (filter (fun c => String.eqb (c_id c) u) (classes st))
          as [|c [|c' l']] eqn:Fc.
        -- assert (fst (delete_class uuid_in None st id) = st) as ->;
             [|tauto].
           unfold delete_class, unless.
           destruct (data (map_reply _ _)) as [[|? ?]|]; [|reflexivity|];
             unfold delete_class_single; now rewrite Hu, Fc.
        -- rewrite (delete_class_without_students uuid_in None st id u c
                      Hu Hnone Fc).
           cbn [fst students attendance classes].
           split; [reflexivity|]. split; [reflexivity|].
           intros k Hk Hne. apply filter_In. split; [assumption|].
           destruct (String.eqb_spec (c_id k) u) as [E|]; [|reflexivity].
           exfalso. apply Hne. now rewrite E.
        -- assert (fst (delete_class uuid_in None st id) = st) as ->;
             [|tauto].
           unfold delete_class, unless.
           destruct (data (map_reply _ _)) as [[|? ?]|]; [|reflexivity|];
             unfold delete_class_single; now rewrite Hu, Fc.
      * assert (In s (students st) /\ s_class_id s = u) as [Hs Es].
        { assert (In s (filter (fun s => String.eqb (s_class_id s) u)
                               (students st))) as H by (rewrite Fs; now left).
          apply filter_In in H. now rewrite String.eqb_eq in H. }
        rewrite (delete_class_with_students uuid_in st id u s Hu Hs Es).
        tauto.
    + assert (fst (delete_class uuid_in None st id) = st) as ->; [|tauto].
      unfold delete_class, unless.
      destruct (data (map_reply _ _)) as [[|? ?]|]; [|reflexivity|];
        unfold delete_class_single; now rewrite Hu.
  - intros e u c Hu Hc st'. subst st'.
    unfold delete_class, unless. cbn [data failed].
    unfold delete_class_single. rewrite Hu, Hc.
    cbn [fst snd error data ok classes students attendance].
    split; [reflexivity|]. split; [reflexivity|]. split; [reflexivity|].
    intros a. rewrite filter_In, negb_true_iff.
    split; intros [Ha Hkeep]; (split; [assumption|]).
    + intros s Hs Es E.
      assert (mem (a_student_id a)
                (map s_id (filter (fun s => String.eqb (s_class_id s) u)
                                  (students st))) = true) as M.
      { apply mem_In. rewrite E. apply in_map. apply filter_In.
        split; [assumption | now apply String.eqb_eq]. }
      congruence.
    + destruct (mem (a_student_id a) _) eqn:M; [|reflexivity].
      exfalso. apply mem_In in M. apply in_map_iff in M.
      destruct M as [s [Es Hs]]. apply filter_In in Hs.
      destruct Hs as [Hs Hcls]. apply String.eqb_eq in Hcls.
      now apply (Hkeep s Hs Hcls).
Qed.

(** The class 3A of the sample school, with its two students. *)
Lemma delete_class_cascades_unguarded_witness :
  students (fst (delete_class Sample.uuid_in (Some "fetch failed")
                   Sample.school Sample.class_3A)) = [].
Proof.
  destruct (proj2 (delete_class_cascades_unguarded Sample.uuid_in
                     Sample.school Sample.class_3A)
              "fetch failed" Sample.class_3A
              {| c_id := Sample.class_3A; c_class_name := "3A"; c_grade := 3;
                 c_created_at := 0 |} eq_refl eq_refl)
    as [_ [_ [H _]]].
  exact H.
Defined.

End ClassesFacts.

(** ** The students router *)
Module StudentsFacts.
Import Supabase SupabaseFacts Routes RoutesFacts Constraints Tables.
Import Classes ClassesFacts Students.

Lemma find_pkey {A} (f : A -> string) l a :
  NoDup (map f l) -> In a l ->
  find (fun x => String.eqb (f x) (f a)) l = Some a.
Proof.
  induction l as [|b l IH]; simpl; intros Hnd Hin; [contradiction|].
  inversion Hnd as [|? ? Hnotin Hnd']; subst.
  destruct Hin as [->|Hin]; [now rewrite String.eqb_refl|].
  destruct (String.eqb_spec (f b) (f a)) as [E|_]; [|now apply IH].
  exfalso. apply Hnotin. rewrite E. now apply in_map.
Qed.

(** X20: for a body that passes the schema, [POST /api/students] answers
    400 "Class not found", and writes nothing, when no class has the
    submitted class id. For a class that exists the student is stored
    after the others, with the generated id and the date of birth as the
    store reads it, and the answer is 201 with the stored row and its
    class. *)
Theorem create_student_checks_class
  Date_parse Date_now isGuid Date_toISOString uuid_in date_in
  gen now st body value :
  Schemas.validate (Schemas.studentSchema Date_parse Date_now isGuid) body
    = Joi.Valid value ->
  ((forall u, uuid_in (Schemas.sv_class_id value) = Some u ->
              ~ In u (map c_id (classes st))) ->
   create_student Date_parse Date_now isGuid Date_toISOString uuid_in date_in
     gen now st body
   = (st, respond 400 (Failure (Message "Class not found"))))
  /\ (forall c d,
        NoDup (map c_id (classes st)) -> In c (classes st) ->
        uuid_in (Schemas.sv_class_id value) = Some (c_id c) ->
        date_in (Date_toISOString (Schemas.date_of_birth value)) = Some d ->
        ~ In gen (map s_id (students st)) ->
        let row := {| s_id := gen; s_name := Schemas.name value;
                      s_class_id := c_id c;
                      s_gender := Schemas.sv_gender value;
                      s_date_of_birth := d; s_created_at := now |} in
        create_student Date_parse Date_now isGuid Date_toISOString
          uuid_in date_in gen now st body
        = (with_students st (students st ++ [row]),
           respond 201
             (Success (row, Some c) (Some "Student created successfully")))).
Proof.
  intros Hv. unfold create_student. rewrite Hv. split.
  - intros Hunknown.
    destruct (uuid_in (Schemas.sv_class_id value)) as [u|] eqn:Hu.
    + rewrite (select_class_id _ _ _ _ Hu).
      now rewrite (filter_missing c_id _ u (Hunknown u eq_refl)).
    + unfold select, eq. now rewrite Hu.
  - intros c d Hpk Hin Hu Hd Hgen.
    rewrite (select_class_id _ _ _ _ Hu), (filter_pkey c_id _ c Hpk Hin).
    cbn [single data ok]. unfold insert_student, sent.
    cbn [r_class_id r_date_of_birth r_name r_gender]. rewrite Hu, Hd.
    assert (mem (c_id c) (map c_id (classes st)) = true) as ->
      by (apply mem_In; now apply in_map).
    destruct (mem gen (map s_id (students st))) eqn:M;
      [apply mem_In in M; contradiction|].
    cbn [negb error data ok]. unfold with_class, embed_class.
    cbn [with_students classes s_class_id].
    now rewrite (find_pkey c_id _ c Hpk Hin).
Qed.

Lemma create_student_checks_class_witness :
  create_student Sample.Date_parse 0 Sample.isGuid Sample.Date_toISOString
    Sample.uuid_in Sample.date_in Sample.nobody 7 Sample.school
    (Json.Object [("name", Json.Str "Noah Wilson");
                  ("class_id", Json.Str Sample.nobody);
                  ("gender", Json.Str "Male");
                  ("date_of_birth", Json.Number 0)])
  = (Sample.school, respond 400 (Failure (Message "Class not found"))).
Proof.
  refine (proj1 (create_student_checks_class
                   Sample.Date_parse 0 Sample.isGuid Sample.Date_toISOString
                   Sample.uuid_in Sample.date_in Sample.nobody 7
                   Sample.school _
                   {| Schemas.name := "Noah Wilson";
                      Schemas.sv_class_id := Sample.nobody;
                      Schemas.sv_gender := Schemas.Male;
                      Schemas.date_of_birth := 0 |} _) _).
  - reflexivity.
  - intros u Hu. injection Hu as <-. simpl. intuition discriminate.
Defined.

(** X21: under the primary key, [DELETE /api/students/:id] of a student
    that exists removes that student and every attendance record of the
    student, keeps the other students and records in their order, and
    answers 200; for an id that no student has nothing is removed and the
    answer is 500 "Failed to delete student". It never answers 404. *)
Theorem delete_student_cascades uuid_in st id :
  (forall s,
     NoDup (map s_id (students st)) -> In s (students st) ->
     uuid_in id = Some (s_id s) ->
     delete_student uuid_in st id
     = ({| classes := classes st;
           students :=
             filter (fun x => negb (String.eqb (s_id x) (s_id s)))
                    (students st);
           attendance :=
             filter (fun a => negb (String.eqb (a_student_id a) (s_id s)))
                    (attendance st);
           serial := serial st |},
        respond 200 (Success tt (Some "Student deleted successfully"))))
  /\ ((forall u, uuid_in id = Some u -> ~ In u (map s_id (students st))) ->
      delete_student uuid_in st id
      = (st, respond 500 (Failure (Message "Failed to delete student"))))
  /\ status_code (snd (delete_student uuid_in st id)) <> 404.
Proof.
  unfold delete_student, delete_student_single. split; [|split].
  - intros s Hpk Hin Hu. rewrite Hu, (filter_pkey s_id _ s Hpk Hin).
    reflexivity.
  - intros Hmissing. destruct (uuid_in id) as [u|]; [|reflexivity].
    now rewrite (filter_missing s_id _ u (Hmissing u eq_refl)).
  - destruct (uuid_in id) as [u|]; [|discriminate].
    destruct (filter _ (students st)) as [|s [|s' l]]; discriminate.
Qed.

Lemma delete_student_cascades_witness :
  attendance (fst (delete_student Sample.uuid_in Sample.school Sample.emma))
  = [].
Proof.
  rewrite (proj1 (delete_student_cascades Sample.uuid_in Sample.school
                    Sample.emma)
                 {| s_id := Sample.emma; s_name := "Emma Johnson";
                    s_class_id := Sample.class_3A;
                    s_gender := Schemas.Female;
                    s_date_of_birth := "2015-03-15"; s_created_at := 0 |}).
  - reflexivity.
  - simpl. repeat constructor; simpl; intuition discriminate.
  - simpl. tauto.
  - reflexivity.
Defined.

(** *** The constraints *)

Lemma insert_student_keeps uuid_in date_in gen now st value :
  holds st -> holds (fst (insert_student uuid_in date_in gen now st value)).
Proof.
  intros [C1 C2 C3 C4 C5 C6 C7 C8]. unfold insert_student.
  destruct (uuid_in (r_class_id value)) as [u|]; [|now constructor].
  destruct (date_in (r_date_of_birth value)) as [d|]; [|now constructor].
  destruct (mem u (map c_id (classes st))) eqn:Mu; cbn [negb];
    [|now constructor].
  destruct (mem gen (map s_id (students st))) eqn:Mg; [now constructor|].
  cbn [fst]. constructor;
    cbn [with_students classes students attendance serial]; try assumption.
  - apply NoDup_map_snoc; [assumption|]. cbn [s_id]. intros Hin.
    apply mem_In in Hin. congruence.
  - apply Forall_app. split; [assumption|]. constructor; [|constructor].
    now apply mem_In.
  - eapply Forall_impl; [|exact C7]. intros a Ha. rewrite map_app.
    apply in_or_app. now left.
Qed.

Lemma update_student_single_keeps uuid_in date_in st id value :
  holds st -> holds (fst (update_student_single uuid_in date_in st id value)).
Proof.
  intros Hst. unfold update_student_single.
  destruct (uuid_in id) as [i|]; [|assumption].
  destruct (uuid_in (r_class_id value)) as [u|]; [|assumption].
  destruct (date_in (r_date_of_birth value)) as [d|]; [|assumption].
  destruct (filter _ (students st)) as [|s [|s' l]] eqn:F; try assumption.
  destruct (mem u (map c_id (classes st))) eqn:Mu; cbn [negb];
    [|assumption].
  destruct Hst as [C1 C2 C3 C4 C5 C6 C7 C8]. cbn [fst].
  assert (s_id s = i) as Hs.
  { assert (In s (filter (fun s => String.eqb (s_id s) i) (students st))) as H
      by (rewrite F; now left).
    apply filter_In in H. now rewrite String.eqb_eq in H. }
  set (row := {| s_id := s_id s; s_name := r_name value; s_class_id := u;
                 s_gender := r_gender value; s_date_of_birth := d;
                 s_created_at := s_created_at s |}).
  assert (map s_id (map (fun x => if String.eqb (s_id x) i then row else x)
                        (students st)) = map s_id (students st)) as Hids.
  { rewrite map_map. apply map_ext. intros x.
    destruct (String.eqb_spec (s_id x) i); [simpl; congruence | reflexivity]. }
  constructor; cbn [with_students classes students attendance serial];
    try assumption.
  - now rewrite Hids.
  - apply Forall_forall. intros x Hx. apply in_map_iff in Hx.
    destruct Hx as [y [<- Hy]].
    destruct (String.eqb (s_id y) i); [now apply mem_In|].
    rewrite Forall_forall in C4. now apply C4.
  - now rewrite Hids.
Qed.

Lemma delete_student_single_keeps uuid_in st id :
  holds st -> holds (fst (delete_student_single uuid_in st id)).
Proof.
  intros Hst. unfold delete_student_single.
  destruct (uuid_in id) as [u|]; [|assumption].
  destruct (filter _ (students st)) as [|s [|s' l]]; try assumption.
  destruct Hst as [C1 C2 C3 C4 C5 C6 C7 C8]. cbn [fst].
  constructor; cbn [classes students attendance serial]; try assumption.
  - now apply NoDup_map_filter.
  - rewrite Forall_forall in *. intros x Hx. apply filter_In in Hx.
    now apply C4.
  - now apply NoDup_map_filter.
  - rewrite Forall_forall in *. intros a Ha. apply filter_In in Ha.
    now apply C6.
  - rewrite Forall_forall in *. intros a Ha. apply filter_In in Ha.
    destruct Ha as [Ha Hkeep]. specialize (C7 a Ha).
    apply in_map_iff in C7. destruct C7 as [x [Ex Hx]].
    apply in_map_iff. exists x. split; [assumption|].
    apply filter_In. split; [assumption|]. now rewrite Ex.
  - now apply NoDup_map_filter.
Qed.

(** X22: the three writes of the students router keep the constraints of
    the schema: from a store in which the primary keys, the foreign keys
    and the uniqueness of (student_id, date) hold they lead to a store in
    which they hold. *)
Theorem students_router_keeps_constraints
  Date_parse Date_now isGuid Date_toISOString uuid_in date_in
  gen now st id body :
  holds st ->
  holds (fst (create_student Date_parse Date_now isGuid Date_toISOString
                uuid_in date_in gen now st body))
  /\ holds (fst (update_student Date_parse Date_now isGuid Date_toISOString
                   uuid_in date_in st id body))
  /\ holds (fst (delete_student uuid_in st id)).
Proof.
  intros Hst. split; [|split].
  - unfold create_student.
    destruct (Schemas.validate _ body) as [value|]; [|assumption].
    destruct (data (single _)); [|assumption].
    pose proof (insert_student_keeps uuid_in date_in gen now st
                  (sent Date_toISOString value) Hst) as H.
    destruct (insert_student _ _ gen now st _) as [st' r]. cbn [fst] in *.
    destruct (error r); [assumption|]. now destruct (data r).
  - unfold update_student.
    destruct (Schemas.validate _ body) as [value|]; [|assumption].
    destruct (data (single _)); [|assumption].
    pose proof (update_student_single_keeps uuid_in date_in st id
                  (sent Date_toISOString value) Hst) as H.
    destruct (update_student_single _ _ st id _) as [st' r]. cbn [fst] in *.
    destruct (error r); [assumption|]. now destruct (data r).
  - unfold delete_student.
    pose proof (delete_student_single_keeps uuid_in st id Hst) as H.
    destruct (delete_student_single uuid_in st id) as [st' r].
    cbn [fst] in *. destruct (error r); [assumption|]. now destruct (data r).
Qed.

Lemma students_router_keeps_constraints_witness :
  holds (fst (delete_student Sample.uuid_in Sample.school Sample.emma)).
Proof.
  exact (proj2 (proj2 (students_router_keeps_constraints
                         Sample.Date_parse 0 Sample.isGuid
                         Sample.Date_toISOString Sample.uuid_in
                         Sample.date_in Sample.nobody 7 Sample.school
                         Sample.emma Json.Null
                         AttendanceWrites.school_holds))).
Defined.

(** *** Reading and updating a student *)

Lemma select_student_id uuid_in st id u :
  uuid_in id = Some u ->
  select (students st) [eq uuid_in s_id id]
  = ok (filter (fun s => String.eqb (s_id s) u) (students st)).
Proof.
  intros Hu. unfold select, eq. rewrite Hu.
  cbn [option_map all_ready fold_right]. f_equal.
  apply filter_ext. intros c. cbn [forallb]. now rewrite andb_true_r.
Qed.

(** X23: under the primary key, [GET /api/students/:id] answers 200
    with the student of that id and the class joined to it, and 500 for
    an id that no student has. For a body that passes the schema,
    [PUT /api/students/:id] answers 400 "Class not found", and writes
    nothing, when no class has the submitted class id, and writes nothing
    either when no student has the id. Neither route ever answers 404. *)
Theorem student_by_id
  Date_parse Date_now isGuid Date_toISOString uuid_in date_in st id body :
  (forall s, NoDup (map s_id (students st)) -> In s (students st) ->
             uuid_in id = Some (s_id s) ->
             get_student uuid_in st id
             = respond 200 (Success (s, embed_class st s) None))
  /\ ((forall u, uuid_in id = Some u -> ~ In u (map s_id (students st))) ->
      get_student uuid_in st id
      = respond 500 (Failure (Message "Failed to fetch student"))
      /\ fst (update_student Date_parse Date_now isGuid Date_toISOString
                uuid_in date_in st id body) = st)
  /\ (forall value,
        Schemas.validate (Schemas.studentSchema Date_parse Date_now isGuid)
          body = Joi.Valid value ->
        (forall u, uuid_in (Schemas.sv_class_id value) = Some u ->
                   ~ In u (map c_id (classes st))) ->
        update_student Date_parse Date_now isGuid Date_toISOString
          uuid_in date_in st id body
        = (st, respond 400 (Failure (Message "Class not found"))))
  /\ status_code (get_student uuid_in st id) <> 404
  /\ status_code (snd (update_student Date_parse Date_now isGuid
                         Date_toISOString uuid_in date_in st id body))
     <> 404.
Proof.
  assert (forall value,
            (exists e, update_student_single uuid_in date_in st id value
                       = (st, failed e))
            \/ (exists st' row u,
                  uuid_in id = Some u /\ In u (map s_id (students st))
                  /\ update_student_single uuid_in date_in st id value
                     = (st', ok row))) as Hcases.
  { intros value. unfold update_student_single.
    destruct (uuid_in id) as [i|]; [|left; now eexists].
    destruct (uuid_in (r_class_id value)) as [u|]; [|left; now eexists].
    destruct (date_in (r_date_of_birth value)) as [d|]; [|left; now eexists].
    destruct (filter _ (students st)) as [|s [|s' l]] eqn:F;
      [left; now eexists | | left; now eexists].
    destruct (mem u (map c_id (classes st))); cbn [negb];
      [|left; now eexists].
    right. do 2 eexists. exists i. split; [reflexivity|].
    split; [|reflexivity].
    assert (In s (filter (fun s => String.eqb (s_id s) i) (students st))) as H
      by (rewrite F; now left).
    apply filter_In in H. destruct H as [H E]. apply String.eqb_eq in E.
    rewrite <- E. now apply in_map. }
  split; [|split; [|split; [|split]]].
  - intros s Hpk Hin Hu. unfold get_student.
    rewrite (select_student_id _ _ _ _ Hu), (filter_pkey s_id _ s Hpk Hin).
    reflexivity.
  - intros Hmissing. split.
    + unfold get_student. destruct (uuid_in id) as [u|] eqn:Hu.
      * rewrite (select_student_id _ _ _ _ Hu).
        now rewrite (filter_missing s_id _ u (Hmissing u eq_refl)).
      * unfold select, eq. now rewrite Hu.
    + unfold update_student.
      destruct (Schemas.validate _ body) as [value|]; [|reflexivity].
      destruct (data (single _)); [|reflexivity].
      destruct (Hcases (sent Date_toISOString value))
        as [[e ->] | [st' [row [u [Hu [Hin _]]]]]]; [reflexivity|].
      exfalso. now apply (Hmissing u Hu).
  - intros value Hv Hunknown. unfold update_student. rewrite Hv.
    destruct (uuid_in (Schemas.sv_class_id value)) as [u|] eqn:Hu.
    + rewrite (select_class_id _ _ _ _ Hu).
      now rewrite (filter_missing c_id _ u (Hunknown u eq_refl)).
    + unfold select, eq. now rewrite Hu.
  - unfold get_student, select, eq.
    destruct (uuid_in id) as [u|]; [|discriminate].
    cbn [option_map all_ready fold_right map_reply data error ok].
    destruct (filter _ (students st)) as [|c [|c' l]]; discriminate.
  - unfold update_student.
    destruct (Schemas.validate _ body) as [value|]; [|discriminate].
    destruct (data (single _)); [|discriminate].
    destruct (Hcases (sent Date_toISOString value))
      as [[e ->] | [st' [row [u [_ [_ ->]]]]]]; discriminate.
Qed.

Lemma student_by_id_witness :
  get_student Sample.uuid_in Sample.school Sample.nobody
  = respond 500 (Failure (Message "Failed to fetch student")).
Proof.
  refine (proj1 (proj1 (proj2 (student_by_id
                   Sample.Date_parse 0 Sample.isGuid Sample.Date_toISOString
                   Sample.uuid_in Sample.date_in Sample.school Sample.nobody
                   Json.Null)) _)).
  intros u Hu. injection Hu as <-. simpl. intuition discriminate.
Defined.

(** *** The lists *)

Lemma by_grade_name_total name_le :
  (forall a b, name_le a b = true \/ name_le b a = true) ->
  forall a b, by_grade_name name_le a b = true
              \/ by_grade_name name_le b a = true.
Proof.
  intros Ht a b. unfold by_grade_name. rewrite (Z.eqb_sym (c_grade b)).
  destruct (Z.eqb_spec (c_grade a) (c_grade b)); [apply Ht|].
  rewrite !Z.ltb_lt. lia.
Qed.

(** X24: [GET /api/classes] answers 200 with every class once, by grade
    and within a grade by name; [GET /api/students] answers 200 with
    every student once, by name, each with the class joined to it. *)
Theorem lists_ordered name_le st :
  (forall a b, name_le a b = true \/ name_le b a = true) ->
  (exists l,
     list_classes name_le st = respond 200 (Success l None)
     /\ Permutation l (classes st)
     /\ Sorted (fun a b =>
                  (c_grade a <= c_grade b)%Z
                  /\ (c_grade a = c_grade b ->
                      name_le (c_class_name a) (c_class_name b) = true)) l)
  /\ (exists l,
        list_students name_le st = respond 200 (Success l None)
        /\ Permutation (map fst l) (students st)
        /\ Sorted (fun a b => name_le (s_name (fst a)) (s_name (fst b))
                              = true) l
        /\ Forall (fun e => snd e = embed_class st (fst e)) l).
Proof.
  intros Ht. split.
  - eexists. unfold list_classes, select.
    cbn [all_ready fold_right map_reply ok data error option_map].
    split; [reflexivity|].
    rewrite (filter_all (fun r : class_row =>
                           forallb (fun g : class_row -> bool => g r) []))
      by reflexivity.
    split; [apply order_by_perm|].
    pose proof (order_by_sorted (by_grade_name name_le)
                  (by_grade_name_total name_le Ht) (classes st)) as Hs.
    induction Hs as [|a l _ IH Hhd]; constructor; [assumption|].
    destruct Hhd as [|b l Hab]; constructor.
    unfold by_grade_name in Hab.
    destruct (Z.eqb_spec (c_grade a) (c_grade b)) as [E|Hne].
    + split; [lia | intros _; assumption].
    + apply Z.ltb_lt in Hab. split; [lia | intros E; contradiction].
  - eexists. unfold list_students, select.
    cbn [all_ready fold_right map_reply ok data error option_map].
    split; [reflexivity|].
    rewrite (filter_all (fun r : student_row =>
                           forallb (fun g : student_row -> bool => g r) []))
      by reflexivity.
    split; [|split].
    + rewrite map_map. cbn [with_class fst]. rewrite map_id.
      apply order_by_perm.
    + pose proof (order_by_sorted (by_name name_le)
                    (fun a b => Ht (s_name a) (s_name b)) (students st))
        as Hs.
      induction Hs as [|a l _ IH Hhd]; simpl; constructor; [assumption|].
      destruct Hhd as [|b l Hab]; constructor. exact Hab.
    + apply Forall_forall. intros e He. apply in_map_iff in He.
      now destruct He as [s [<- _]].
Qed.

Lemma lists_ordered_witness :
  exists l,
    list_classes String.leb Sample.school = respond 200 (Success l None)
    /\ Permutation l (classes Sample.school).
Proof.
  destruct (proj1 (lists_ordered String.leb Sample.school String.leb_total))
    as [l [H [P _]]].
  exists l. split; assumption.
Defined.

End StudentsFacts.

(** ** One request after another *)
Module RoundTrips.
Import Supabase SupabaseFacts Routes RoutesFacts Constraints Tables.
Import AttendanceWrites Classes ClassesFacts.

Lemma upsert_unique uuid_in date_in st ts recs :
  NoDup (map key (attendance st)) ->
  NoDup (map key (attendance (fst (upsert uuid_in date_in st ts recs)))).
Proof.
  intros Huniq.
  destruct (upsert_cases uuid_in date_in st ts recs)
    as [[e ->] | [rs [_ [_ [Hnd ->]]]]]; [assumption|].
  now destruct (upsert_rows_shape ts rs st Huniq Hnd) as [_ [_ [U _]]].
Qed.

Lemma record_attendance_unique
  Date_parse isGuid Date_toISOString uuid_in date_in st ts body :
  NoDup (map key (attendance st)) ->
  NoDup (map key (attendance
                    (fst (record_attendance Date_parse isGuid
                            Date_toISOString uuid_in date_in st ts body)))).
Proof.
  intros Huniq. unfold record_attendance.
  destruct (Schemas.validate _ body) as [value|]; [|assumption].
  destruct (data (single _)); [|assumption].
  pose proof (upsert_unique uuid_in date_in st ts
                [(Schemas.student_id value,
                  Date_toISOString (Schemas.av_date value),
                  Schemas.av_status value)] Huniq) as H.
  destruct (upsert _ _ st ts _) as [st1 r]. cbn [fst] in H.
  destruct (error (single r)); [assumption|].
  now destruct (data (single r)).
Qed.

(** X25: a class that was just created can be read back. In a store
    where the primary key of classes and the foreign key of students
    hold, after [POST /api/classes] has stored a class under a new id,
    [GET /api/classes/:id] of that id answers 200 with the name and grade
    submitted and no students. *)
Theorem create_then_get_class Number_parse uuid_in gen now st body value :
  Schemas.validate (Schemas.classSchema Number_parse) body = Joi.Valid value ->
  NoDup (map c_id (classes st)) ->
  Forall (fun s => In (s_class_id s) (map c_id (classes st))) (students st) ->
  named st (Schemas.class_name value) (Schemas.grade value) = [] ->
  ~ In gen (map c_id (classes st)) ->
  uuid_in gen = Some gen ->
  get_class uuid_in (fst (create_class Number_parse gen now st body)) gen
  = respond 200
      (Success {| cv_class :=
                    {| c_id := gen;
                       c_class_name := Schemas.class_name value;
                       c_grade := Schemas.grade value;
                       c_created_at := now |};
                  cv_students := [] |} None).
Proof.
  intros Hv Hpk Hfk Hnone Hgen Hcanon.
  pose proof (classSchema_Valid _ _ _ Hv) as Hg.
  assert (fst (create_class Number_parse gen now st body)
          = with_classes st
              (classes st ++ [ {| c_id := gen;
                                  c_class_name := Schemas.class_name value;
                                  c_grade := Schemas.grade value;
                                  c_created_at := now |} ])) as ->.
  { unfold create_class. rewrite Hv, (select_named st _ _ Hg), Hnone.
    cbn [single data ok failed]. unfold insert_class.
    rewrite (int4_in_grade _ Hg), (proj2 (grade_check_spec _) Hg).
    cbn [negb].
    destruct (mem gen (map c_id (classes st))) eqn:M;
      [apply mem_In in M; contradiction | reflexivity]. }
  unfold get_class. rewrite (select_class_id _ _ _ _ Hcanon).
  cbn [with_classes classes students]. rewrite filter_app.
  rewrite (filter_missing c_id _ gen Hgen). cbn [filter c_id app].
  rewrite String.eqb_refl.
  cbn [map_reply data error ok option_map map single].
  unfold embed_students. cbn [with_classes students c_id].
  rewrite filter_none; [reflexivity|].
  intros s Hs. destruct (String.eqb_spec (s_class_id s) gen) as [E|];
    [|reflexivity].
  exfalso. apply Hgen. rewrite <- E.
  rewrite Forall_forall in Hfk. now apply Hfk.
Qed.

Lemma create_then_get_class_witness :
  get_class Sample.uuid_in
    (fst (create_class Sample.Number_parse Sample.nobody 7 Sample.school
            (Json.Object [("class_name", Json.Str "3B");
                          ("grade", Json.Number (3 # 1))])))
    Sample.nobody
  = respond 200
      (Success {| cv_class := {| c_id := Sample.nobody; c_class_name := "3B";
                                 c_grade := 3; c_created_at := 7 |};
                  cv_students := [] |} None).
Proof.
  refine (create_then_get_class Sample.Number_parse Sample.uuid_in
            Sample.nobody 7 Sample.school _
            {| Schemas.class_name := "3B"; Schemas.grade := 3 |}
            _ _ _ _ _ _).
  - reflexivity.
  - simpl. repeat constructor. simpl. tauto.
  - simpl. repeat constructor; simpl; tauto.
  - reflexivity.
  - simpl. intuition discriminate.
  - reflexivity.
Defined.

(** X26: a status that was just recorded shows in the class-and-date
    view. In a store where the primary key of students and the
    uniqueness of (student_id, date) hold and ids are stored as the store
    reads them, after [POST /api/attendance] for a student and a date,
    the view of the student's class on that date is answered 200 and
    lists the student with the status submitted. *)
Theorem record_then_view
  Date_parse isGuid Date_toISOString uuid_in date_in name_le
  st ts body value student dd classId date :
  Schemas.validate (Schemas.attendanceSchema Date_parse isGuid) body
    = Joi.Valid value ->
  NoDup (map s_id (students st)) ->
  NoDup (map key (attendance st)) ->
  (forall s, In s (students st) -> uuid_in (s_id s) = Some (s_id s)) ->
  In student (students st) ->
  uuid_in (Schemas.student_id value) = Some (s_id student) ->
  date_in (Date_toISOString (Schemas.av_date value)) = Some dd ->
  uuid_in classId = Some (s_class_id student) ->
  date_in date = Some dd ->
  let st' := fst (record_attendance Date_parse isGuid Date_toISOString
                    uuid_in date_in st ts body) in
  exists view e a,
    class_attendance uuid_in date_in name_le st' classId date
    = respond 200 (Success view None)
    /\ In e (cd_students view)
    /\ v_student e = student
    /\ v_attendance e = Some a
    /\ v_status a = Schemas.av_status value /\ v_date a = dd.
Proof.
  intros Hv Hpk Huniq Hcanon Hin Hu Hd Hc Hdate st'.
  pose proof (record_attendance_unique Date_parse isGuid Date_toISOString
                uuid_in date_in st ts body Huniq) as Huniq'.
  fold st' in Huniq'.
  destruct value as [s t x]. cbn [Schemas.student_id Schemas.av_date
                                   Schemas.av_status] in *.
  destruct (record_attendance_stores Date_parse isGuid Date_toISOString
              uuid_in date_in st ts body s t x (s_id student) dd Hv Hu Hd Hpk
              (in_map s_id _ _ Hin) (key_filter _ _ _ Huniq))
    as [st1 [row [E [Hrow [Hx Hs]]]]].
  assert (st' = st1) as Est by (unfold st'; now rewrite E).
  rewrite Est in *. clear st' Est E.
  assert (In row (attendance st1) /\ key row = (s_id student, dd))
    as [Hrin Hkey].
  { assert (In row (filter (same_key (s_id student) dd) (attendance st1)))
      as H by (rewrite Hrow; now left).
    apply filter_In in H. now rewrite same_key_key in H. }
  unfold key in Hkey. injection Hkey as Hsid Hdd.
  assert (forall s, In s (students st1) -> uuid_in (s_id s) = Some (s_id s))
    as Hcanon' by (now rewrite Hs).
  assert (In student (of_class name_le st1 (s_class_id student))) as Hof.
  { apply (of_class_In uuid_in). rewrite Hs. tauto. }
  pose proof (merged_attendance uuid_in name_le st1
                (fun a b Ha Hb E1 E2 =>
                   NoDup_map_eq key _ a b Huniq' Ha Hb
                     (f_equal2 pair E1 E2))
                (s_class_id student) dd student Hof) as [Hfound _].
  specialize (Hfound row Hrin Hsid Hdd).
  unfold class_attendance.
  rewrite (getClassAttendanceForDate_runs uuid_in date_in name_le st1 Hcanon'
             classId date (s_class_id student) dd Hc Hdate).
  eexists. eexists. eexists. split; [reflexivity|]. cbn [cd_students].
  split; [|split; [|split; [|split]]].
  - unfold studentsWithAttendance. apply in_map_iff.
    exists student. split; [reflexivity | exact Hof].
  - reflexivity.
  - cbn [v_attendance]. rewrite Hfound. reflexivity.
  - exact Hx.
  - exact Hdd.
Qed.

Lemma record_then_view_witness :
  exists view e a,
    class_attendance Sample.uuid_in Sample.date_in String.leb
      (fst (record_attendance Sample.Date_parse Sample.isGuid
              Sample.Date_toISOString Sample.uuid_in Sample.date_in
              Sample.school 7
              (Sample.attendance_body Sample.liam (Json.Number 0) Absent)))
      Sample.class_3A "1970-01-01"
    = respond 200 (Success view None)
    /\ In e (cd_students view)
    /\ s_name (v_student e) = "Liam Smith"
    /\ v_attendance e = Some a /\ v_status a = Absent.
Proof.
  destruct (record_then_view
              Sample.Date_parse Sample.isGuid Sample.Date_toISOString
              Sample.uuid_in Sample.date_in String.leb Sample.school 7
              (Sample.attendance_body Sample.liam (Json.Number 0) Absent)
              {| Schemas.student_id := Sample.liam; Schemas.av_date := 0;
                 Schemas.av_status := Absent |}
              {| s_id := Sample.liam; s_name := "Liam Smith";
                 s_class_id := Sample.class_3A; s_gender := Schemas.Male;
                 s_date_of_birth := "2015-05-22"; s_created_at := 0 |}
              "1970-01-01" Sample.class_3A "1970-01-01")
    as [view [e [a [H1 [H2 [H3 [H4 [H5 _]]]]]]]].
  - reflexivity.
  - simpl. repeat constructor; simpl; intuition discriminate.
  - simpl. repeat constructor. simpl. tauto.
  - intros s [<-|[<-|[]]]; reflexivity.
  - simpl. tauto.
  - reflexivity.
  - reflexivity.
  - reflexivity.
  - reflexivity.
  - exists view, e, a. rewrite H3. tauto.
Defined.

End RoundTrips.

(** ** The attendance export *)
Module ExcelFacts.
Import Supabase SupabaseFacts Routes RoutesFacts Excel.

Lemma data_rows_None format_date data r :
  In r data -> data_row format_date r = None ->
  data_rows format_date data = None.
Proof.
  induction data as [|r' data IH]; simpl; intros Hin Hr; [contradiction|].
  destruct Hin as [->|Hin].
  - now rewrite Hr.
  - rewrite (IH Hin Hr). now destruct (data_row format_date r').
Qed.

Lemma when_Some {R} (f : string -> option (R -> bool)) c :
  c <> "" -> when (Some c) f = [f c].
Proof. intros H. destruct c; [contradiction | reflexivity]. Qed.

(** X27: with a class named, the spreadsheet export fails as soon as the
    window holds a record of a student of another class. The store sends
    such a record without its student, reading the student's name throws,
    and the answer is 500 "Failed to export attendance data"; the same
    request for JSON is answered 200 and holds the record. *)
Theorem export_attendance_class_id
  format_date uuid_in date_in st startDate endDate period_line
  class_id student_id format_type c u d1 d2 a :
  format_type <> "json" ->
  class_id = Some c -> c <> "" -> uuid_in c = Some u ->
  date_in startDate = Some d1 -> date_in endDate = Some d2 ->
  (forall s, student_id = Some s -> s <> "" ->
             uuid_in s = Some (a_student_id a)) ->
  In a (attendance st) ->
  String.leb d1 (a_date a) = true -> String.leb (a_date a) d2 = true ->
  (forall s, In s (students st) -> s_id s = a_student_id a ->
             s_class_id s <> u) ->
  export_attendance format_date uuid_in date_in st startDate endDate
    period_line class_id student_id format_type
  = respond 500 (Failure (Message "Failed to export attendance data"))
  /\ exists data,
       export_attendance format_date uuid_in date_in st startDate endDate
         period_line class_id student_id "json"
       = respond 200 (Success (Rows data) None)
       /\ In a (map e_row data).
Proof.
  intros Hfmt Hc Hne Hu Hd1 Hd2 Hsid Hin Hlo Hhi Hother.
  assert (exists gs : list (attendance_row -> bool),
            all_ready ([gte date_in a_date startDate;
                        lte date_in a_date endDate]
                       ++ when student_id (eq uuid_in a_student_id))
            = Some gs
            /\ forallb (fun g => g a) gs = true) as [gs [Hgs Hpass]].
  { unfold gte, lte. rewrite Hd1, Hd2. cbn [option_map app].
    destruct student_id as [s|]; [destruct s as [|ch s]|].
    - eexists. split; [reflexivity|]. cbn [forallb]. now rewrite Hlo, Hhi.
    - unfold when, eq. rewrite (Hsid _ eq_refl) by discriminate.
      eexists. split; [reflexivity|]. cbn [forallb].
      now rewrite Hlo, Hhi, String.eqb_refl.
    - eexists. split; [reflexivity|]. cbn [forallb]. now rewrite Hlo, Hhi. }
  set (keep := fun s : student_row =>
                 forallb (fun g : student_row -> bool => g s)
                   [fun r => String.eqb (s_class_id r) u]).
  set (rows := order_by by_date_desc
                 (filter (fun r => forallb (fun g => g r) gs)
                         (attendance st))).
  assert (export_query uuid_in date_in st startDate endDate class_id
            student_id = ok (map (embed_student st keep) rows)) as Hq.
  { unfold export_query. rewrite Hc, (when_Some _ c Hne).
    unfold eq at 1. rewrite Hu. cbn [option_map all_ready fold_right]. unfold select.
    rewrite Hgs. reflexivity. }
  assert (In a rows) as Hrow.
  { unfold rows.
    apply (Permutation_in _ (Permutation_sym (order_by_perm _ _))).
    apply filter_In. split; assumption. }
  assert (e_students (embed_student st keep a) = None) as Hnull.
  { unfold embed_student. cbn [e_students].
    destruct (find _ (students st)) as [s|] eqn:F; [|reflexivity].
    apply find_some in F. destruct F as [Hs E]. apply String.eqb_eq in E.
    unfold keep. cbn [forallb].
    destruct (String.eqb_spec (s_class_id s) u) as [E'|]; [|reflexivity].
    exfalso. now apply (Hother s). }
  unfold export_attendance. rewrite Hq. cbn [error data ok]. split.
  - destruct (String.eqb_spec format_type "json"); [contradiction|].
    unfold worksheet.
    rewrite (data_rows_None format_date _ (embed_student st keep a));
      [reflexivity | now apply in_map |].
    unfold data_row. now rewrite Hnull.
  - eexists. split; [reflexivity|]. now rewrite ListFacts.embed_student_row.
Qed.

Lemma export_attendance_class_id_witness :
  export_attendance (fun d => d) Sample.uuid_in Sample.date_in Sample.school
    "1970-01-01" "1970-01-31" "Period: 1 month"
    (Some Sample.nobody) None "excel"
  = respond 500 (Failure (Message "Failed to export attendance data")).
Proof.
  refine (proj1 (export_attendance_class_id
                   (fun d => d) Sample.uuid_in Sample.date_in Sample.school
                   "1970-01-01" "1970-01-31" "Period: 1 month"
                   (Some Sample.nobody) None "excel"
                   Sample.nobody Sample.nobody "1970-01-01" "1970-01-31"
                   {| a_id := 0; a_student_id := Sample.emma;
                      a_date := "1970-01-01"; a_status := Late;
                      a_created_at := 5 |}
                   _ _ _ _ _ _ _ _ _ _ _)).
  - discriminate.
  - reflexivity.
  - discriminate.
  - reflexivity.
  - reflexivity.
  - reflexivity.
  - discriminate.
  - simpl. tauto.
  - reflexivity.
  - reflexivity.
  - intros s [<-|[<-|[]]] _; discriminate.
Defined.

(** *** The summary block *)

Lemma labelled_snoc data r k :
  labelled (data ++ [r]) k
  = labelled data k + (if String.eqb (label r) k then 1 else 0).
Proof.
  unfold labelled. rewrite filter_app, length_app. cbn [filter].
  fold (label r). now destruct (String.eqb (label r) k).
Qed.

Lemma labelled_absent data k : ~ In k (map label data) -> labelled data k = 0.
Proof.
  unfold labelled. induction data as [|r data IH]; simpl; [reflexivity|].
  intros H. fold (label r).
  destruct (String.eqb_spec (label r) k) as [E|_].
  - exfalso. apply H. now left.
  - apply IH. tauto.
Qed.

(** What holds of the accumulator of [reduce]. *)
Lemma statusCounts_spec data :
  JsObject.keys (statusCounts data)
  = Charts.first_seen (map label data)
  /\ forall k n, JsObject.own (statusCounts data) k = Some n ->
                 n = labelled data k.
Proof.
  unfold statusCounts.
  induction data as [|r data [IHk IHv]] using rev_ind.
  - split; [reflexivity | discriminate].
  - rewrite fold_left_app. cbn [fold_left].
    set (acc := fold_left count_status data []) in *. clearbody acc.
    unfold count_status. cbv zeta. fold (label r). split.
    + rewrite map_app. cbn [map]. rewrite ChartsFacts.first_seen_snoc.
      destruct (JsObject.own acc (label r)) as [n|] eqn:E.
      * rewrite (JsObjectFacts.keys_set_old _ _ _ _ E), IHk.
        assert (In (label r) (map label data)) as Hin.
        { apply ChartsFacts.first_seen_In. rewrite <- IHk.
          destruct (in_dec string_dec (label r) (JsObject.keys acc))
            as [H|H]; [assumption|].
          apply JsObjectFacts.own_None_keys in H. congruence. }
        apply ChartsFacts.existsb_eqb_In in Hin. now rewrite Hin.
      * rewrite (JsObjectFacts.set_new _ _ _ E). unfold JsObject.keys.
        rewrite map_app. cbn [map fst]. fold (JsObject.keys acc). rewrite IHk.
        apply JsObjectFacts.own_None_keys in E.
        rewrite IHk, ChartsFacts.first_seen_In in E.
        destruct (existsb (String.eqb (label r)) (map label data)) eqn:X;
          [|reflexivity].
        apply ChartsFacts.existsb_eqb_In in X. contradiction.
    + intros k n. rewrite JsObjectFacts.own_set, labelled_snoc.
      rewrite (String.eqb_sym k).
      destruct (String.eqb_spec (label r) k) as [<-|Hne].
      * intros H. injection H as <-.
        destruct (JsObject.own acc (label r)) as [m|] eqn:E.
        -- now rewrite (IHv _ _ E).
        -- apply JsObjectFacts.own_None_keys in E.
           rewrite IHk, ChartsFacts.first_seen_In in E.
           now rewrite (labelled_absent _ _ E).
      * intros H. rewrite (IHv _ _ H). lia.
Qed.

Lemma label_not_index r : JsObject.is_array_index (label r) = false.
Proof. unfold label. now destruct (a_status (e_row r)). Qed.

Lemma labelled_first_seen data :
  list_sum (map (labelled data) (Charts.first_seen (map label data)))
  = List.length data.
Proof.
  induction data as [|r data IH]; [reflexivity|].
  cbn [map Charts.first_seen list_sum fold_right List.length].
  fold (list_sum (map (labelled (r :: data))
                    (filter (fun x => negb (String.eqb x (label r)))
                            (Charts.first_seen (map label data))))).
  assert (forall l, (forall x, In x l -> x <> label r) ->
            map (labelled (r :: data)) l = map (labelled data) l) as Hother.
  { intros l Hl. apply map_ext_in. intros x Hx. unfold labelled.
    cbn [filter]. fold (label r).
    destruct (String.eqb_spec (label r) x) as [E|_]; [|reflexivity].
    exfalso. now apply (Hl x Hx). }
  rewrite Hother.
  2:{ intros x Hx. apply filter_In in Hx. destruct Hx as [_ Hx].
      destruct (String.eqb_spec x (label r)); [discriminate | assumption]. }
  pose proof (ChartsTotals.sum_filter_ne (labelled data) (label r)
                (Charts.first_seen (map label data))
                (ChartsFacts.first_seen_NoDup _)) as Hs.
  rewrite IH in Hs.
  assert (labelled (r :: data) (label r) = S (labelled data (label r))) as Hr.
  { unfold labelled. cbn [filter]. fold (label r).
    now rewrite String.eqb_refl. }
  rewrite Hr.
  destruct (existsb (String.eqb (label r))
              (Charts.first_seen (map label data))) eqn:E.
  - lia.
  - assert (~ In (label r) (map label data)) as Hnotin.
    { intros Hin.
      apply ChartsFacts.first_seen_In, ChartsFacts.existsb_eqb_In in Hin.
      congruence. }
    rewrite (labelled_absent _ _ Hnotin). lia.
Qed.

(** X28: the summary block of the attendance export. For data that is
    not empty it is an empty row, the heading, one row per status that
    occurs, in the order of first occurrence, with the number of records
    of that status, and the row of the total, the number of records. The
    counts listed are positive and add up to the total. Without data
    there is no block. *)
Theorem summary_counts data :
  data <> [] ->
  let labels := Charts.first_seen (map label data) in
  summary data
  = [] :: [Text "Summary Statistics"]
    :: map (fun k => [Text (String.append k ":");
                      Number (Z.of_nat (labelled data k))]) labels
    ++ [[Text "Total Records:"; Number (Z.of_nat (List.length data))]]
  /\ list_sum (map (labelled data) labels) = List.length data
  /\ Forall (fun k => 0 < labelled data k) labels
  /\ summary [] = [].
Proof.
  intros Hne labels. destruct (statusCounts_spec data) as [Hk Hv].
  split; [|split; [|split]].
  - unfold summary. destruct data as [|r data]; [contradiction|].
    set (d := r :: data) in *. do 2 f_equal. f_equal.
    rewrite JsObjectFacts.entries_plain.
    + fold labels in Hk. rewrite <- Hk. unfold JsObject.keys.
      rewrite map_map. apply map_ext_in. intros [k n] Hin. cbn [fst snd].
      rewrite (Hv k n); [reflexivity|].
      apply JsObjectFacts.own_In; [|assumption].
      rewrite Hk. apply ChartsFacts.first_seen_NoDup.
    + rewrite Hk. apply Forall_forall. intros k Hin.
      apply ChartsFacts.first_seen_In, in_map_iff in Hin.
      destruct Hin as [x [<- _]]. apply label_not_index.
  - apply labelled_first_seen.
  - apply Forall_forall. intros k Hin.
    apply ChartsFacts.first_seen_In, in_map_iff in Hin.
    destruct Hin as [x [<- Hx]]. unfold labelled.
    assert (In x (filter (fun r => String.eqb (status_name
                                                 (a_status (e_row r)))
                                              (label x)) data)) as F
      by (apply filter_In; split; [assumption | apply String.eqb_refl]).
    destruct (filter _ data); [contradiction | simpl; lia].
  - reflexivity.
Qed.

Lemma summary_counts_witness :
  summary (map (enrich Sample.register) (attendance Sample.register))
  = [ []; [Text "Summary Statistics"];
      [Text "Present:"; Number 2]; [Text "Absent:"; Number 1];
      [Text "Total Records:"; Number 3] ].
Proof.
  refine (proj1 (summary_counts
                   (map (enrich Sample.register)
                        (attendance Sample.register)) _)).
  discriminate.
Defined.

End ExcelFacts.

(** ** The age in the students export *)
Module AgeFacts.
Import Binary64 Dashboard Binary64Facts Age.
Local Open Scope Z_scope.

Lemma ms_per_year_value : ms_per_year = Number 31557600000.
Proof. vm_compute. reflexivity. Qed.

(** *** Exact results *)

Lemma located_exact N D mrs :
  0 < D -> located N D mrs -> N = shr_m mrs * D ->
  mrs = {| shr_m := shr_m mrs; shr_r := false; shr_s := false |}.
Proof.
  intros HD [Hm H] E. destruct mrs as [m r s]. cbn [shr_m shr_r shr_s] in *.
  destruct r, s; try reflexivity; exfalso; nia.
Qed.

(** A 53-bit mantissa followed by zeros is rounded to itself. *)
Lemma round_aux_shifted (mp Mp : positive) (j e : Z) :
  2 ^ 52 <= Zpos mp < 2 ^ 53 -> 0 <= j -> Zpos Mp = Zpos mp * 2 ^ j ->
  -1074 <= e + j <= 971 ->
  binary_round_aux prec emax false (Zpos Mp) e loc_Exact
  = S754_finite false mp (e + j).
Proof.
  intros Hm Hj HM He.
  assert (0 < 2 ^ j) as Pj by (apply Z.pow_pos_nonneg; lia).
  assert (Zpos (digits2_pos Mp) = 53 + j) as Hd.
  { apply digits2_pos_unique. rewrite HM.
    replace (53 + j - 1) with (52 + j) by lia.
    rewrite !Z.pow_add_r by lia. nia. }
  set (mrs1 := Nat.iter (Z.to_nat j) shr_1
                 (shr_record_of_loc (Zpos Mp) loc_Exact)).
  assert (shr_fexp prec emax (Zpos Mp) e loc_Exact = (mrs1, e + j)) as H1.
  { unfold shr_fexp. cbn [Zdigits2]. rewrite Hd.
    rewrite fexp_normal by lia.
    replace (53 + j + e - 53 - e) with j by lia. now apply shr_nat. }
  assert (located (Zpos Mp) 1 (shr_record_of_loc (Zpos Mp) loc_Exact))
    as Hloc by (split; cbn [shr_record_of_loc shr_m shr_r shr_s]; lia).
  destruct (located_iter _ 1 _ (Z.to_nat j) ltac:(lia) Hloc) as [L1 M1].
  fold mrs1 in L1, M1. rewrite Z2Nat.id in L1, M1 by assumption.
  cbn [shr_record_of_loc shr_m] in M1.
  assert (shr_m mrs1 = Zpos mp) as Em.
  { rewrite M1, HM. apply Z.div_mul. lia. }
  assert (mrs1 = {| shr_m := shr_m mrs1; shr_r := false; shr_s := false |})
    as Hrec.
  { apply (located_exact (Zpos Mp) (2 ^ j * 1)); [lia | assumption|].
    rewrite Em, HM. lia. }
  rewrite Em in Hrec.
  assert (shr_fexp prec emax (Zpos mp) (e + j) loc_Exact
          = ({| shr_m := Zpos mp; shr_r := false; shr_s := false |}, e + j))
    as H2.
  { unfold shr_fexp. cbn [Zdigits2].
    rewrite (digits2_pos_unique mp 53) by (simpl; lia).
    rewrite fexp_normal by lia.
    replace (53 + (e + j) - 53 - (e + j)) with 0 by lia. reflexivity. }
  unfold binary_round_aux. rewrite H1, Hrec.
  cbn [shr_m loc_of_shr_record round_nearest_even]. rewrite H2. cbn [shr_m].
  replace (e + j <=? emax - prec) with true
    by (symmetry; apply Z.leb_le; unfold emax, prec; lia).
  reflexivity.
Qed.

Lemma shl_align_value (m : positive) (e e' : Z) :
  e' <= e ->
  Zpos (fst (shl_align m e e')) = Zpos m * 2 ^ (e - e')
  /\ snd (shl_align m e e') = e'.
Proof.
  intros H. unfold shl_align. destruct (e' - e) as [|d|d] eqn:E; try lia.
  - cbn [fst snd]. replace (e - e') with 0 by lia. split; lia.
  - cbn [fst snd]. rewrite iter_xO. replace (e - e') with (Zpos d) by lia.
    tauto.
Qed.

(** An integer below 2^53 that is given with trailing zeros normalizes
    to its Number. *)
Lemma normalize_shifted (n k : Z) (Mp : positive) :
  0 < n < 2 ^ 53 -> 0 <= k <= 52 -> Zpos Mp = n * 2 ^ k ->
  binary_round prec emax false Mp (- k) = Number n.
Proof.
  intros Hn Hk HM.
  destruct (Number_exact n Hn) as [m [E [HN [Bm [BE Vm]]]]]. rewrite HN.
  assert (0 < 2 ^ k) as Pk by (apply Z.pow_pos_nonneg; lia).
  assert (0 < 2 ^ E) as PE by (apply Z.pow_pos_nonneg; lia).
  (* n has 53 - E digits *)
  assert (Zpos (digits2_pos Mp) = 53 - E + k) as Hd.
  { apply digits2_pos_unique. rewrite HM.
    assert (2 ^ 52 = 2 ^ (52 - E) * 2 ^ E) as E52
      by (rewrite <- Z.pow_add_r by lia; f_equal; lia).
    assert (2 ^ 53 = 2 ^ (53 - E) * 2 ^ E) as E53
      by (rewrite <- Z.pow_add_r by lia; f_equal; lia).
    replace (53 - E + k - 1) with (52 - E + k) by lia.
    rewrite !Z.pow_add_r by lia.
    assert (0 < 2 ^ (52 - E)) by (apply Z.pow_pos_nonneg; lia).
    assert (0 < 2 ^ (53 - E)) by (apply Z.pow_pos_nonneg; lia).
    assert (2 ^ (52 - E) <= n < 2 ^ (53 - E)) by nia. nia. }
  unfold binary_round. rewrite Hd, fexp_normal by lia.
  replace (53 - E + k + - k - 53) with (- E) by lia.
  destruct (Z.le_gt_cases k E) as [Hle|Hgt].
  - (* at most 53 digits: shifted left to 53 *)
    destruct (shl_align_value Mp (- k) (- E) ltac:(lia)) as [Hv He].
    destruct (shl_align Mp (- k) (- E)) as [mz ez]. cbn [fst snd] in Hv, He.
    subst ez.
    assert (mz = m) as ->.
    { apply Pos2Z.inj. rewrite Hv, HM, Vm.
      replace (- k - - E) with (E - k) by lia.
      rewrite <- Z.mul_assoc, <- Z.pow_add_r by lia. do 2 f_equal. lia. }
    apply round_aux_exact; [assumption | lia].
  - (* more than 53 digits: the zeros are shifted out *)
    assert (shl_align Mp (- k) (- E) = (Mp, - k)) as ->.
    { unfold shl_align. destruct (- E - - k) eqn:X; try reflexivity. lia. }
    rewrite (round_aux_shifted m Mp (k - E) (- k)); try lia.
    + f_equal. lia.
    + rewrite HM, Vm, <- Z.mul_assoc, <- Z.pow_add_r by lia.
      do 2 f_equal. lia.
Qed.

(** The difference of two time values after 1970 is exact. *)
Lemma sub_exact (a b : Z) :
  0 < b < a -> a < 2 ^ 53 -> sub (Number a) (Number b) = Number (a - b).
Proof.
  intros Hb Ha.
  destruct (Number_exact a ltac:(lia)) as [ma [Ea [HA [Ba [Ra Va]]]]].
  destruct (Number_exact b ltac:(lia)) as [mb [Eb [HB [Bb [Rb Vb]]]]].
  assert (0 < 2 ^ Ea) as PEa by (apply Z.pow_pos_nonneg; lia).
  assert (0 < 2 ^ Eb) as PEb by (apply Z.pow_pos_nonneg; lia).
  assert (Ea <= Eb) as Hexp.
  { destruct (Z.le_gt_cases Ea Eb) as [?|Hgt]; [assumption|]. exfalso.
    assert (2 ^ (Eb + 1) <= 2 ^ Ea) by (apply Z.pow_le_mono_r; lia).
    rewrite Z.pow_add_r in H by lia. change (2 ^ 1) with 2 in H. nia. }
  unfold sub. rewrite HA, HB. cbn [SFsub cond_Zopp].
  replace (Z.min (- Ea) (- Eb)) with (- Eb) by lia.
  destruct (shl_align_value ma (- Ea) (- Eb) ltac:(lia)) as [Hva _].
  destruct (shl_align_value mb (- Eb) (- Eb) ltac:(lia)) as [Hvb _].
  replace (- Ea - - Eb) with (Eb - Ea) in Hva by lia.
  replace (- Eb - - Eb) with 0 in Hvb by lia.
  rewrite Hva, Hvb, Va, Vb. change (2 ^ 0) with 1. rewrite Z.mul_1_r.
  rewrite <- (Z.mul_assoc a), <- Z.pow_add_r by lia.
  replace (Ea + (Eb - Ea)) with Eb by lia.
  rewrite <- Z.mul_sub_distr_r.
  assert (0 < (a - b) * 2 ^ Eb) as Hpos by nia.
  destruct ((a - b) * 2 ^ Eb) as [|Mp|Mp] eqn:EM; try lia.
  cbn [binary_normalize]. apply normalize_shifted; lia.
Qed.

(** *** The quotient of two integers *)
Lemma div_wide (p t : Z) :
  0 < p < 2 ^ 53 -> 4 <= t < 2 ^ 53 ->
  exists m1 E1,
    SFdiv prec emax (Number p) (Number t) = S754_finite false m1 (- E1)
    /\ 2 ^ 52 <= Zpos m1 < 2 ^ 53
    /\ 1 <= E1 <= 105
    /\ - t <= 2 * (Zpos m1 * t - p * 2 ^ E1) <= t.
Proof.
  intros Hp Ht.
  destruct (Number_exact p ltac:(lia)) as [mx [Ex [Hx [Bx [Rx Vx]]]]].
  destruct (Number_exact t ltac:(lia)) as [my [Ey [Hy [By [Ry Vy]]]]].
  rewrite Hx, Hy. cbn [SFdiv xorb].
  assert (0 < 2 ^ Ex) as PEx by (apply Z.pow_pos_nonneg; lia).
  assert (0 < 2 ^ Ey) as PEy by (apply Z.pow_pos_nonneg; lia).
  assert (Ey <= 50) as Hey.
  { destruct (Z.le_gt_cases Ey 50) as [?|Hgt]; [assumption|]. exfalso.
    assert (2 ^ 51 <= 2 ^ Ey) by (apply Z.pow_le_mono_r; lia).
    change (2 ^ 53) with (4 * 2 ^ 51) in By. nia. }
  set (e := - Ex + Ey - 53).
  set (N := Zpos mx * 2 ^ 53).
  assert (SFdiv_core_binary prec emax (Zpos mx) (- Ex) (Zpos my) (- Ey)
          = (N / Zpos my, e, new_location (Zpos my) (N mod Zpos my))) as Hcore.
  { unfold SFdiv_core_binary. cbn [Zdigits2].
    rewrite (digits2_pos_unique mx 53), (digits2_pos_unique my 53)
      by (simpl; lia).
    replace (53 + - Ex - (53 + - Ey)) with (- Ex + Ey) by lia.
    rewrite fexp_normal by lia.
    replace (Z.min (- Ex + Ey - 53) (- Ex - - Ey)) with e by (unfold e; lia).
    replace (- Ex - - Ey - e) with 53 by (unfold e; lia).
    cbv iota. rewrite Z.shiftl_mul_pow2 by lia. fold N.
    unfold Z.div, Z.modulo. destruct (Z.div_eucl N (Zpos my)). reflexivity. }
  rewrite Hcore.
  pose proof (Z.div_mod N (Zpos my) ltac:(lia)) as Hdm.
  pose proof (Z.mod_pos_bound N (Zpos my) ltac:(lia)) as Hr.
  set (q := N / Zpos my) in *. set (r := N mod Zpos my) in *.
  assert (2 ^ 52 <= q < 2 ^ 54) as Hq.
  { unfold q, N. split.
    - apply Z.div_le_lower_bound; [lia|].
      change (2 ^ 53) with 9007199254740992 in *.
      change (2 ^ 52) with 4503599627370496 in *. nia.
    - apply Z.div_lt_upper_bound; [lia|].
      change (2 ^ 54) with 18014398509481984.
      change (2 ^ 53) with 9007199254740992 in *.
      change (2 ^ 52) with 4503599627370496 in *. nia. }
  destruct q as [|qp|qp] eqn:Eq; [simpl in Hq; lia| |lia].
  pose proof (digits2_pos_bounds qp) as [Dlo Dhi].
  set (d := Zpos (digits2_pos qp)) in *.
  assert (53 <= d <= 54) as Hd.
  { split.
    - destruct (Z.le_gt_cases 53 d) as [?|Hlt]; [assumption|]. exfalso.
      assert (2 ^ d <= 2 ^ 52) by (apply Z.pow_le_mono_r; lia). lia.
    - destruct (Z.le_gt_cases d 54) as [?|Hgt]; [assumption|]. exfalso.
      assert (2 ^ 54 <= 2 ^ (d - 1)) by (apply Z.pow_le_mono_r; lia). lia. }
  assert (located N (Zpos my)
            (shr_record_of_loc (Zpos qp) (new_location (Zpos my) r))) as Hloc.
  { replace N with (Zpos qp * Zpos my + r) by lia.
    apply located_new_location; lia. }
  pose proof (round_aux_spec qp e (new_location (Zpos my) r) N (Zpos my))
    as Hspec.
  cbv zeta in Hspec. fold d in Hspec.
  destruct Hspec as [m1 [e1 [Hres [Bm1 [Be1 Hnear]]]]];
    [lia | unfold e; lia | unfold e; lia | lia | exact Hloc |].
  exists m1, (- e1). rewrite Z.opp_involutive.
  split; [assumption|]. split; [assumption|].
  split; [unfold e in Be1; lia|].
  set (s := e1 - e) in *.
  assert (0 <= s <= 2) as Hs by (unfold s; lia).
  assert (0 < 2 ^ s) as Ps by (apply Z.pow_pos_nonneg; lia).
  set (c := 2 ^ s * 2 ^ Ey).
  assert (0 < c) as Pc by (unfold c; nia).
  assert (2 ^ s * Zpos my = c * t) as ED by (unfold c; rewrite Vy; ring).
  assert (N = c * (p * 2 ^ (- e1))) as EN.
  { unfold N, c. rewrite Vx.
    replace (- e1) with (Ex + 53 - s - Ey) by (unfold s, e; lia).
    replace (p * 2 ^ Ex * 2 ^ 53) with (p * 2 ^ (Ex + 53))
      by (rewrite Z.pow_add_r by lia; ring).
    replace (2 ^ s * 2 ^ Ey * (p * 2 ^ (Ex + 53 - s - Ey)))
      with (p * (2 ^ s * 2 ^ Ey * 2 ^ (Ex + 53 - s - Ey))) by ring.
    rewrite <- !Z.pow_add_r by lia. do 2 f_equal. lia. }
  rewrite ED, EN in Hnear.
  replace (2 * (Zpos m1 * (c * t) - c * (p * 2 ^ (- e1))))
    with (c * (2 * (Zpos m1 * t - p * 2 ^ (- e1)))) in Hnear by ring.
  replace (- (c * t)) with (c * - t) in Hnear by ring.
  destruct Hnear as [Hn1 Hn2].
  apply Z.mul_le_mono_pos_l in Hn1, Hn2; try assumption. lia.
Qed.

(** *** [Math.floor] *)
Lemma Math_floor_spec (m : positive) (E : Z) :
  0 < E ->
  Math_floor (S754_finite false m (- E)) = Number (Zpos m / 2 ^ E).
Proof.
  intros HE. destruct E as [|k|k]; try lia. cbn [Math_floor Z.opp].
  destruct (Zpos m / 2 ^ Zpos k); reflexivity.
Qed.

(** X29: the age in the students export is exact. For a birth date
    after 1970 and before the present instant, both as time values in
    milliseconds below 2^53, the binary64 computation of
    [Math.floor((now - birthDate) / (365.25 * 24 * 60 * 60 * 1000))]
    gives the whole number of years of 31557600000 milliseconds that
    have passed, without rounding error. *)
Theorem age_whole_years (now birthDate : Z) :
  0 < birthDate < now -> now < 2 ^ 53 ->
  age now birthDate = Number ((now - birthDate) / 31557600000).
Proof.
  intros Hb Hn. unfold age. rewrite sub_exact, ms_per_year_value by lia.
  unfold div.
  set (p := now - birthDate). assert (0 < p < 2 ^ 53) as Hp by (unfold p; lia).
  clearbody p.
  destruct (div_wide p 31557600000 Hp ltac:(lia))
    as [m1 [E1 [-> [Bm [BE Hnear]]]]].
  rewrite Math_floor_spec by lia. f_equal.
  pose proof (Z.div_mod p 31557600000 ltac:(lia)) as Hdm.
  pose proof (Z.mod_pos_bound p 31557600000 ltac:(lia)) as Hr.
  set (q := p / 31557600000) in *. set (r := p mod 31557600000) in *.
  assert (0 <= q) as Hq by (apply Z.div_pos; lia).
  assert (0 < 2 ^ E1) as PX by (apply Z.pow_pos_nonneg; lia).
  (* the quotient is below 2^19, so the unit in the last place is small *)
  assert (34 <= E1) as HE.
  { destruct (Z.le_gt_cases 34 E1) as [?|Hlt]; [assumption|]. exfalso.
    assert (2 ^ E1 <= 2 ^ 33) as HX by (apply Z.pow_le_mono_r; lia).
    change (2 ^ 33) with 8589934592 in HX.
    change (2 ^ 53) with 9007199254740992 in *.
    change (2 ^ 52) with 4503599627370496 in *.
    assert (p * 2 ^ E1 <= 9007199254740992 * 8589934592) by nia. lia. }
  assert (2 ^ 34 <= 2 ^ E1) as HX by (apply Z.pow_le_mono_r; lia).
  change (2 ^ 34) with 17179869184 in HX.
  set (X := 2 ^ E1) in *.
  assert (p * X = 31557600000 * (q * X) + r * X) as EpX
    by (rewrite Hdm; ring).
  assert (0 <= r * X) as HW0 by nia.
  assert (r * X <= 31557599999 * X) as HW1 by nia.
  rewrite EpX in Hnear. set (Y := q * X) in *. set (W := r * X) in *.
  symmetry. apply Z.div_unique with (Zpos m1 - Y); fold Y; lia.
Qed.

(** Born 2015-03-15, on 2024-01-02: eight years. *)
Lemma age_whole_years_witness :
  age 1704171600000 1426377600000 = Number 8.
Proof.
  refine (age_whole_years 1704171600000 1426377600000 _ _).
  - lia.
  - reflexivity.
Defined.

End AgeFacts.

(** ** The client library *)

Module DbFacts.
Import Supabase SupabaseFacts Constraints Tables Classes Db.

(** X30: [db.createClass], which the class form calls. Under the anon key
    of the client library the insert is refused by row-level security,
    whatever the class: the helper throws and the store is as it was.
    Under a role the policy admits, a class of grade 1 to 12 is stored
    after the others under the generated id and the stored row returned,
    with no check of the name and grade: when a class of that name and
    grade exists the store is left with two of them. *)
Theorem createClass_by_role gen now st classData :
  createClass anon gen now st classData = (st, inl "42501")
  /\ forall r,
       permitted r = true ->
       (1 <= Schemas.grade classData <= 12)%Z ->
       ~ In gen (map c_id (classes st)) ->
       let row := {| c_id := gen;
                     c_class_name := Schemas.class_name classData;
                     c_grade := Schemas.grade classData;
                     c_created_at := now |} in
       createClass r gen now st classData
       = (with_classes st (classes st ++ [row]), inr (Some row))
       /\ (named st (Schemas.class_name classData) (Schemas.grade classData)
           <> [] ->
           ~ unique_names (fst (createClass r gen now st classData))).
Proof.
  split; [reflexivity|]. intros r Hr Hg Hgen row.
  assert (createClass r gen now st classData
          = (with_classes st (classes st ++ [row]), inr (Some row))) as E.
  { unfold createClass, insert_class. rewrite Hr.
    rewrite (ClassesFacts.int4_in_grade _ Hg).
    rewrite (proj2 (ClassesFacts.grade_check_spec _) Hg). cbn [negb].
    destruct (mem gen (map c_id (classes st))) eqn:M;
      [apply mem_In in M; contradiction | reflexivity]. }
  split; [exact E|]. rewrite E. cbn [fst]. intros Hn Hu.
  destruct (named st (Schemas.class_name classData) (Schemas.grade classData))
    as [|c l] eqn:En; [now contradiction Hn|].
  assert (In c (named st (Schemas.class_name classData)
                  (Schemas.grade classData))) as Hc
    by (rewrite En; now left).
  apply ClassesFacts.named_In in Hc. destruct Hc as [Hin Hng].
  unfold unique_names, with_classes in Hu. cbn [classes] in Hu.
  rewrite map_app in Hu. cbn [map] in Hu.
  apply NoDup_remove_2 in Hu. rewrite app_nil_r in Hu. apply Hu.
  change (name_grade row)
    with (Schemas.class_name classData, Schemas.grade classData).
  rewrite <- Hng. now apply in_map.
Qed.

Lemma createClass_by_role_witness :
  ~ unique_names
      (fst (createClass authenticated Sample.nobody 7 Sample.school
              {| Schemas.class_name := "3A"; Schemas.grade := 3 |})).
Proof.
  refine (proj2 (proj2 (createClass_by_role Sample.nobody 7 Sample.school
                          {| Schemas.class_name := "3A";
                             Schemas.grade := 3 |})
                   authenticated _ _ _) _).
  - reflexivity.
  - cbn. lia.
  - cbn. intros [H|[]]. discriminate H.
  - cbn. discriminate.
Defined.

End DbFacts.
